(** * The sidecar-aware media normalization pipeline (merged_script.py)

    A shallow embedding of [merged_script.py]: the sidecar resolver
    ([find_corresponding_json]), the format normalizer and the metadata
    applier ([process_file], [update_metadata_with_exiftool],
    [copy_metadata]) and the directory walker ([process_directory]).

    Python values read from a JSON sidecar are an inductive type; the
    collaborators the script shells out to (ImageMagick, ffmpeg, exiftool)
    and the file system are an environment of oracles that answer from the
    history of the run; the run itself is a trace of events threaded through
    a state-and-exception monad.

    The library functions the script calls are modelled from CPython 3.11
    on 64-bit Linux: [pathlib] as [PurePosixPath] (suffix, with_suffix,
    relative_to), with [exists] and [resolve] as oracles that answer or
    raise; [datetime] with the [strftime] of glibc; [int], [bool] and
    [dict.get] on the values [json.load] builds. A string is the sequence
    of its UTF-8 bytes; the files that [os.walk] yields are a list of paths,
    in the order of the walk; the text of the report is not modelled, the
    numbers it prints are. *)

From Stdlib Require Import ZArith QArith Qround Qabs Ascii String List Lia Bool.
From stdpp Require Import gmap strings list fin_maps.

Local Open Scope Z_scope.
Set Warnings "-register-all".

(** ** Exceptions and results *)

Inductive exn : Type :=
  | ValueError
  | TypeError
  | AttributeError
  | OverflowError
  | OSError
  | FileNotFoundError
  | CalledProcessError
  | JSONDecodeError
  | RuntimeError.

Inductive result (A : Type) : Type :=
  | Ok (a : A)
  | Raise (e : exn).

Arguments Ok {A} a.
Arguments Raise {A} e.

(** ** Python [str] operations used by the script and by [pathlib] *)

Module PyStr.

(** [s.rfind(c)], [None] standing for Python's [-1]. *)
Fixpoint rfind (c : ascii) (s : string) : option nat :=
  match s with
  | EmptyString => None
  | String a s' =>
      match rfind c s' with
      | Some i => Some (S i)
      | None => if Ascii.eqb a c then Some 0%nat else None
      end
  end.

(** [s[:n]] and [s[n:]] for [0 <= n]. *)
Fixpoint take (n : nat) (s : string) : string :=
  match n, s with
  | O, _ => EmptyString
  | S _, EmptyString => EmptyString
  | S n', String a s' => String a (take n' s')
  end.

Fixpoint drop (n : nat) (s : string) : string :=
  match n, s with
  | O, _ => s
  | S _, EmptyString => EmptyString
  | S n', String _ s' => drop n' s'
  end.

(** [c in s] for a one-character [c]. *)
Fixpoint contains (c : ascii) (s : string) : bool :=
  match s with
  | EmptyString => false
  | String a s' => Ascii.eqb a c || contains c s'
  end.

Definition startswith (c : ascii) (s : string) : bool :=
  match s with
  | String a _ => Ascii.eqb a c
  | EmptyString => false
  end.

(** [s.lower()] on the ASCII letters; the extensions the script compares
    against are ASCII, and no other character lower-cases to one of their
    letters. *)
Definition lower_ascii (c : ascii) : ascii :=
  let n := nat_of_ascii c in
  if ((65 <=? n) && (n <=? 90))%nat then ascii_of_nat (n + 32) else c.

Fixpoint lower (s : string) : string :=
  match s with
  | EmptyString => EmptyString
  | String a s' => String (lower_ascii a) (lower s')
  end.

(** [sep.join(l)]. *)
Fixpoint join (sep : string) (l : list string) : string :=
  match l with
  | [] => EmptyString
  | [x] => x
  | x :: rest => x +:+ sep +:+ join sep rest
  end.

Definition is_empty (s : string) : bool :=
  match s with EmptyString => true | _ => false end.

End PyStr.

(** ** [pathlib.PurePosixPath] *)

Module Pathlib.
Import PyStr.

(** A path is its anchor ([""] for a relative path, ["/"] for an absolute
    one) and its components. *)
Record Path : Type := mkPath { anchor : string; parts : list string }.

(** [p.name]: the final component, [''] when there is none. *)
Definition name (p : Path) : string := List.last (parts p) EmptyString.

(** [p.suffix]:
    [i = name.rfind('.')], then [name[i:]] if [0 < i < len(name) - 1]
    else ['']. *)
Definition suffix_of_name (n : string) : string :=
  match rfind "." n with
  | Some i =>
      if ((0 <? i) && (i <? String.length n - 1))%nat then drop i n
      else EmptyString
  | None => EmptyString
  end.

Definition suffix (p : Path) : string := suffix_of_name (name p).

(** [p.stem]: the name without its suffix. *)
Definition stem_of_name (n : string) : string :=
  match rfind "." n with
  | Some i =>
      if ((0 <? i) && (i <? String.length n - 1))%nat then take i n
      else n
  | None => n
  end.

Definition stem (p : Path) : string := stem_of_name (name p).

(** The path beside [p] whose final component is [n]. *)
Definition sibling (p : Path) (n : string) : Path :=
  mkPath (anchor p) (removelast (parts p) ++ [n]).

(** [p.with_suffix(sfx)]. *)
Definition with_suffix (p : Path) (sfx : string) : result Path :=
  if contains "/" sfx then Raise ValueError
  else if (negb (is_empty sfx) && negb (startswith "." sfx))
          || String.eqb sfx "." then Raise ValueError
  else
    let n := name p in
    if is_empty n then Raise ValueError
    else
      let old := suffix p in
      let n' :=
        if is_empty old then n +:+ sfx
        else take (String.length n - String.length old) n +:+ sfx in
      Ok (mkPath (anchor p) (removelast (parts p) ++ [n'])).

(** [a / b]. *)
Definition joinpath (a b : Path) : Path :=
  if is_empty (anchor b) then mkPath (anchor a) (parts a ++ parts b)
  else b.

(** [p.parent]. *)
Definition parent (p : Path) : Path :=
  mkPath (anchor p) (removelast (parts p)).

Fixpoint strip_prefix (pre l : list string) : option (list string) :=
  match pre, l with
  | [], _ => Some l
  | x :: pre', y :: l' =>
      if String.eqb x y then strip_prefix pre' l' else None
  | _ :: _, [] => None
  end.

(** [p.relative_to(other)]: [ValueError] unless [other] is a prefix. *)
Definition relative_to (p other : Path) : result Path :=
  if String.eqb (anchor p) (anchor other) then
    match strip_prefix (parts other) (parts p) with
    | Some rest => Ok (mkPath EmptyString rest)
    | None => Raise ValueError
    end
  else Raise ValueError.

(** [str(p)]. *)
Definition str (p : Path) : string :=
  if is_empty (anchor p) && (Nat.eqb (List.length (parts p)) 0) then "."
  else anchor p +:+ join "/" (parts p).

#[global] Instance Path_eq_dec : EqDecision Path.
Proof. solve_decision. Defined.

End Pathlib.

(** ** Python values, as [json.load] builds them *)

Module Py.
Import PyStr.

(** A [float]: a finite double (by its exact rational value), an
    infinity, or NaN ([json.load] accepts [Infinity] and [NaN]). *)
Inductive pyfloat : Type :=
  | FNaN
  | FInf (negative : bool)
  | FFin (q : Q).

(** A [dict] is the list of its items; [get] reads the first item with
    the key. *)
Inductive value : Type :=
  | VNone
  | VBool (b : bool)
  | VInt (z : Z)
  | VFloat (f : pyfloat)
  | VStr (s : string)
  | VList (l : list value)
  | VDict (d : list (string * value)).

(** [bool(v)]. *)
Definition truthy (v : value) : bool :=
  match v with
  | VNone => false
  | VBool b => b
  | VInt z => negb (z =? 0)
  | VFloat (FFin q) => negb (Qeq_bool q 0)
  | VFloat _ => true
  | VStr s => negb (is_empty s)
  | VList l => match l with [] => false | _ => true end
  | VDict d => match d with [] => false | _ => true end
  end.

Definition is_none (v : value) : bool :=
  match v with VNone => true | _ => false end.

Fixpoint lookup (k : string) (d : list (string * value)) : option value :=
  match d with
  | [] => None
  | (k', v) :: d' => if String.eqb k' k then Some v else lookup k d'
  end.

(** [v.get(k, default)]: only a [dict] has the method. *)
Definition get (v : value) (k : string) (default : value) : result value :=
  match v with
  | VDict d => Ok (match lookup k d with Some x => x | None => default end)
  | _ => Raise AttributeError
  end.

(** *** [int(v)] *)

(** [Py_ISSPACE]: the ASCII white space that [PyLong_FromString] skips
    before the sign and after the digits. *)
Definition is_space (c : ascii) : bool :=
  let n := nat_of_ascii c in
  ((9 <=? n) && (n <=? 13) || (n =? 32))%nat.

Definition digit_val (c : ascii) : option Z :=
  let n := nat_of_ascii c in
  if ((48 <=? n) && (n <=? 57))%nat then Some (Z.of_nat (n - 48)) else None.

(** [Py_UNICODE_ISSPACE] on a code point above ASCII (Unicode 14.0, the
    character database of CPython 3.11). *)
Definition unicode_isspace (cp : Z) : bool :=
  (cp =? 133) || (cp =? 160) || (cp =? 5760)
  || (8192 <=? cp) && (cp <=? 8202)
  || (cp =? 8232) || (cp =? 8233) || (cp =? 8239) || (cp =? 8287)
  || (cp =? 12288).

(** The digit zero of every script that has decimal digits above ASCII
    (Unicode 14.0); the nine digits after it follow it. *)
Definition DECIMAL_ZEROS : list Z :=
  [1632; 1776; 1984; 2406; 2534; 2662; 2790; 2918;
   3046; 3174; 3302; 3430; 3558; 3664; 3792; 3872;
   4160; 4240; 6112; 6160; 6470; 6608; 6784; 6800;
   6992; 7088; 7232; 7248; 42528; 43216; 43264; 43472;
   43504; 43600; 44016; 65296; 66720; 68912; 69734; 69872;
   69942; 70096; 70384; 70736; 70864; 71248; 71360; 71472;
   71904; 72016; 72784; 73040; 73120; 92768; 92864; 93008;
   120782; 120792; 120802; 120812; 120822; 123200; 123632; 125264;
   130032].

(** [Py_UNICODE_TODECIMAL] on a code point above ASCII. *)
Definition unicode_todecimal (cp : Z) : option Z :=
  match List.find (fun zero => (zero <=? cp) && (cp <=? zero + 9))
                  DECIMAL_ZEROS with
  | Some zero => Some (cp - zero)
  | None => None
  end.

(** What [_PyUnicode_TransformDecimalAndSpaceToASCII] writes for a
    character above ASCII: a blank for white space, the ASCII digit for a
    decimal digit; nothing else is part of a number. *)
Definition to_ascii (cp : Z) : option ascii :=
  if cp <? 128 then None
  else if unicode_isspace cp then Some " "%char
  else match unicode_todecimal cp with
       | Some d => Some (ascii_of_nat (48 + Z.to_nat d))
       | None => None
       end.

(** [_PyUnicode_TransformDecimalAndSpaceToASCII] over the UTF-8 bytes of a
    [str]: [need] bytes of the character that has given [cp] so far are
    still to come. ASCII is copied as it is; [None] where a character is
    no white space and no digit, so that [int] raises [ValueError]. *)
Fixpoint transform_decimal_and_space (need : nat) (cp : Z) (s : string)
  : option string :=
  match s with
  | EmptyString =>
      match need with
      | O => Some EmptyString
      | S _ => None
      end
  | String a r =>
      let n := Z.of_nat (nat_of_ascii a) in
      match need with
      | O =>
          if n <? 128 then
            option_map (String a) (transform_decimal_and_space 0 0 r)
          else if n <? 192 then None
          else if n <? 224 then transform_decimal_and_space 1 (n - 192) r
          else if n <? 240 then transform_decimal_and_space 2 (n - 224) r
          else if n <? 248 then transform_decimal_and_space 3 (n - 240) r
          else None
      | S k =>
          if (128 <=? n) && (n <? 192) then
            let cp' := cp * 64 + (n - 128) in
            match k with
            | O =>
                match to_ascii cp' with
                | Some c =>
                    option_map (String c)
                      (transform_decimal_and_space 0 0 r)
                | None => None
                end
            | S _ => transform_decimal_and_space k cp' r
            end
          else None
      end
  end.

Fixpoint lstrip (s : string) : string :=
  match s with
  | String a s' => if is_space a then lstrip s' else s
  | EmptyString => EmptyString
  end.

Definition strip (s : string) : string :=
  String.rev (lstrip (String.rev (lstrip s))).

(** Decimal digits with single underscores between them, and how many
    digits there are; [after_digit] is false where a digit must follow. *)
Fixpoint digits (acc count : Z) (after_digit : bool) (s : string)
  : option (Z * Z) :=
  match s with
  | EmptyString => if after_digit then Some (acc, count) else None
  | String a s' =>
      match digit_val a with
      | Some d => digits (10 * acc + d) (count + 1) true s'
      | None =>
          if Ascii.eqb a "_" && after_digit then digits acc count false s'
          else None
      end
  end.

(** [sys.int_info.default_max_str_digits]. *)
Definition MAX_STR_DIGITS : Z := 4300.

(** [PyLong_FromString] in base 10 on ASCII text. *)
Definition parse_ascii (s : string) : option Z :=
  let magnitude (r : string) : option Z :=
    match digits 0 0 false r with
    | Some (z, count) => if MAX_STR_DIGITS <? count then None else Some z
    | None => None
    end in
  match strip s with
  | String "+" r => magnitude r
  | String "-" r => option_map Z.opp (magnitude r)
  | t => magnitude t
  end.

(** [int(s)] of a [str]: [PyLong_FromUnicodeObject]. *)
Definition parse_int (s : string) : option Z :=
  match transform_decimal_and_space 0 0 s with
  | Some t => parse_ascii t
  | None => None
  end.

(** Truncation toward zero. *)
Definition Qtrunc (q : Q) : Z :=
  if Qle_bool 0 q then Qfloor q else Qceiling q.

(** [int(v)]. A [str] is read as CPython 3.11 reads it: decimal digits
    of any script, white space around them, single underscores between
    them, and at most [MAX_STR_DIGITS] digits. *)
Definition int (v : value) : result Z :=
  match v with
  | VInt z => Ok z
  | VBool b => Ok (if b then 1 else 0)
  | VFloat FNaN => Raise ValueError
  | VFloat (FInf _) => Raise OverflowError
  | VFloat (FFin q) => Ok (Qtrunc q)
  | VStr s =>
      match parse_int s with
      | Some z => Ok z
      | None => Raise ValueError
      end
  | VNone | VList _ | VDict _ => Raise TypeError
  end.

(** *** Numeric comparisons of the GPS block

    [abs(v) > c] and [v >= 0] for a rational constant [c]; a value that is
    not a number raises [TypeError]; any comparison with NaN is false. *)
Definition abs_gt (v : value) (c : Q) : result bool :=
  match v with
  | VBool b => Ok (negb (Qle_bool ((if b then 1 else 0) # 1) c))
  | VInt z => Ok (negb (Qle_bool (Z.abs z # 1) c))
  | VFloat FNaN => Ok false
  | VFloat (FInf _) => Ok true
  | VFloat (FFin q) => Ok (negb (Qle_bool (Qabs q) c))
  | VNone | VStr _ | VList _ | VDict _ => Raise TypeError
  end.

Definition ge_zero (v : value) : result bool :=
  match v with
  | VBool _ => Ok true
  | VInt z => Ok (0 <=? z)
  | VFloat FNaN => Ok false
  | VFloat (FInf negative) => Ok (negb negative)
  | VFloat (FFin q) => Ok (Qle_bool 0 q)
  | VNone | VStr _ | VList _ | VDict _ => Raise TypeError
  end.

End Py.

(** ** [datetime.datetime.utcfromtimestamp] and [strftime] *)

Module Datetime.

Record datetime : Type := mkDatetime {
  year : Z; month : Z; day : Z; hour : Z; minute : Z; second : Z
}.

(** [datetime._ord2ymd]: the proleptic Gregorian date of an ordinal, where
    0001-01-01 has ordinal 1. *)
Definition DAYS_IN_MONTH (month : Z) : Z :=
  nth (Z.to_nat month) [-1; 31; 28; 31; 30; 31; 30; 31; 31; 30; 31; 30; 31] 0.

Definition DAYS_BEFORE_MONTH (month : Z) : Z :=
  nth (Z.to_nat month)
    [-1; 0; 31; 59; 90; 120; 151; 181; 212; 243; 273; 304; 334] 0.

(** The month and day of day [n] (from 0) of a year. *)
Definition month_day (leapyear : bool) (n : Z) : Z * Z :=
  let month := Z.shiftr (n + 50) 5 in
  let preceding :=
    DAYS_BEFORE_MONTH month + (if (2 <? month) && leapyear then 1 else 0) in
  if n <? preceding then
    let month := month - 1 in
    let preceding :=
      preceding
      - (DAYS_IN_MONTH month + (if (month =? 2) && leapyear then 1 else 0)) in
    (month, n - preceding + 1)
  else (month, n - preceding + 1).

Definition ord2ymd (ordinal : Z) : Z * Z * Z :=
  let n := ordinal - 1 in
  let n400 := n / 146097 in
  let n := n mod 146097 in
  let n100 := n / 36524 in
  let n := n mod 36524 in
  let n4 := n / 1461 in
  let n := n mod 1461 in
  let n1 := n / 365 in
  let n := n mod 365 in
  let year := n400 * 400 + 1 + n100 * 100 + n4 * 4 + n1 in
  if (n1 =? 4) || (n100 =? 4) then (year - 1, 12, 31)
  else
    let leapyear := (n1 =? 3) && (negb (n4 =? 24) || (n100 =? 3)) in
    let '(month, day) := month_day leapyear n in
    (year, month, day).

(** The date of a day count from 1970-01-01, which has ordinal 719163. *)
Definition civil_from_days (days : Z) : Z * Z * Z :=
  ord2ymd (days + 719163).

(** 64-bit Linux: a timestamp outside [time_t] is an [OverflowError], a
    year outside C's [int] an [OSError] from [gmtime], a year outside
    [MINYEAR..MAXYEAR] a [ValueError]. *)
Definition utcfromtimestamp (t : Z) : result datetime :=
  if (t <? - 2 ^ 63) || (2 ^ 63 <=? t) then Raise OverflowError
  else
    let '(y, m, d) := civil_from_days (t / 86400) in
    let r := t mod 86400 in
    if (y - 1900 <? - 2 ^ 31) || (2 ^ 31 <=? y - 1900) then Raise OSError
    else if (y <? 1) || (9999 <? y) then Raise ValueError
    else Ok (mkDatetime y m d (r / 3600) (r mod 3600 / 60) (r mod 60)).

Definition digit_char (n : Z) : ascii :=
  ascii_of_nat (48 + Z.to_nat (n mod 10)).

Definition pad2 (n : Z) : string :=
  String (digit_char (n / 10)) (String (digit_char n) EmptyString).

Definition pad4 (n : Z) : string :=
  String (digit_char (n / 1000)) (String (digit_char (n / 100))
    (pad2 n)).

(** [%Y] as glibc writes it: the year in decimal without padding, so
    that a year before 1000 has fewer than four digits. The year of a
    [datetime] is from 1 to 9999. *)
Definition year_string (y : Z) : string :=
  if y <? 10 then String (digit_char y) EmptyString
  else if y <? 100 then pad2 y
  else if y <? 1000 then String (digit_char (y / 100)) (pad2 y)
  else pad4 y.

(** [dt.strftime("%Y:%m:%d %H:%M:%S")]. *)
Definition strftime (dt : datetime) : string :=
  year_string (year dt) +:+ ":" +:+ pad2 (month dt) +:+ ":"
    +:+ pad2 (day dt) +:+ " " +:+ pad2 (hour dt) +:+ ":"
    +:+ pad2 (minute dt) +:+ ":" +:+ pad2 (second dt).

(** The calendar read the other way, for stating what the fields mean:
    the day count of a date, as [datetime.date.toordinal] computes it. *)
Definition is_leap (y : Z) : bool :=
  (y mod 4 =? 0) && (negb (y mod 100 =? 0) || (y mod 400 =? 0)).

Definition days_before_year (y : Z) : Z :=
  let y1 := y - 1 in 365 * y1 + y1 / 4 - y1 / 100 + y1 / 400.

Definition month_length (leap : bool) (m : Z) : Z :=
  if m =? 2 then (if leap then 29 else 28)
  else if (m =? 4) || (m =? 6) || (m =? 9) || (m =? 11) then 30
  else 31.

Definition days_in_month (y m : Z) : Z := month_length (is_leap y) m.

Definition months_before (leap : bool) (m : Z) : Z :=
  fold_right Z.add 0
    (map (month_length leap) (map Z.of_nat (seq 1 (Z.to_nat (m - 1))))).

Definition days_before_month (y m : Z) : Z := months_before (is_leap y) m.

Definition toordinal (y m d : Z) : Z :=
  days_before_year y + days_before_month y m + d.

(** Seconds since the epoch of a UTC date and time ([calendar.timegm]);
    1970-01-01 has ordinal 719163. *)
Definition timegm (dt : datetime) : Z :=
  (toordinal (year dt) (month dt) (day dt) - 719163) * 86400
    + hour dt * 3600 + minute dt * 60 + second dt.

Definition valid (dt : datetime) : Prop :=
  1 <= year dt <= 9999 /\ 1 <= month dt <= 12
  /\ 1 <= day dt <= days_in_month (year dt) (month dt)
  /\ 0 <= hour dt < 24 /\ 0 <= minute dt < 60 /\ 0 <= second dt < 60.

(** Day [n] of a year falls in a month of the calendar, on the day that
    has [n] days of the year before it. [all_from] runs such a check over
    [z .. z+n-1]. *)
Definition month_day_check (leap : bool) (n : Z) : bool :=
  let '(m, d) := month_day leap n in
  (1 <=? m) && (m <=? 12) && (1 <=? d) && (d <=? month_length leap m)
  && (months_before leap m + d =? n + 1).

Fixpoint all_from (n : nat) (z : Z) (p : Z -> bool) : bool :=
  match n with
  | O => true
  | S k => if p z then all_from k (z + 1) p else false
  end.

(** Reading [YYYY:MM:DD HH:MM:SS] back. *)
Definition read_digit (s : string) : option (Z * string) :=
  match s with
  | String c rest =>
      let n := nat_of_ascii c in
      if ((48 <=? n) && (n <=? 57))%nat then Some (Z.of_nat (n - 48), rest)
      else None
  | EmptyString => None
  end.

Definition read2 (s : string) : option (Z * string) :=
  match read_digit s with
  | Some (a, s1) =>
      match read_digit s1 with
      | Some (b, s2) => Some (10 * a + b, s2)
      | None => None
      end
  | None => None
  end.

Definition expect (c : ascii) (s : string) : option string :=
  match s with
  | String a rest => if Ascii.eqb a c then Some rest else None
  | EmptyString => None
  end.

Definition strptime (s : string) : option datetime :=
  match read2 s with
  | Some (c, s) =>
  match read2 s with
  | Some (y, s) =>
  match expect ":" s with
  | Some s =>
  match read2 s with
  | Some (m, s) =>
  match expect ":" s with
  | Some s =>
  match read2 s with
  | Some (d, s) =>
  match expect " " s with
  | Some s =>
  match read2 s with
  | Some (h, s) =>
  match expect ":" s with
  | Some s =>
  match read2 s with
  | Some (mi, s) =>
  match expect ":" s with
  | Some s =>
  match read2 s with
  | Some (sec, EmptyString) => Some (mkDatetime (100 * c + y) m d h mi sec)
  | _ => None
  end | None => None end | None => None end | None => None end
      | None => None end | None => None end | None => None end
      | None => None end | None => None end | None => None end
      | None => None end | None => None end.

End Datetime.

(** ** The run: events, the environment, and the monad *)

Module Run.
Import Pathlib Py.

(** One argument of a command line: a literal string, or an f-string
    [f"{prefix}{v}"] whose value is kept as it is. *)
Inductive arg : Type :=
  | Lit (s : string)
  | Fmt (prefix : string) (v : value).

Inductive level : Type := INFO | WARNING | ERROR.

(** What a run does to the outside world, in order. A log record keeps
    the f-string of the source and the paths substituted into it. *)
Inductive event : Type :=
  | Log (l : level) (template : string) (paths : list string)
  | Mkdir (p : Path)
  | Copy2 (src dst : Path)
  | Spawn (argv : list arg)
  | WriteReport (p : Path).

Definition World : Type := list event.

(** How the outside world answers, given the history of the run. *)
Record Env : Type := mkEnv {
  (** [p.exists()]: whether the path exists, or the [OSError] that
      [stat] raises and [exists] does not take for an answer (a name that
      is too long, a directory that may not be searched) *)
  path_exists : World -> Path -> result bool;
  (** [shutil.which(prog) is not None] *)
  which : World -> string -> bool;
  (** [subprocess.run(argv)]: the exit status of the child, or the
      exception raised when it cannot be started *)
  spawn : World -> list arg -> result Z;
  (** [shutil.copy2(src, dst)]: the exception raised, if any *)
  copy2 : World -> Path -> Path -> option exn;
  (** [p.mkdir(parents=True, exist_ok=True)]: the exception raised, if any *)
  mkdir : World -> Path -> option exn;
  (** [json.load(open(p))]: the parsed value, or the exception raised *)
  json_load : World -> Path -> result value;
  (** writing [report.txt]: the exception raised, if any *)
  write_text : World -> Path -> option exn;
  (** [p.resolve()]: the exception raised, if any ([RuntimeError] on a
      loop of symbolic links, [OSError] where the working directory of a
      relative path is gone); the resolved path is text of the report *)
  resolve : World -> Path -> option exn
}.

(** A computation reads and extends the trace and returns or raises. *)
Definition M (A : Type) : Type := World -> result A * World.

Definition ret {A} (a : A) : M A := fun w => (Ok a, w).

Definition bind {A B} (m : M A) (k : A -> M B) : M B :=
  fun w =>
    match m w with
    | (Ok a, w') => k a w'
    | (Raise e, w') => (Raise e, w')
    end.

Definition lift {A} (r : result A) : M A := fun w => (r, w).

Definition emit (e : event) : M unit := fun w => (Ok tt, w ++ [e]).

Definition ask {A} (q : World -> A) : M A := fun w => (Ok (q w), w).

(** The classes of the exceptions that occur: [JSONDecodeError] is a
    [ValueError], [FileNotFoundError] an [OSError]. *)
Definition exn_eqb (a b : exn) : bool :=
  match a, b with
  | ValueError, ValueError | TypeError, TypeError
  | AttributeError, AttributeError | OverflowError, OverflowError
  | OSError, OSError | FileNotFoundError, FileNotFoundError
  | CalledProcessError, CalledProcessError
  | JSONDecodeError, JSONDecodeError
  | RuntimeError, RuntimeError => true
  | _, _ => false
  end.

Definition isinstance (e cls : exn) : bool :=
  exn_eqb e cls
  || match e, cls with
     | JSONDecodeError, ValueError | FileNotFoundError, OSError => true
     | _, _ => false
     end.

(** [try: m except cls: h] *)
Definition try_except {A} (m : M A) (cls : exn) (h : M A) : M A :=
  fun w =>
    match m w with
    | (Raise e, w') => if isinstance e cls then h w' else (Raise e, w')
    | r => r
    end.

(** [try: m except Exception: h] *)
Definition try_except_Exception {A} (m : M A) (h : M A) : M A :=
  fun w =>
    match m w with
    | (Raise _, w') => h w'
    | r => r
    end.

End Run.

Declare Scope run_scope.
Delimit Scope run_scope with run.
Notation "x <- c1 ;; c2" := (Run.bind c1 (fun x => c2))
  (at level 100, c1 at next level, right associativity) : run_scope.
Notation "c1 ;; c2" := (Run.bind c1 (fun _ => c2))
  (at level 100, right associativity) : run_scope.

(** ** merged_script.py *)

Module Script.
Import PyStr Pathlib Py Datetime Run.
Local Open Scope run_scope.

(** [SUPPORTED_MEDIA_EXTENSIONS] *)
Definition SUPPORTED_MEDIA_EXTENSIONS : gset string :=
  {[ ".jpg"; ".jpeg"; ".png"; ".mp4"; ".mov"; ".heic"; ".avi"; ".gif" ]}.

(** The float literal [0.00001]: the double nearest to 1/100000, which is
    5902958103587057 / 2^69. *)
Definition GPS_EPSILON : Q := 5902958103587057 # 590295810358705651712.

(** The report that [process_directory] accumulates and prints. *)
Record report : Type := mkReport {
  total_files : Z;
  processed_files : Z;
  failed_files : list string;
  extension_map : gmap string Z
}.

(** The number printed on the [Failed] line of the report. *)
Definition reported_failed (r : report) : Z :=
  total_files r - processed_files r.

(** The sum of the per-extension counts of the report. *)
Definition tally_sum (m : gmap string Z) : Z :=
  map_fold (fun _ count acc => count + acc) 0 m.

(** [extension_map[ext] += 1] on a [defaultdict(int)]. *)
Definition increment (ext : string) (m : gmap string Z) : gmap string Z :=
  <[ ext := default 0 (m !! ext) + 1 ]> m.

Section WithEnv.
Variable env : Env.

Definition log (l : level) (template : string) (paths : list string)
  : M unit := emit (Log l template paths).

(** [subprocess.run(argv, check=check)], returning the exit status. *)
Definition subprocess_run (argv : list arg) (check : bool) : M Z :=
  status <- (fun w => (spawn env w argv, w ++ [Spawn argv])) ;;
  if check && negb (status =? 0) then lift (Raise CalledProcessError)
  else ret status.

Definition convert_heic_to_jpg (heic_file jpg_file : Path) : M bool :=
  log INFO "Converting HEIC: {heic_file} -> {jpg_file}"
      [str heic_file; str jpg_file] ;;
  try_except
    (subprocess_run
       [Lit "magick"; Lit "convert"; Lit (str heic_file);
        Lit "-auto-orient"; Lit (str jpg_file)] true ;;
     ret true)
    CalledProcessError
    (log ERROR "HEIC conversion failed for {heic_file}: {e}"
         [str heic_file] ;;
     ret false).

Definition ffmpeg_argv (mov_file mp4_file : Path) : list arg :=
  [Lit "ffmpeg"; Lit "-y";
   Lit "-hwaccel"; Lit "none";
   Lit "-ignore_unknown";
   Lit "-i"; Lit (str mov_file);
   Lit "-map"; Lit "0:v:0";
   Lit "-map"; Lit "0:a:0";
   Lit "-dn";
   Lit "-c:v"; Lit "libx264";
   Lit "-preset"; Lit "fast";
   Lit "-pix_fmt"; Lit "yuv420p";
   Lit "-vf"; Lit "format=yuv420p";
   Lit "-c:a"; Lit "aac";
   Lit "-strict"; Lit "experimental";
   Lit (str mp4_file)].

Definition convert_video_to_mp4 (mov_file mp4_file : Path) : M bool :=
  found <- ask (fun w => which env w "ffmpeg") ;;
  if negb found then
    log ERROR
      "ffmpeg not found in PATH. Please install ffmpeg and add it to your PATH."
      [] ;;
    ret false
  else
    log INFO "Converting: {mov_file} -> {mp4_file}"
        [str mov_file; str mp4_file] ;;
    try_except
      (subprocess_run (ffmpeg_argv mov_file mp4_file) true ;;
       ret true)
      CalledProcessError
      (log ERROR "Failed to convert {mov_file} to MP4: {e}"
           [str mov_file] ;;
       ret false).

(** Lines 110-124 of [update_metadata_with_exiftool]: the arguments
    the timestamp adds. *)
Definition photo_timestamp (metadata : value) : M value :=
  taken <- lift (get metadata "photoTakenTime" (VDict [])) ;;
  ts <- lift (get taken "timestamp" VNone) ;;
  if truthy ts then ret ts
  else
    created <- lift (get metadata "creationTime" (VDict [])) ;;
    lift (get created "timestamp" VNone).

Definition date_args (date_str : string) : list arg :=
  [Lit ("-DateTimeOriginal=" +:+ date_str);
   Lit ("-CreateDate=" +:+ date_str);
   Lit ("-ModifyDate=" +:+ date_str)].

Definition timestamp_args (target_file : Path) (metadata : value)
  : M (list arg) :=
  ts <- photo_timestamp metadata ;;
  if truthy ts then
    try_except
      (epoch_time <- lift (int ts) ;;
       utc_time <- lift (utcfromtimestamp epoch_time) ;;
       ret (date_args (strftime utc_time)))
      ValueError
      (log WARNING
           "Unable to parse timestamp {photo_timestamp} for {target_file}"
           [str target_file] ;;
       ret [])
  else ret [].

(** Lines 127-136: the arguments the GPS data adds. *)
Definition geo_data (metadata : value) : M value :=
  g <- lift (get metadata "geoData" VNone) ;;
  if truthy g then ret g
  else
    g' <- lift (get metadata "geoDataExif" VNone) ;;
    if truthy g' then ret g' else ret (VDict []).

Definition gps_args (metadata : value) : M (list arg) :=
  geo <- geo_data metadata ;;
  latitude <- lift (get geo "latitude" VNone) ;;
  longitude <- lift (get geo "longitude" VNone) ;;
  far <-
    (if negb (is_none latitude) && negb (is_none longitude) then
       a <- lift (abs_gt latitude GPS_EPSILON) ;;
       if a then ret true else lift (abs_gt longitude GPS_EPSILON)
     else ret false) ;;
  if far then
    north <- lift (ge_zero latitude) ;;
    east <- lift (ge_zero longitude) ;;
    ret [Fmt "-GPSLatitude=" latitude;
         Fmt "-GPSLongitude=" longitude;
         Lit ("-GPSLatitudeRef=" +:+ (if north then "N" else "S"));
         Lit ("-GPSLongitudeRef=" +:+ (if east then "E" else "W"))]
  else ret [].

(** Lines 139-141: the optional description. *)
Definition description_args (metadata : value) : M (list arg) :=
  description <- lift (get metadata "description" VNone) ;;
  if truthy description then ret [Fmt "-ImageDescription=" description]
  else ret [].

Definition update_metadata_with_exiftool
    (target_file : Path) (metadata : value) : M unit :=
  dates <- timestamp_args target_file metadata ;;
  gps <- gps_args metadata ;;
  descr <- description_args metadata ;;
  let exiftool_args :=
    [Lit "exiftool"; Lit "-overwrite_original"]
      ++ dates ++ gps ++ descr ++ [Lit (str target_file)] in
  log INFO "Updating metadata on: {target_file}" [str target_file] ;;
  try_except_Exception
    (returncode <- subprocess_run exiftool_args false ;;
     if negb (returncode =? 0) then
       log ERROR
           "ExifTool error for {target_file}: {result.stderr.strip()}"
           [str target_file]
     else
       log INFO "Metadata updated for {target_file}" [str target_file])
    (log ERROR "Failed to run ExifTool for {target_file}: {e}"
         [str target_file]).

Definition copy_metadata (src_file dst_file : Path) : M bool :=
  log INFO "Copying metadata from {src_file} to {dst_file}"
      [str src_file; str dst_file] ;;
  try_except
    (subprocess_run
       [Lit "exiftool"; Lit "-overwrite_original";
        Lit "-TagsFromFile"; Lit (str src_file);
        Lit "-All:All"; Lit (str dst_file)] true ;;
     ret true)
    CalledProcessError
    (log ERROR "Metadata copy failed from {src_file} to {dst_file}: {e}"
         [str src_file; str dst_file] ;;
     ret false).

Definition find_corresponding_json (media_file : Path)
  : M (option Path) :=
  json_candidate1 <-
    lift (with_suffix media_file (suffix media_file +:+ ".json")) ;;
  e1 <- (fun w => (path_exists env w json_candidate1, w)) ;;
  if e1 then ret (Some json_candidate1)
  else
    json_candidate2 <- lift (with_suffix media_file ".json") ;;
    e2 <- (fun w => (path_exists env w json_candidate2, w)) ;;
    if e2 then ret (Some json_candidate2) else ret None.

(** Lines 203-233 of [process_file]: the output path and whether a
    conversion was performed, or [None] where the function has returned
    [False]. *)
Definition normalize (file_path input_dir output_dir : Path)
  : M (option (Path * bool)) :=
  rel <- try_except
           (rel_path <- lift (relative_to file_path input_dir) ;;
            ret (Some rel_path))
           ValueError
           (log ERROR
                "Error computing relative path for {file_path}: {e}"
                [str file_path] ;;
            ret None) ;;
  match rel with
  | None => ret None
  | Some rel_path =>
      let output_file := joinpath output_dir rel_path in
      (fun w => (match mkdir env w (parent output_file) with
                 | Some e => Raise e
                 | None => Ok tt
                 end, w ++ [Mkdir (parent output_file)])) ;;
      let ext := lower (suffix file_path) in
      if String.eqb ext ".heic" then
        output_file <- lift (with_suffix output_file ".jpg") ;;
        converted <- convert_heic_to_jpg file_path output_file ;;
        if negb converted then ret None
        else ret (Some (output_file, true))
      else if bool_decide (ext ∈ ({[ ".mov"; ".avi" ]} : gset string)) then
        output_file <- lift (with_suffix output_file ".mp4") ;;
        converted <- convert_video_to_mp4 file_path output_file ;;
        if negb converted then ret None
        else ret (Some (output_file, true))
      else
        try_except_Exception
          ((fun w => (match copy2 env w file_path output_file with
                      | Some e => Raise e
                      | None => Ok tt
                      end, w ++ [Copy2 file_path output_file])) ;;
           ret (Some (output_file, false)))
          (log ERROR "Error copying {file_path} to {output_file}: {e}"
               [str file_path; str output_file] ;;
           ret None)
  end.

(** Lines 248-254 of [process_file]: no sidecar. *)
Definition without_sidecar (file_path output_file : Path)
    (conversion_performed : bool) : M unit :=
  if conversion_performed then
    copy_metadata file_path output_file ;; ret tt
  else
    log INFO
      "No JSON sidecar found for {file_path}. Preserving original metadata."
      [str file_path].

(** Lines 238-247 of [process_file]: the sidecar is loaded and
    applied. *)
Definition with_sidecar (json_sidecar output_file : Path) : M unit :=
  metadata <-
    try_except_Exception
      (metadata <- (fun w => (json_load env w json_sidecar, w)) ;;
       match metadata with
       | VList (first :: _) => ret first
       | _ => ret metadata
       end)
      (log WARNING "Could not parse JSON {json_sidecar}: {e}"
           [str json_sidecar] ;;
       ret (VDict [])) ;;
  update_metadata_with_exiftool output_file metadata.

(** Lines 235-256 of [process_file]. *)
Definition apply_metadata (file_path output_file : Path)
    (conversion_performed : bool) : M bool :=
  json_sidecar <- find_corresponding_json file_path ;;
  match json_sidecar with
  | Some sidecar =>
      present <- (fun w => (path_exists env w sidecar, w)) ;;
      if present then with_sidecar sidecar output_file
      else without_sidecar file_path output_file conversion_performed
  | None => without_sidecar file_path output_file conversion_performed
  end ;;
  ret true.

Definition process_file (file_path input_dir output_dir : Path)
  : M bool :=
  normalized <- normalize file_path input_dir output_dir ;;
  match normalized with
  | None => ret false
  | Some (output_file, conversion_performed) =>
      apply_metadata file_path output_file conversion_performed
  end.

Definition empty_report : report := mkReport 0 0 [] ∅.

(** The loop of [process_directory] over the files that [os.walk]
    yields, in the order it yields them. *)
Fixpoint walk (input_dir output_dir : Path) (files : list Path)
    (r : report) : M report :=
  match files with
  | [] => ret r
  | file_path :: rest =>
      if bool_decide (lower (suffix file_path)
                        ∈ SUPPORTED_MEDIA_EXTENSIONS) then
        log INFO "Processing file: {file_path}" [str file_path] ;;
        ok <- process_file file_path input_dir output_dir ;;
        walk input_dir output_dir rest
          (if ok then
             mkReport (total_files r + 1) (processed_files r + 1)
               (failed_files r)
               (increment (lower (suffix file_path)) (extension_map r))
           else
             mkReport (total_files r + 1) (processed_files r)
               (failed_files r ++ [str file_path]) (extension_map r))
      else walk input_dir output_dir rest r
  end.

(** [p.resolve()] inside an f-string: it raises or gives text. *)
Definition resolved (p : Path) : M unit :=
  fun w => (match resolve env w p with
            | Some e => Raise e
            | None => Ok tt
            end, w).

(** [process_directory]: the walk; then the lines of the report are
    built, with both directories resolved (lines 284-285), and the report
    is logged and written to [output_dir / "report.txt"]; a failure to
    write it, or to resolve its path for the log, is logged. The text of
    the report is not modelled: [report] holds the values it prints. *)
Definition process_directory (input_dir output_dir : Path)
    (files : list Path) : M report :=
  r <- walk input_dir output_dir files empty_report ;;
  resolved input_dir ;;
  resolved output_dir ;;
  log INFO "\n{report_text}" [] ;;
  let report_path := joinpath output_dir (mkPath "" ["report.txt"]) in
  try_except_Exception
    ((fun w => (match write_text env w report_path with
                | Some e => Raise e
                | None => Ok tt
                end, w ++ [WriteReport report_path])) ;;
     resolved report_path ;;
     log INFO "Report written to: {report_path.resolve()}"
         [str report_path])
    (log ERROR "Failed to write report: {e}" []) ;;
  ret r.

End WithEnv.
End Script.

(** ** The words of the specification

    What the specification says of a metadata bag, written from its words,
    to be compared with what the script computes. *)

Module Words.
Import PyStr Py.

(** "returning the first that exists and none if neither exists", from
    the answers of the two existence checks; a check that raises ends the
    resolution. *)
Definition first_existing (appended replaced : Pathlib.Path)
    (e1 e2 : result bool) : result (option Pathlib.Path) :=
  match e1 with
  | Ok true => Ok (Some appended)
  | Ok false =>
      match e2 with
      | Ok true => Ok (Some replaced)
      | Ok false => Ok None
      | Raise e => Raise e
      end
  | Raise e => Raise e
  end.

(** [metadata[k].timestamp], none where a key is absent. *)
Definition timestamp_field (d : list (string * value)) (k : string) : value :=
  match lookup k d with
  | Some (VDict t) => default VNone (lookup "timestamp" t)
  | _ => VNone
  end.

(** "prefer [photoTakenTime.timestamp], fall back to
    [creationTime.timestamp]". *)
Definition chosen_timestamp (d : list (string * value)) : value :=
  let taken := timestamp_field d "photoTakenTime" in
  if truthy taken then taken else timestamp_field d "creationTime".

(** The two time entries of a sidecar are objects where they are present. *)
Definition is_object_or_absent (o : option value) : Prop :=
  match o with
  | Some (VDict _) | None => True
  | Some _ => False
  end.

Definition time_entries_are_objects (d : list (string * value)) : Prop :=
  is_object_or_absent (lookup "photoTakenTime" d)
  /\ is_object_or_absent (lookup "creationTime" d).

(** "prefer [geoData], fall back to [geoDataExif]". *)
Definition coordinate_bag (d : list (string * value)) : value :=
  let g := default VNone (lookup "geoData" d) in
  if truthy g then g
  else
    let g' := default VNone (lookup "geoDataExif" d) in
    if truthy g' then g' else VDict [].

Definition is_number (v : value) : Prop :=
  match v with
  | VBool _ | VInt _ | VFloat _ => True
  | _ => False
  end.

(** "has absolute value greater than [c]". *)
Definition magnitude_exceeds (v : value) (c : Q) : Prop :=
  match v with
  | VBool b => (c < inject_Z (if b then 1 else 0))%Q
  | VInt z => (c < inject_Z (Z.abs z))%Q
  | VFloat (FFin q) => (c < Qabs q)%Q
  | VFloat (FInf _) => True
  | _ => False
  end.

(** "non-negative". *)
Definition non_negative (v : value) : Prop :=
  match v with
  | VBool _ => True
  | VInt z => 0 <= z
  | VFloat (FFin q) => (0 <= q)%Q
  | VFloat (FInf negative) => negative = false
  | _ => False
  end.

(** A parsed sidecar that the metadata applier can read: an object, or an
    array that starts with an object. *)
Definition is_metadata_bag (v : value) : bool :=
  match v with
  | VDict _ => true
  | VList (VDict _ :: _) => true
  | _ => false
  end.

End Words.

(** ** Names for what a run leaves in the trace *)

Module Traces.
Import Pathlib Run.

(** The log record that ends a run of exiftool on a sidecar's fields. *)
Definition exiftool_outcome (target_file : Path) (r : result Z) : event :=
  match r with
  | Ok status =>
      if status =? 0 then
        Log INFO "Metadata updated for {target_file}" [str target_file]
      else
        Log ERROR "ExifTool error for {target_file}: {result.stderr.strip()}"
          [str target_file]
  | Raise _ =>
      Log ERROR "Failed to run ExifTool for {target_file}: {e}"
        [str target_file]
  end.

(** The command line of [copy_metadata]. *)
Definition copy_metadata_argv (src_file dst_file : Path) : list arg :=
  [Lit "exiftool"; Lit "-overwrite_original";
   Lit "-TagsFromFile"; Lit (str src_file);
   Lit "-All:All"; Lit (str dst_file)].

(** The command line of [convert_heic_to_jpg]. *)
Definition magick_argv (heic_file jpg_file : Path) : list arg :=
  [Lit "magick"; Lit "convert"; Lit (str heic_file);
   Lit "-auto-orient"; Lit (str jpg_file)].

(** A subprocess was started for the program [prog]. *)
Definition spawned (prog : string) (e : event) : bool :=
  match e with
  | Spawn (Lit s :: _) => String.eqb s prog
  | _ => false
  end.

End Traces.

(** ** Concrete environments and inputs *)

Module Examples.
Import PyStr Pathlib Py Datetime Run Script.

Definition program (argv : list arg) : string :=
  match argv with
  | Lit s :: _ => s
  | _ => EmptyString
  end.

(** The longest file name of a Linux file system, in bytes: [stat] of a
    longer one fails with [ENAMETOOLONG]. *)
Definition NAME_MAX : nat := 255.

(** An environment that does not change during the run: the paths that
    exist, what each sidecar parses to, whether ffmpeg is installed, and
    what each program does when started. *)
Definition static_env (existing : list Path)
    (sidecars : list (Path * result value)) (ffmpeg_installed : bool)
    (status : string -> result Z) : Env :=
  {| path_exists := fun _ p =>
       if existsb (fun part => (NAME_MAX <? String.length part)%nat)
                  (parts p)
       then Raise OSError
       else Ok (bool_decide (p ∈ existing));
     which := fun _ prog =>
       if String.eqb prog "ffmpeg" then ffmpeg_installed else true;
     spawn := fun _ argv => status (program argv);
     copy2 := fun _ _ _ => None;
     mkdir := fun _ _ => None;
     json_load := fun _ p =>
       match list_find (fun kv => kv.1 = p) sidecars with
       | Some (_, (_, r)) => r
       | None => Raise FileNotFoundError
       end;
     write_text := fun _ _ => None;
     resolve := fun _ _ => None |}.

Definition rel (l : list string) : Path := mkPath EmptyString l.

Definition input_dir : Path := rel ["in"].
Definition output_dir : Path := rel ["output"].

Definition all_tools_ok (prog : string) : result Z := Ok 0.

(** The end-to-end example of the specification: [photo.heic] with the
    sidecar [photo.heic.json]. *)
Definition photo_heic : Path := rel ["in"; "photo.heic"].
Definition photo_heic_json : Path := rel ["in"; "photo.heic.json"].

Definition photo_metadata : value :=
  VDict [("photoTakenTime", VDict [("timestamp", VStr "1600000000")]);
         ("geoData", VDict [("latitude", VFloat (FFin (37 # 1)));
                            ("longitude", VFloat (FFin (-122 # 1)))])].

Definition photo_env : Env :=
  static_env [photo_heic; photo_heic_json]
    [(photo_heic_json, Ok photo_metadata)] true all_tools_ok.

(** A photo whose name has 251 bytes: 247 letters and [.jpg]. *)
Definition long_jpg : Path :=
  rel ["in"; fold_right String.append ".jpg" (replicate 247 "a")].

(** A photo with both sidecar spellings present. *)
Definition name_jpg : Path := rel ["in"; "name.jpg"].
Definition name_jpg_json : Path := rel ["in"; "name.jpg.json"].
Definition name_json : Path := rel ["in"; "name.json"].

Definition both_sidecars_env : Env :=
  static_env [name_jpg; name_jpg_json; name_json]
    [(name_jpg_json, Ok (VDict [])); (name_json, Ok (VDict []))]
    true all_tools_ok.

(** Exiftool exits with status 1 whenever it is run; [a.jpg] has a sidecar,
    [b.heic] has none. *)
Definition a_jpg : Path := rel ["in"; "a.jpg"].
Definition a_jpg_json : Path := rel ["in"; "a.jpg.json"].
Definition b_heic : Path := rel ["in"; "b.heic"].

Definition exiftool_fails (prog : string) : result Z :=
  if String.eqb prog "exiftool" then Ok 1 else Ok 0.

Definition failing_exiftool_env : Env :=
  static_env [a_jpg; a_jpg_json; b_heic]
    [(a_jpg_json, Ok photo_metadata)] true exiftool_fails.

(** ImageMagick is not installed: starting [magick] raises
    [FileNotFoundError]. *)
Definition magick_missing (prog : string) : result Z :=
  if String.eqb prog "magick" then Raise FileNotFoundError else Ok 0.

Definition no_magick_env : Env :=
  static_env [photo_heic; name_jpg] [] true magick_missing.

(** The sidecar of [photo.heic] is not JSON. *)
Definition malformed_sidecar_env : Env :=
  static_env [photo_heic; photo_heic_json]
    [(photo_heic_json, Raise JSONDecodeError)] true all_tools_ok.

(** The sidecar of [photo.heic] is the JSON text [[]]. *)
Definition empty_array_sidecar_env : Env :=
  static_env [photo_heic; photo_heic_json; name_jpg]
    [(photo_heic_json, Ok (VList []))] true all_tools_ok.

End Examples.

(** ** What is observed of a run, for the further properties *)

Module Observations.
Import PyStr Pathlib Py Run Script.

(** The file has an extension the walk processes. *)
Definition supported (file_path : Path) : bool :=
  bool_decide (lower (suffix file_path) ∈ SUPPORTED_MEDIA_EXTENSIONS).

(** The event is the start of a subprocess. *)
Definition is_spawn (e : event) : bool :=
  match e with
  | Spawn _ => true
  | _ => false
  end.

(** The warning of the timestamp block. *)
Definition timestamp_warning (target_file : Path) : event :=
  Log WARNING "Unable to parse timestamp {photo_timestamp} for {target_file}"
    [str target_file].

(** The record of the walk for a file that [process_file] returned
    [False] for, and for one it returned [True] for. *)
Definition record_failure (file_path : Path) (r : report) : report :=
  mkReport (total_files r + 1) (processed_files r)
    (failed_files r ++ [str file_path]) (extension_map r).

Definition record_success (file_path : Path) (r : report) : report :=
  mkReport (total_files r + 1) (processed_files r + 1) (failed_files r)
    (increment (lower (suffix file_path)) (extension_map r)).

(** The metadata of a sidecar as [process_file] loads it (lines
    238-246), and the trace once it is loaded: the parsed value, the first
    element of an array that has one, or the empty object after a warning
    where the sidecar does not parse. *)
Definition loaded_metadata (env : Env) (sidecar : Path) (w : World)
  : value * World :=
  match json_load env w sidecar with
  | Ok (VList (first :: _)) => (first, w)
  | Ok metadata => (metadata, w)
  | Raise _ =>
      (VDict [],
       w ++ [Log WARNING "Could not parse JSON {json_sidecar}: {e}"
               [str sidecar]])
  end.

(** The computation does not read the trace and leaves it as it is. *)
Definition constant {A} (m : M A) : Prop :=
  exists r, forall w, m w = (r, w).

(** The computation leaves the trace [w] as it is, and where it returns,
    its result is in [P]. *)
Definition quiet {A} (P : A -> Prop) (m : M A) (w : World) : Prop :=
  snd (m w) = w
  /\ match fst (m w) with
     | Ok a => P a
     | Raise _ => True
     end.

End Observations.

(** ** Environments with failures of the file system *)

Module FailingExamples.
Import PyStr Pathlib Py Run Script Examples.

(** [static_env] with a disk on which nothing can be copied, and one on
    which no directory can be made. *)
Definition with_copy2 (env : Env) (outcome : option exn) : Env :=
  {| path_exists := path_exists env; which := which env; spawn := spawn env;
     copy2 := fun _ _ _ => outcome; mkdir := mkdir env;
     json_load := json_load env; write_text := write_text env;
     resolve := resolve env |}.

Definition with_mkdir (env : Env) (outcome : option exn) : Env :=
  {| path_exists := path_exists env; which := which env; spawn := spawn env;
     copy2 := copy2 env; mkdir := fun _ _ => outcome;
     json_load := json_load env; write_text := write_text env;
     resolve := resolve env |}.

Definition with_write_text (env : Env) (outcome : option exn) : Env :=
  {| path_exists := path_exists env; which := which env; spawn := spawn env;
     copy2 := copy2 env; mkdir := mkdir env;
     json_load := json_load env; write_text := fun _ _ => outcome;
     resolve := resolve env |}.

(** A path that cannot be resolved, the others can. *)
Definition with_resolve (env : Env) (broken : Path) (e : exn) : Env :=
  {| path_exists := path_exists env; which := which env; spawn := spawn env;
     copy2 := copy2 env; mkdir := mkdir env;
     json_load := json_load env; write_text := write_text env;
     resolve := fun _ p => if decide (p = broken) then Some e else None |}.

Definition plain_env : Env := static_env [name_jpg] [] true all_tools_ok.

Definition disk_full_env : Env := with_copy2 plain_env (Some OSError).
Definition read_only_env : Env := with_mkdir plain_env (Some OSError).
Definition no_report_env : Env := with_write_text plain_env (Some OSError).

(** Exiftool is not installed. *)
Definition exiftool_missing (prog : string) : result Z :=
  if String.eqb prog "exiftool" then Raise FileNotFoundError else Ok 0.

Definition no_exiftool_env : Env :=
  static_env [photo_heic; photo_heic_json; b_heic]
    [(photo_heic_json, Ok photo_metadata)] true exiftool_missing.

(** ImageMagick exits with status 1; ffmpeg is not installed. *)
Definition magick_fails (prog : string) : result Z :=
  if String.eqb prog "magick" then Ok 1 else Ok 0.

Definition clip_mov : Path := rel ["in"; "clip.mov"].

Definition broken_converters_env : Env :=
  static_env [photo_heic; clip_mov] [] false magick_fails.

End FailingExamples.

(** ** A tree with sub-directories and colliding names *)

Module TreeExamples.
Import PyStr Pathlib Py Run Script Examples.

Definition trip_heic : Path := rel ["in"; "2020"; "trip"; "IMG_1.HEIC"].
Definition photo_jpg : Path := rel ["in"; "photo.jpg"].

Definition tree_env : Env :=
  static_env [trip_heic; photo_heic; photo_jpg] [] true all_tools_ok.

End TreeExamples.

(** ** Sidecars and names that end a run *)

Module FieldExamples.
Import PyStr Pathlib Py Run Script Examples.

(** The timestamp of [photo.heic] is an array. *)
Definition array_timestamp : value :=
  VDict [("photoTakenTime",
          VDict [("timestamp", VList [VInt 1700000000])])].

Definition array_timestamp_env : Env :=
  static_env [photo_heic; photo_heic_json; name_jpg]
    [(photo_heic_json, Ok array_timestamp)] true all_tools_ok.

(** The longitude of [photo.heic] is a string. *)
Definition string_longitude : value :=
  VDict [("geoData", VDict [("latitude", VInt 50);
                            ("longitude", VStr "2.35")])].

Definition string_longitude_env : Env :=
  static_env [photo_heic; photo_heic_json; name_jpg]
    [(photo_heic_json, Ok string_longitude)] true all_tools_ok.

(** A photo with a name of 251 bytes beside [name.jpg]. *)
Definition long_name_env : Env :=
  static_env [long_jpg; name_jpg] [] true all_tools_ok.

End FieldExamples.

(** * Properties *)

(** ** Strings and paths *)

Section StringFacts.
Import PyStr.

(** [+:+] does not unfold under [simpl]; these two equations do it. *)
Lemma append_nil_l s : EmptyString +:+ s = s.
Proof. reflexivity. Qed.

Lemma append_cons a s t : String a s +:+ t = String a (s +:+ t).
Proof. reflexivity. Qed.

Ltac string_simpl := simpl; rewrite ?append_nil_l, ?append_cons; simpl.

Lemma take_drop n s : take n s +:+ drop n s = s.
Proof.
  revert s; induction n as [|n IH]; intros [|a s]; string_simpl;
    try reflexivity.
  f_equal; apply IH.
Qed.

Lemma length_append s t :
  String.length (s +:+ t) = (String.length s + String.length t)%nat.
Proof.
  induction s as [|a s IH]; string_simpl; [reflexivity | now rewrite IH].
Qed.

Lemma append_assoc s t u : (s +:+ t) +:+ u = s +:+ (t +:+ u).
Proof.
  induction s as [|a s IH]; string_simpl; [reflexivity |].
  now rewrite IH.
Qed.

Lemma append_empty_r s : s +:+ EmptyString = s.
Proof.
  induction s as [|a s IH]; string_simpl; [reflexivity | now rewrite IH].
Qed.

Lemma length_drop n s :
  String.length (drop n s) = (String.length s - n)%nat.
Proof.
  revert s; induction n as [|n IH]; intros [|a s]; simpl; auto.
Qed.

Lemma drop_length_append s t : drop (String.length s) (s +:+ t) = t.
Proof. induction s as [|a s IH]; string_simpl; auto. Qed.

Lemma take_length_append s t : take (String.length s) (s +:+ t) = s.
Proof.
  induction s as [|a s IH]; string_simpl.
  - now destruct t.
  - now rewrite IH.
Qed.

Lemma contains_append c s t :
  contains c (s +:+ t) = contains c s || contains c t.
Proof.
  induction s as [|a s IH]; string_simpl; [reflexivity |].
  now rewrite IH, orb_assoc.
Qed.

Lemma contains_drop c n s :
  contains c s = false -> contains c (drop n s) = false.
Proof.
  revert s; induction n as [|n IH]; intros [|a s]; simpl; auto.
  intros H; apply orb_false_iff in H as [_ H]; auto.
Qed.

Lemma rfind_None c s : rfind c s = None <-> contains c s = false.
Proof.
  induction s as [|a s IH]; simpl; [tauto |].
  destruct (rfind c s) as [i|].
  - split; [discriminate |].
    intros H; apply orb_false_iff in H as [_ H].
    apply IH in H; discriminate.
  - destruct (Ascii.eqb a c); simpl; [split; discriminate |].
    split; intros _; [now apply IH | reflexivity].
Qed.

(** The position [rfind] returns holds the character, and nothing after
    it does. *)
Lemma rfind_Some c s i :
  rfind c s = Some i ->
  (i < String.length s)%nat
  /\ exists rest, drop i s = String c rest /\ contains c rest = false.
Proof.
  revert i; induction s as [|a s IH]; simpl; intros i; [discriminate |].
  destruct (rfind c s) as [j|] eqn:E.
  - intros [= <-]. destruct (IH j eq_refl) as (Hlt & rest & Hd & Hc).
    split; [lia |]. exists rest; simpl; auto.
  - destruct (Ascii.eqb a c) eqn:Ea; [| discriminate].
    intros [= <-]. apply Ascii.eqb_eq in Ea as ->.
    split; [lia |]. exists s; simpl; split; [reflexivity |].
    now apply rfind_None.
Qed.

Lemma rfind_append_last c s rest :
  contains c rest = false ->
  rfind c (s +:+ String c rest) = Some (String.length s).
Proof.
  intros Hc. induction s as [|a s IH]; string_simpl.
  - apply rfind_None in Hc. rewrite Hc, Ascii.eqb_refl. reflexivity.
  - now rewrite IH.
Qed.

End StringFacts.

Section PathFacts.
Import PyStr Pathlib.

Ltac string_simpl := simpl; rewrite ?append_nil_l, ?append_cons; simpl.

(** A name is its stem followed by its suffix. *)
Lemma name_split n : n = stem_of_name n +:+ suffix_of_name n.
Proof.
  unfold stem_of_name, suffix_of_name.
  destruct (rfind "." n) as [i|]; [| now rewrite append_empty_r].
  destruct ((0 <? i)%nat && (i <? String.length n - 1)%nat);
    [now rewrite take_drop | now rewrite append_empty_r].
Qed.

(** A suffix is empty, or a dot and at least one character with no dot,
    after a stem that is not empty. *)
Lemma suffix_shape n :
  suffix_of_name n = EmptyString
  \/ exists rest,
       suffix_of_name n = String "." rest /\ rest <> EmptyString
       /\ contains "." rest = false /\ stem_of_name n <> EmptyString.
Proof.
  unfold stem_of_name, suffix_of_name.
  destruct (rfind "." n) as [i|] eqn:E; [| now left].
  destruct ((0 <? i)%nat && (i <? String.length n - 1)%nat) eqn:C;
    [| now left].
  right. apply andb_true_iff in C as [C1 C2].
  apply Nat.ltb_lt in C1, C2.
  destruct (rfind_Some _ _ _ E) as (Hlt & rest & Hd & Hc).
  exists rest; repeat split; auto.
  - intros ->. pose proof (length_drop i n) as L. rewrite Hd in L.
    simpl in L. lia.
  - destruct i as [|i]; [lia |]. destruct n; [simpl in Hlt; lia |].
    discriminate.
Qed.

Lemma stem_nonempty n : n <> EmptyString -> stem_of_name n <> EmptyString.
Proof.
  intros Hn. destruct (suffix_shape n) as [E | (rest & _ & _ & _ & H)]; auto.
  pose proof (name_split n) as S. rewrite E, append_empty_r in S.
  now rewrite <- S.
Qed.

(** [name[:-len(old_suffix)]] is the stem. *)
Lemma stem_slice n :
  take (String.length n - String.length (suffix_of_name n)) n
  = stem_of_name n.
Proof.
  pose proof (name_split n) as S.
  remember (stem_of_name n) as st. remember (suffix_of_name n) as sf.
  rewrite S, length_append.
  replace (String.length st + String.length sf - String.length sf)%nat
    with (String.length st) by lia.
  apply take_length_append.
Qed.

Lemma suffix_of_name_append st ext :
  st <> EmptyString -> ext <> EmptyString -> contains "." ext = false ->
  suffix_of_name (st +:+ String "." ext) = String "." ext.
Proof.
  intros Hst Hext Hc. unfold suffix_of_name.
  rewrite rfind_append_last by assumption.
  rewrite length_append. simpl.
  assert (0 < String.length st)%nat by (destruct st; simpl; [easy | lia]).
  assert (0 < String.length ext)%nat by (destruct ext; simpl; [easy | lia]).
  replace ((0 <? String.length st)%nat) with true
    by (symmetry; apply Nat.ltb_lt; lia).
  replace ((String.length st
              <? String.length st + S (String.length ext) - 1)%nat)
    with true by (symmetry; apply Nat.ltb_lt; lia).
  simpl. apply drop_length_append.
Qed.

Lemma last_app_nonempty {A} (l l' : list A) d :
  l' <> [] -> List.last (l ++ l') d = List.last l' d.
Proof.
  intros Hl'. induction l as [|x l IH]; simpl; [reflexivity |].
  destruct (l ++ l') eqn:E; [| assumption].
  apply app_eq_nil in E as [_ ->]. contradiction.
Qed.

Lemma name_sibling p n : name (sibling p n) = n.
Proof. unfold name, sibling; simpl. apply last_last. Qed.

Lemma with_suffix_ok p ext :
  name p <> EmptyString -> contains "/" ext = false ->
  ext <> EmptyString ->
  with_suffix p (String "." ext)
  = Ok (sibling p (stem p +:+ String "." ext)).
Proof.
  intros Hn Hsl Hext. unfold with_suffix.
  replace (contains "/" (String "." ext)) with false
    by (simpl; now rewrite Hsl).
  replace (String.eqb (String "." ext) ".") with false
    by (destruct ext; [contradiction | reflexivity]).
  simpl.
  replace (is_empty (name p)) with false
    by (destruct (name p); [contradiction | reflexivity]).
  unfold suffix. rewrite stem_slice. unfold sibling, stem.
  pose proof (name_split (name p)) as S.
  destruct (suffix_of_name (name p)) eqn:Es; simpl; [| reflexivity].
  rewrite append_empty_r in S. now rewrite <- S.
Qed.

(** Replacing the suffix by [.ext] gives a path whose suffix is [.ext]. *)
Lemma suffix_with_suffix p ext p' :
  ext <> EmptyString -> contains "." ext = false ->
  contains "/" ext = false ->
  with_suffix p (String "." ext) = Ok p' ->
  suffix p' = String "." ext /\ p' = sibling p (stem p +:+ String "." ext).
Proof.
  intros Hext Hdot Hsl H.
  assert (Hn : name p <> EmptyString).
  { intros E. unfold with_suffix in H.
    destruct (contains "/" (String "." ext)); [discriminate |].
    destruct (_ || _); [discriminate |].
    rewrite E in H. discriminate. }
  rewrite with_suffix_ok in H by assumption. injection H as <-.
  split; [| reflexivity].
  unfold suffix. rewrite name_sibling.
  apply suffix_of_name_append; auto. now apply stem_nonempty.
Qed.

(** The first sidecar candidate: [.json] appended to the whole name. *)
Lemma with_suffix_appended p :
  name p <> EmptyString -> contains "/" (name p) = false ->
  with_suffix p (suffix p +:+ ".json")
  = Ok (sibling p (name p +:+ ".json")).
Proof.
  intros Hn Hsl. unfold suffix.
  pose proof (name_split (name p)) as S.
  destruct (suffix_shape (name p)) as [E | (rest & E & Hr & Hc & Hst)].
  - rewrite E, append_nil_l.
    rewrite with_suffix_ok by (auto; discriminate).
    unfold stem. rewrite E, append_empty_r in S. now rewrite <- S.
  - rewrite E, append_cons.
    assert (Hsl' : contains "/" rest = false).
    { rewrite S, E, contains_append in Hsl.
      apply orb_false_iff in Hsl as [_ Hsl]. simpl in Hsl. exact Hsl. }
    rewrite with_suffix_ok; auto.
    + unfold stem. f_equal. f_equal. rewrite S at 2.
      now rewrite E, append_assoc, append_cons.
    + rewrite contains_append, Hsl'. reflexivity.
    + destruct rest; [contradiction | discriminate].
Qed.

Lemma strip_prefix_Some pre l rest :
  strip_prefix pre l = Some rest -> l = pre ++ rest.
Proof.
  revert l; induction pre as [|x pre IH]; intros l; simpl.
  - now intros [= ->].
  - destruct l as [|y l]; [discriminate |].
    destruct (String.eqb x y) eqn:E; [| discriminate].
    apply String.eqb_eq in E as ->. intros H. now rewrite (IH _ H).
Qed.

(** A file strictly below [input_dir] keeps its name in the output tree. *)
Lemma name_joinpath_relative file_path input_dir output_dir rel_path :
  relative_to file_path input_dir = Ok rel_path ->
  file_path <> input_dir ->
  name (joinpath output_dir rel_path) = name file_path.
Proof.
  unfold relative_to. destruct (String.eqb _ _) eqn:Ea; [| discriminate].
  destruct (strip_prefix _ _) as [rest|] eqn:Es; [| discriminate].
  intros [= <-] Hne. apply strip_prefix_Some in Es.
  apply String.eqb_eq in Ea.
  assert (rest <> []).
  { intros ->. rewrite app_nil_r in Es. apply Hne.
    destruct file_path, input_dir; simpl in *; congruence. }
  unfold joinpath, name; simpl.
  rewrite Es, !last_app_nonempty by assumption. reflexivity.
Qed.

End PathFacts.

(** ** The sidecar resolver *)

Section Resolver.
Import PyStr Pathlib Run Script Words.

(** The resolver in terms of the two existence checks. *)
Lemma find_corresponding_json_checks env w media_file :
  name media_file <> EmptyString ->
  contains "/" (name media_file) = false ->
  let appended := sibling media_file (name media_file +:+ ".json") in
  let replaced := sibling media_file (stem media_file +:+ ".json") in
  find_corresponding_json env media_file w
  = (first_existing appended replaced
       (path_exists env w appended) (path_exists env w replaced), w).
Proof.
  intros Hn Hsl appended replaced.
  unfold find_corresponding_json, first_existing, bind, lift, ret.
  rewrite with_suffix_appended by assumption.
  fold appended.
  destruct (path_exists env w appended) as [[|]|e]; try reflexivity.
  change ".json" with (String "." "json").
  rewrite with_suffix_ok by (auto; discriminate).
  fold replaced. now destruct (path_exists env w replaced) as [[|]|e].
Qed.

(** C2, as stated, fails: for a photo whose name has 251 bytes neither
    candidate exists, the appended name [name.jpg.json] is longer than a file
    name may be, the check of its existence raises [OSError], and so does
    the resolver: it does not return none, and does not try [name.json]. *)
Lemma C2_counterexample_long_name :
  let env := Examples.static_env [Examples.long_jpg] [] true
               Examples.all_tools_ok in
  String.length (name Examples.long_jpg) = 251%nat
  /\ path_exists env []
       (sibling Examples.long_jpg (name Examples.long_jpg +:+ ".json"))
     = Raise OSError
  /\ path_exists env []
       (sibling Examples.long_jpg (stem Examples.long_jpg +:+ ".json"))
     = Ok false
  /\ find_corresponding_json env Examples.long_jpg [] = (Raise OSError, [])
  /\ find_corresponding_json env Examples.long_jpg [] <> (Ok None, []).
Proof. vm_compute. repeat split; discriminate. Qed.

(** C2, amended. For every media path (a final component that is not
    empty and holds no separator), [find_corresponding_json] first checks
    the path with [.json] appended to the whole name ([name.jpg.json]), then
    the path with the suffix replaced by [.json] ([name.json]); where the
    checks it makes answer, it returns the first that exists and none if
    neither does, and when both exist the appended form. A check that
    raises ends the resolution with its exception: the second candidate is
    not tried after the first has raised. The trace is left as it was. *)
Theorem C2_sidecar_resolution_order
    (env : Env) (w : World) (media_file : Path) :
  name media_file <> EmptyString ->
  contains "/" (name media_file) = false ->
  let appended := sibling media_file (name media_file +:+ ".json") in
  let replaced := sibling media_file (stem media_file +:+ ".json") in
  let found := find_corresponding_json env media_file w in
  (path_exists env w appended = Ok true -> found = (Ok (Some appended), w))
  /\ (path_exists env w appended = Ok false ->
      path_exists env w replaced = Ok true ->
      found = (Ok (Some replaced), w))
  /\ (path_exists env w appended = Ok false ->
      path_exists env w replaced = Ok false ->
      found = (Ok None, w))
  /\ (forall e, path_exists env w appended = Raise e ->
                found = (Raise e, w))
  /\ (forall e, path_exists env w appended = Ok false ->
                path_exists env w replaced = Raise e ->
                found = (Raise e, w)).
Proof.
  intros Hn Hsl appended replaced found.
  pose proof (find_corresponding_json_checks env w media_file Hn Hsl) as E.
  cbv zeta in E. fold appended replaced found in E.
  repeat split.
  - intros H1. now rewrite E, H1.
  - intros H1 H2. now rewrite E, H1, H2.
  - intros H1 H2. now rewrite E, H1, H2.
  - intros e H1. now rewrite E, H1.
  - intros e H1 H2. now rewrite E, H1, H2.
Qed.

Lemma C2_witness_both_present :
  Examples.name_jpg <> Examples.name_jpg_json
  /\ find_corresponding_json Examples.both_sidecars_env Examples.name_jpg []
     = (Ok (Some Examples.name_jpg_json), []).
Proof.
  split; [discriminate |].
  apply (C2_sidecar_resolution_order
           Examples.both_sidecars_env [] Examples.name_jpg);
    [discriminate | reflexivity | reflexivity].
Defined.

End Resolver.

(** ** Dates *)

Section DateFacts.
Import Datetime.

Lemma all_from_spec n z p :
  all_from n z p = true -> forall x, z <= x < z + Z.of_nat n -> p x = true.
Proof.
  revert z; induction n as [|k IH]; simpl; intros z H x Hx; [lia |].
  destruct (p z) eqn:E; [| discriminate].
  destruct (Z.eq_dec x z) as [-> | Hne]; [assumption |].
  apply (IH (z + 1)); [assumption | lia].
Qed.

Lemma month_day_checked leap n :
  0 <= n < 365 -> month_day_check leap n = true.
Proof.
  intros H.
  assert (C : all_from 365 0 (month_day_check true) = true
              /\ all_from 365 0 (month_day_check false) = true)
    by (split; vm_compute; reflexivity).
  destruct leap; [apply (all_from_spec _ _ _ (proj1 C))
                 | apply (all_from_spec _ _ _ (proj2 C))]; lia.
Qed.

Lemma is_leap_shift y e : is_leap (y + 400 * e) = is_leap y.
Proof.
  unfold is_leap.
  replace ((y + 400 * e) mod 4) with (y mod 4)
    by (replace (y + 400 * e) with (y + (100 * e) * 4) by lia;
        now rewrite Z.mod_add).
  replace ((y + 400 * e) mod 100) with (y mod 100)
    by (replace (y + 400 * e) with (y + (4 * e) * 100) by lia;
        now rewrite Z.mod_add).
  replace ((y + 400 * e) mod 400) with (y mod 400)
    by (replace (y + 400 * e) with (y + e * 400) by lia;
        now rewrite Z.mod_add).
  reflexivity.
Qed.

Lemma days_before_year_shift y e :
  days_before_year (y + 400 * e) = days_before_year y + 146097 * e.
Proof.
  unfold days_before_year.
  replace (y + 400 * e - 1) with (y - 1 + 400 * e) by lia.
  replace ((y - 1 + 400 * e) / 4) with ((y - 1) / 4 + 100 * e)
    by (replace (y - 1 + 400 * e) with (y - 1 + (100 * e) * 4) by lia;
        now rewrite Z.div_add).
  replace ((y - 1 + 400 * e) / 100) with ((y - 1) / 100 + 4 * e)
    by (replace (y - 1 + 400 * e) with (y - 1 + (4 * e) * 100) by lia;
        now rewrite Z.div_add).
  replace ((y - 1 + 400 * e) / 400) with ((y - 1) / 400 + e)
    by (replace (y - 1 + 400 * e) with (y - 1 + e * 400) by lia;
        now rewrite Z.div_add).
  lia.
Qed.

(** Within the first 400 years: the year that [ord2ymd] counts from the
    numbers of whole 100-, 4- and 1-year cycles. *)
Lemma cycle_year n100 n4 n1 :
  0 <= n100 <= 3 -> 0 <= n4 <= 24 -> 0 <= n1 <= 3 ->
  let y := 1 + n100 * 100 + n4 * 4 + n1 in
  days_before_year y = 36524 * n100 + 1461 * n4 + 365 * n1
  /\ is_leap y = (n1 =? 3) && (negb (n4 =? 24) || (n100 =? 3)).
Proof.
  intros H100 H4 H1 y. subst y. split.
  - unfold days_before_year. Z.to_euclidean_division_equations; lia.
  - unfold is_leap.
    destruct (n1 =? 3) eqn:E1, (n4 =? 24) eqn:E4, (n100 =? 3) eqn:E100;
      simpl; Z.to_euclidean_division_equations; lia.
Qed.


Lemma toordinal_cycle a y0 m d :
  toordinal (y0 + 400 * a) m d
  = days_before_year y0 + 146097 * a + months_before (is_leap y0) m + d.
Proof.
  unfold toordinal, days_before_month.
  rewrite days_before_year_shift, is_leap_shift. lia.
Qed.

(** [ord2ymd] returns a date of the calendar, the one with the given
    ordinal; ordinals 1 to 3652059 are the years 1 to 9999. *)
Lemma ord2ymd_correct ordinal :
  let '(y, m, d) := ord2ymd ordinal in
  1 <= m <= 12 /\ 1 <= d <= days_in_month y m
  /\ toordinal y m d = ordinal
  /\ (1 <= ordinal <= 3652059 -> 1 <= y <= 9999).
Proof.
  unfold ord2ymd. cbv zeta.
  set (a := (ordinal - 1) / 146097).
  set (r := (ordinal - 1) mod 146097).
  set (n100 := r / 36524). set (r1 := r mod 36524).
  set (n4 := r1 / 1461). set (r2 := r1 mod 1461).
  set (n1 := r2 / 365). set (n := r2 mod 365).
  assert (Ha : ordinal - 1 = 146097 * a + r /\ 0 <= r < 146097)
    by (subst a r; split; [apply Z.div_mod | apply Z.mod_pos_bound]; lia).
  assert (H100 : r = 36524 * n100 + r1 /\ 0 <= r1 < 36524)
    by (subst n100 r1; split; [apply Z.div_mod | apply Z.mod_pos_bound]; lia).
  assert (H4 : r1 = 1461 * n4 + r2 /\ 0 <= r2 < 1461)
    by (subst n4 r2; split; [apply Z.div_mod | apply Z.mod_pos_bound]; lia).
  assert (H1 : r2 = 365 * n1 + n /\ 0 <= n < 365)
    by (subst n1 n; split; [apply Z.div_mod | apply Z.mod_pos_bound]; lia).
  clearbody a r n100 r1 n4 r2 n1 n.
  destruct Ha as [Ha Hr], H100 as [H100 Hr1], H4 as [H4 Hr2], H1 as [H1 Hn].
  destruct ((n1 =? 4) || (n100 =? 4)) eqn:Last.
  - (* the last day of a leap year *)
    assert (Hy : exists n100' n4',
               0 <= n100' <= 3 /\ 0 <= n4' <= 24
               /\ (n4' =? 24) && negb (n100' =? 3) = false
               /\ a * 400 + 1 + n100 * 100 + n4 * 4 + n1 - 1
                  = 1 + n100' * 100 + n4' * 4 + 3 + 400 * a
               /\ ordinal
                  = 36524 * n100' + 1461 * n4' + 1095 + 146097 * a + 366).
    { destruct (n100 =? 4) eqn:E.
      - exists 3, 24. repeat split; try lia.
      - exists n100, n4. repeat split; try lia. }
    destruct Hy as (n100' & n4' & B100 & B4 & Hl & -> & ->).
    destruct (cycle_year n100' n4' 3 B100 B4 ltac:(lia)) as [Hdby Hleap].
    assert (L : is_leap (1 + n100' * 100 + n4' * 4 + 3) = true).
    { rewrite Hleap. destruct (n4' =? 24), (n100' =? 3); auto. }
    unfold days_in_month. rewrite toordinal_cycle, is_leap_shift, L, Hdby.
    change (months_before true 12) with 335.
    change (month_length true 12) with 31.
    repeat split; lia.
  - (* any other day *)
    assert (B100 : 0 <= n100 <= 3) by lia.
    assert (B4 : 0 <= n4 <= 24) by lia.
    assert (B1 : 0 <= n1 <= 3) by lia.
    destruct (cycle_year n100 n4 n1 B100 B4 B1) as [Hdby Hleap].
    pose proof (month_day_checked
                  ((n1 =? 3) && (negb (n4 =? 24) || (n100 =? 3))) n Hn) as C.
    unfold month_day_check in C. rewrite <- Hleap in *.
    destruct (month_day _ n) as [m d].
    replace (a * 400 + 1 + n100 * 100 + n4 * 4 + n1)
      with (1 + n100 * 100 + n4 * 4 + n1 + 400 * a) by lia.
    unfold days_in_month. rewrite toordinal_cycle, is_leap_shift, Hdby.
    repeat split; lia.
Qed.

Lemma utcfromtimestamp_correct t :
  -62135596800 <= t <= 253402300799 ->
  exists dt, utcfromtimestamp t = Ok dt /\ valid dt /\ timegm dt = t.
Proof.
  intros Ht. unfold utcfromtimestamp, civil_from_days.
  replace ((t <? - 2 ^ 63) || (2 ^ 63 <=? t)) with false by lia.
  pose proof (ord2ymd_correct (t / 86400 + 719163)) as C.
  destruct (ord2ymd (t / 86400 + 719163)) as [[y m] d].
  destruct C as (Hm & Hd & Hord & Hy).
  assert (Hdays : 1 <= t / 86400 + 719163 <= 3652059)
    by (Z.to_euclidean_division_equations; lia).
  specialize (Hy Hdays).
  replace ((y - 1900 <? - 2 ^ 31) || (2 ^ 31 <=? y - 1900)) with false by lia.
  replace ((y <? 1) || (9999 <? y)) with false by lia.
  eexists; split; [reflexivity |].
  pose proof (Z.mod_pos_bound t 86400 ltac:(lia)) as Hr.
  pose proof (Z.div_mod t 86400 ltac:(lia)) as Ht'.
  split.
  - unfold valid; simpl. repeat split; try lia;
      Z.to_euclidean_division_equations; lia.
  - unfold timegm; simpl. rewrite Hord.
    Z.to_euclidean_division_equations; lia.
Qed.


Lemma read_digit_char n rest :
  read_digit (String (digit_char n) rest) = Some (n mod 10, rest).
Proof.
  unfold read_digit, digit_char.
  pose proof (Z.mod_pos_bound n 10 ltac:(lia)) as H.
  assert (E : exists k, (k < 10)%nat /\ n mod 10 = Z.of_nat k).
  { exists (Z.to_nat (n mod 10)). split; lia. }
  destruct E as (k & Hk & ->). rewrite Nat2Z.id.
  do 10 (destruct k as [|k]; [reflexivity |]). lia.
Qed.

Lemma read2_pad2 n rest :
  0 <= n < 100 -> read2 (pad2 n +:+ rest) = Some (n, rest).
Proof.
  intros H. unfold read2, pad2.
  rewrite !append_cons, append_nil_l, !read_digit_char.
  do 2 f_equal. Z.to_euclidean_division_equations; lia.
Qed.

(** From the year 1000 on the year has its four digits. *)
Lemma year_string_padded y : 1000 <= y -> year_string y = pad4 y.
Proof.
  intros H. unfold year_string.
  destruct (Z.ltb_spec y 10); [lia |].
  destruct (Z.ltb_spec y 100); [lia |].
  destruct (Z.ltb_spec y 1000); [lia | reflexivity].
Qed.

Lemma strptime_strftime dt :
  valid dt -> 1000 <= year dt -> strptime (strftime dt) = Some dt.
Proof.
  intros (Hy & Hm & Hd & Hh & Hmi & Hs) Hpad.
  assert (Hd' : 1 <= day dt <= 31).
  { unfold days_in_month, month_length in Hd.
    destruct (month dt =? 2); [destruct (is_leap _) |]; try lia.
    destruct (_ || _); lia. }
  unfold strptime, strftime. rewrite year_string_padded by assumption.
  unfold pad4.
  assert (E4 : forall rest,
    read2 (String (digit_char (year dt / 1000))
             (String (digit_char (year dt / 100)) (pad2 (year dt))) +:+ rest)
    = Some (year dt / 100, pad2 (year dt) +:+ rest)).
  { intros rest. unfold read2.
    rewrite !append_cons, !read_digit_char.
    do 2 f_equal. Z.to_euclidean_division_equations; lia. }
  rewrite E4. cbv beta iota.
  assert (E2 : forall rest,
    read2 (pad2 (year dt) +:+ rest) = Some (year dt mod 100, rest)).
  { intros rest. unfold read2, pad2.
    rewrite !append_cons, append_nil_l, !read_digit_char.
    do 2 f_equal. Z.to_euclidean_division_equations; lia. }
  rewrite E2. cbv beta iota.
  do 4 (rewrite append_cons, append_nil_l; simpl expect; cbv beta iota;
        rewrite read2_pad2 by lia; cbv beta iota).
  rewrite append_cons, append_nil_l; simpl expect; cbv beta iota.
  rewrite <- (append_empty_r (pad2 (second dt))).
  rewrite read2_pad2 by lia. cbv beta iota.
  destruct dt as [y m d h mi s]; simpl in *. do 2 f_equal.
  Z.to_euclidean_division_equations; lia.
Qed.

Lemma length_strftime dt :
  1000 <= year dt -> String.length (strftime dt) = 19%nat.
Proof.
  intros H. unfold strftime. now rewrite year_string_padded.
Qed.

(** Before the year 1000 the string is shorter than [YYYY:MM:DD
    HH:MM:SS]. *)
Lemma length_strftime_early dt :
  year dt < 1000 -> (String.length (strftime dt) < 19)%nat.
Proof.
  intros H. unfold strftime, year_string.
  destruct (Z.ltb_spec (year dt) 10); [simpl; lia |].
  destruct (Z.ltb_spec (year dt) 100); [simpl; lia |].
  destruct (Z.ltb_spec (year dt) 1000); [simpl; lia | lia].
Qed.

End DateFacts.

(** ** The format normalizer *)

Section Normalizer.
Import PyStr Pathlib Run Script.

(** What [normalize] does once the relative path is known and the parent
    directory is made. *)
Lemma normalize_inv env file_path input_dir output_dir w r w' :
  normalize env file_path input_dir output_dir w = (Ok (Some r), w') ->
  exists rel_path,
    relative_to file_path input_dir = Ok rel_path
    /\ mkdir env w (parent (joinpath output_dir rel_path)) = None
    /\ let out := joinpath output_dir rel_path in
       let w1 := w ++ [Mkdir (parent out)] in
       let ext := lower (suffix file_path) in
       if String.eqb ext ".heic" then
         exists jpg, with_suffix out ".jpg" = Ok jpg
           /\ convert_heic_to_jpg env file_path jpg w1 = (Ok true, w')
           /\ r = (jpg, true)
       else if bool_decide (ext ∈ ({[ ".mov"; ".avi" ]} : gset string)) then
         exists mp4, with_suffix out ".mp4" = Ok mp4
           /\ convert_video_to_mp4 env file_path mp4 w1 = (Ok true, w')
           /\ r = (mp4, true)
       else
         copy2 env w1 file_path out = None
         /\ w' = w1 ++ [Copy2 file_path out] /\ r = (out, false).
Proof.
  unfold normalize, bind, try_except, lift, ret.
  destruct (relative_to file_path input_dir) as [rel_path|e] eqn:Erel.
  2:{ destruct (isinstance e ValueError); simpl; discriminate. }
  destruct (mkdir env w _) as [e|] eqn:Emk; [discriminate |].
  intros H. exists rel_path. repeat split; try assumption. cbv zeta.
  destruct (String.eqb _ ".heic").
  - destruct (with_suffix _ ".jpg") as [jpg|]; [| discriminate].
    destruct (convert_heic_to_jpg env file_path jpg _) as [[[|]|] w2] eqn:Ec;
      simpl in H; try discriminate.
    injection H as <- <-. eauto.
  - destruct (bool_decide _).
    + destruct (with_suffix _ ".mp4") as [mp4|]; [| discriminate].
      destruct (convert_video_to_mp4 env file_path mp4 _)
        as [[[|]|] w2] eqn:Ec; simpl in H; try discriminate.
      injection H as <- <-. eauto.
    + unfold try_except_Exception, log, emit in H.
      destruct (copy2 env _ file_path _) as [e|]; simpl in H;
        [discriminate |].
      injection H as <- <-. auto.
Qed.


(** C1. For every processed file (one strictly below the input directory
    that [normalize] has converted or copied), the suffix of the output path
    is determined by the lower-cased input extension: [.heic] gives [.jpg],
    [.mov] and [.avi] give [.mp4], and any other supported extension is
    copied, by [shutil.copy2], to a path with the suffix of the input. *)
Theorem C1_output_suffix_by_extension
    env file_path input_dir output_dir w output_file conversion_performed w' :
  file_path <> input_dir ->
  normalize env file_path input_dir output_dir w
  = (Ok (Some (output_file, conversion_performed)), w') ->
  let ext := lower (suffix file_path) in
  (ext = ".heic" ->
   suffix output_file = ".jpg" /\ conversion_performed = true)
  /\ (ext = ".mov" \/ ext = ".avi" ->
      suffix output_file = ".mp4" /\ conversion_performed = true)
  /\ (In ext [".jpg"; ".jpeg"; ".png"; ".mp4"; ".gif"] ->
      suffix output_file = suffix file_path
      /\ conversion_performed = false
      /\ exists w1, w' = w1 ++ [Copy2 file_path output_file]).
Proof.
  intros Hne H ext.
  destruct (normalize_inv _ _ _ _ _ _ _ H) as (rel_path & Hrel & _ & Hb).
  cbv zeta in Hb. fold ext in Hb.
  split; [| split].
  - intros E. rewrite E in Hb. simpl in Hb.
    destruct Hb as (jpg & Hs & _ & [= -> ->]).
    apply (suffix_with_suffix _ "jpg") in Hs as [Hs _]; auto; discriminate.
  - intros E.
    assert (E1 : String.eqb ext ".heic" = false)
      by (destruct E as [-> | ->]; reflexivity).
    assert (E2 : bool_decide (ext ∈ ({[ ".mov"; ".avi" ]} : gset string))
                 = true)
      by (apply bool_decide_eq_true; destruct E as [-> | ->]; set_solver).
    rewrite E1, E2 in Hb.
    destruct Hb as (mp4 & Hs & _ & [= -> ->]).
    apply (suffix_with_suffix _ "mp4") in Hs as [Hs _]; auto; discriminate.
  - intros E.
    assert (E1 : String.eqb ext ".heic" = false).
    { simpl in E. destruct E as [<- | [<- | [<- | [<- | [<- | []]]]]];
        reflexivity. }
    assert (E2 : bool_decide (ext ∈ ({[ ".mov"; ".avi" ]} : gset string))
                 = false).
    { apply bool_decide_eq_false. intros Hin.
      apply elem_of_union in Hin as [Hin | Hin];
        apply elem_of_singleton in Hin; rewrite Hin in E; simpl in E;
        intuition discriminate. }
    rewrite E1, E2 in Hb. destruct Hb as (_ & -> & [= -> ->]).
    repeat split; eauto.
    unfold suffix. now rewrite (name_joinpath_relative _ _ _ _ Hrel Hne).
Qed.

Lemma C1_witness_heic :
  suffix (Examples.rel ["output"; "photo.jpg"]) = ".jpg" /\ true = true.
Proof.
  eapply (C1_output_suffix_by_extension Examples.photo_env
            Examples.photo_heic Examples.input_dir Examples.output_dir []).
  - discriminate.
  - vm_compute. reflexivity.
  - reflexivity.
Defined.

End Normalizer.

(** ** The metadata applier: the arguments it builds *)

Section ApplierArguments.
Import PyStr Pathlib Py Datetime Run Script Words Observations.

Lemma get_dict d k dflt : get (VDict d) k dflt = Ok (default dflt (lookup k d)).
Proof. unfold get. now destruct (lookup k d). Qed.

(** The timestamp of an entry that is an object or absent. *)
Lemma get_timestamp_field d k w :
  is_object_or_absent (lookup k d) ->
  bind (lift (get (VDict d) k (VDict [])))
       (fun entry => lift (get entry "timestamp" VNone)) w
  = (Ok (timestamp_field d k), w).
Proof.
  unfold timestamp_field, bind, lift. rewrite get_dict.
  destruct (lookup k d) as [[]|]; simpl; try contradiction; intros _.
  - now destruct (lookup "timestamp" _).
  - reflexivity.
Qed.

Lemma photo_timestamp_chosen d w :
  time_entries_are_objects d ->
  photo_timestamp (VDict d) w = (Ok (chosen_timestamp d), w).
Proof.
  intros [Ht Hc]. unfold photo_timestamp, chosen_timestamp.
  pose proof (get_timestamp_field d "photoTakenTime" w Ht) as E.
  pose proof (get_timestamp_field d "creationTime" w Hc) as E'.
  unfold bind, lift, ret in *.
  destruct (get (VDict d) "photoTakenTime" (VDict [])) as [taken|];
    [| discriminate].
  destruct (get taken "timestamp" VNone) as [ts|]; [| discriminate].
  injection E as ->. destruct (truthy _); [reflexivity | exact E'].
Qed.

(** [int] of a string returns, or raises [ValueError]. *)
Lemma int_of_string s :
  int (VStr s) = match parse_int s with
                 | Some z => Ok z
                 | None => Raise ValueError
                 end.
Proof. reflexivity. Qed.

(** The timestamp block, by the timestamp it reads: a number of epoch
    seconds within the years 1 to 9999 gives the three date arguments. *)
Lemma timestamp_args_dates target_file d w epoch :
  time_entries_are_objects d ->
  truthy (chosen_timestamp d) = true ->
  int (chosen_timestamp d) = Ok epoch ->
  -62135596800 <= epoch <= 253402300799 ->
  exists dt,
    utcfromtimestamp epoch = Ok dt /\ valid dt /\ timegm dt = epoch
    /\ timestamp_args target_file (VDict d) w
       = (Ok (date_args (strftime dt)), w).
Proof.
  intros Hobj Ht Hint Hrange.
  destruct (utcfromtimestamp_correct epoch Hrange) as (dt & Hdt & Hv & Hg).
  exists dt. do 3 (split; [assumption |]).
  unfold timestamp_args. unfold bind at 1.
  rewrite photo_timestamp_chosen by assumption. rewrite Ht.
  unfold try_except, bind, lift, ret. now rewrite Hint, Hdt.
Qed.

(** A [ValueError] of [int] or of [utcfromtimestamp] is caught: the
    warning is logged and no argument added. *)
Lemma timestamp_args_warns target_file d w :
  time_entries_are_objects d ->
  truthy (chosen_timestamp d) = true ->
  int (chosen_timestamp d) = Raise ValueError
  \/ (exists epoch, int (chosen_timestamp d) = Ok epoch
                    /\ utcfromtimestamp epoch = Raise ValueError) ->
  timestamp_args target_file (VDict d) w
  = (Ok [],
     w ++ [Log WARNING
             "Unable to parse timestamp {photo_timestamp} for {target_file}"
             [str target_file]]).
Proof.
  intros Hobj Ht H.
  unfold timestamp_args. unfold bind at 1.
  rewrite photo_timestamp_chosen by assumption. rewrite Ht.
  unfold try_except, bind, lift, ret, log, emit.
  destruct H as [-> | (epoch & -> & ->)]; reflexivity.
Qed.

(** Another exception of [int] or of [utcfromtimestamp] is not caught. *)
Lemma timestamp_args_raises target_file d w e :
  time_entries_are_objects d ->
  truthy (chosen_timestamp d) = true ->
  int (chosen_timestamp d) = Raise e
  \/ (exists epoch, int (chosen_timestamp d) = Ok epoch
                    /\ utcfromtimestamp epoch = Raise e) ->
  isinstance e ValueError = false ->
  timestamp_args target_file (VDict d) w = (Raise e, w).
Proof.
  intros Hobj Ht H He.
  unfold timestamp_args. unfold bind at 1.
  rewrite photo_timestamp_chosen by assumption. rewrite Ht.
  unfold try_except, bind, lift, ret, log, emit.
  destruct H as [-> | (epoch & -> & ->)]; now rewrite He.
Qed.

(** No timestamp, or an empty one: nothing is added. *)
Lemma timestamp_args_absent target_file d w :
  time_entries_are_objects d ->
  truthy (chosen_timestamp d) = false ->
  timestamp_args target_file (VDict d) w = (Ok [], w).
Proof.
  intros Hobj Ht. unfold timestamp_args. unfold bind at 1.
  rewrite photo_timestamp_chosen by assumption. now rewrite Ht.
Qed.

(** The timestamp of the specification's example. *)
Example timestamp_1700000000 :
  timestamp_args Examples.photo_heic
    (VDict [("photoTakenTime", VDict [("timestamp", VStr "1700000000")])]) []
  = (Ok [Lit "-DateTimeOriginal=2023:11:14 22:13:20";
         Lit "-CreateDate=2023:11:14 22:13:20";
         Lit "-ModifyDate=2023:11:14 22:13:20"], []).
Proof. reflexivity. Qed.

(** A timestamp that is an array is not caught by [except ValueError]. *)
Example timestamp_array_raises :
  timestamp_args Examples.photo_heic
    (VDict [("photoTakenTime", VDict [("timestamp", VList [VInt 1])])]) []
  = (Raise TypeError, []).
Proof. reflexivity. Qed.

(** What [int] takes for a number: digits of any script and white space
    around them, but no control character. *)
Example int_fullwidth_digits :
  (* U+FF11 U+FF12 U+FF13 *)
  let fullwidth :=
    fold_right (fun n s => String (ascii_of_nat n) s) EmptyString
      [239; 188; 145; 239; 188; 146; 239; 188; 147]%nat in
  int (VStr fullwidth) = Ok 123
  /\ int (VStr (String (ascii_of_nat 28) "5")) = Raise ValueError
  /\ int (VStr " 1_700 ") = Ok 1700.
Proof. repeat split. Qed.

(** *** GPS *)

Lemma abs_gt_number v c :
  is_number v ->
  exists b, abs_gt v c = Ok b /\ (b = true <-> magnitude_exceeds v c).
Proof.
  assert (Q : forall a, negb (Qle_bool a c) = true <-> (c < a)%Q).
  { intros a. rewrite negb_true_iff, <- not_true_iff_false, Qle_bool_iff.
    split; [apply Qnot_le_lt | apply Qlt_not_le]. }
  destruct v as [| b | z | [| neg | q] | | |]; simpl; try contradiction;
    intros _; eexists; (split; [reflexivity |]); try apply Q.
  - split; [discriminate | contradiction].
  - tauto.
Qed.

Lemma ge_zero_number v :
  is_number v ->
  exists b, ge_zero v = Ok b /\ (b = true <-> non_negative v).
Proof.
  destruct v as [| b | z | [| neg | q] | | |]; simpl; try contradiction;
    intros _; eexists; (split; [reflexivity |]).
  - tauto.
  - apply Z.leb_le.
  - split; [discriminate | contradiction].
  - destruct neg; simpl; split; congruence.
  - apply Qle_bool_iff.
Qed.

Lemma geo_data_chosen d w :
  geo_data (VDict d) w = (Ok (coordinate_bag d), w).
Proof.
  unfold geo_data, coordinate_bag, bind, lift, ret. rewrite !get_dict.
  destruct (truthy (default VNone (lookup "geoData" d))); [reflexivity |].
  now destruct (truthy (default VNone (lookup "geoDataExif" d))).
Qed.


Lemma is_none_spec v : is_none v = true <-> v = VNone.
Proof. destruct v; simpl; split; congruence. Qed.

(** The GPS block on a coordinate bag that is an object with numbers for
    the coordinates it has. *)
Lemma gps_args_numbers d w c :
  coordinate_bag d = VDict c ->
  let latitude := default VNone (lookup "latitude" c) in
  let longitude := default VNone (lookup "longitude" c) in
  (latitude <> VNone -> longitude <> VNone ->
   is_number latitude /\ is_number longitude) ->
  exists args,
    gps_args (VDict d) w = (Ok args, w)
    /\ (args <> []
        <-> latitude <> VNone /\ longitude <> VNone
            /\ (magnitude_exceeds latitude GPS_EPSILON
                \/ magnitude_exceeds longitude GPS_EPSILON))
    /\ (args <> [] ->
        exists ns ew,
          args = [Fmt "-GPSLatitude=" latitude;
                  Fmt "-GPSLongitude=" longitude;
                  Lit ("-GPSLatitudeRef=" +:+ ns);
                  Lit ("-GPSLongitudeRef=" +:+ ew)]
          /\ (ns = "N" /\ non_negative latitude
              \/ ns = "S" /\ ~ non_negative latitude)
          /\ (ew = "E" /\ non_negative longitude
              \/ ew = "W" /\ ~ non_negative longitude)).
Proof.
  intros Hbag latitude longitude Hnum.
  unfold gps_args, bind. rewrite geo_data_chosen, Hbag.
  unfold lift. rewrite !get_dict. fold latitude longitude.
  destruct (is_none latitude) eqn:Nlat.
  { apply is_none_spec in Nlat. simpl. exists []. unfold ret.
    repeat split; try tauto; intros; tauto. }
  destruct (is_none longitude) eqn:Nlng.
  { apply is_none_spec in Nlng. simpl. exists []. unfold ret.
    repeat split; try tauto; intros; tauto. }
  assert (Plat : latitude <> VNone)
    by (intros E; apply is_none_spec in E; congruence).
  assert (Plng : longitude <> VNone)
    by (intros E; apply is_none_spec in E; congruence).
  destruct (Hnum Plat Plng) as [Hlat Hlng].
  destruct (abs_gt_number latitude GPS_EPSILON Hlat) as (a & Ea & Ha).
  destruct (abs_gt_number longitude GPS_EPSILON Hlng) as (b & Eb & Hb).
  destruct (ge_zero_number latitude Hlat) as (n & En & Hn).
  destruct (ge_zero_number longitude Hlng) as (e & Ee & He).
  simpl. rewrite Ea.
  assert (Far : exists far,
             (if a then ret true else fun w0 => (abs_gt longitude GPS_EPSILON, w0)) w
             = (Ok far, w)
             /\ (far = true <-> magnitude_exceeds latitude GPS_EPSILON
                               \/ magnitude_exceeds longitude GPS_EPSILON)).
  { destruct a.
    - exists true. split; [reflexivity |]. tauto.
    - exists b. rewrite Eb. split; [reflexivity |].
      split; [tauto |]. intros [H | H]; [| tauto].
      apply Ha in H. discriminate. }
  destruct Far as (far & -> & Hfar).
  destruct far.
  - rewrite En, Ee. unfold ret. eexists; split; [reflexivity |].
    split; [split; [tauto | discriminate] |].
    intros _. exists (if n then "N" else "S"), (if e then "E" else "W").
    split; [reflexivity |].
    split; [destruct n | destruct e]; intuition congruence.
  - unfold ret. exists []. split; [reflexivity |].
    split; [| tauto]. split; [tauto |].
    intros (_ & _ & H). apply Hfar in H. discriminate.
Qed.


(** The GPS and description blocks do not depend on the trace. *)
Lemma constant_lift {A} (r : result A) : constant (lift r).
Proof. now exists r. Qed.

Lemma constant_ret {A} (a : A) : constant (ret a).
Proof. now exists (Ok a). Qed.

Lemma constant_bind {A B} (m : M A) (k : A -> M B) :
  constant m -> (forall a, constant (k a)) -> constant (bind m k).
Proof.
  intros [[a|e] Hm] Hk.
  - destruct (Hk a) as [r Hr]. exists r. intros w.
    unfold bind. now rewrite Hm.
  - exists (Raise e). intros w. unfold bind. now rewrite Hm.
Qed.

Ltac constant_steps :=
  repeat first
    [ apply constant_lift
    | apply constant_ret
    | apply constant_bind; [| intros ?]
    | match goal with
      | |- context [if ?b then _ else _] => destruct b
      end ].

Lemma gps_args_constant metadata : constant (gps_args metadata).
Proof. unfold gps_args, geo_data. constant_steps. Qed.

Lemma description_args_constant metadata :
  constant (description_args metadata).
Proof. unfold description_args. constant_steps. Qed.

Lemma constant_run {A} (m : M A) w r w1 w' :
  constant m -> m w = (r, w1) -> m w' = (r, w').
Proof. intros [r0 H] E. rewrite H in E |- *. congruence. Qed.

(** The coordinates of the specification's example, and the coordinates
    0, 0 that some exports write for an unknown place. *)
Example gps_north_west :
  gps_args Examples.photo_metadata []
  = (Ok [Fmt "-GPSLatitude=" (VFloat (FFin (37 # 1)));
         Fmt "-GPSLongitude=" (VFloat (FFin (-122 # 1)));
         Lit "-GPSLatitudeRef=N"; Lit "-GPSLongitudeRef=W"], []).
Proof. reflexivity. Qed.

Example gps_null_island :
  gps_args
    (VDict [("geoData", VDict [("latitude", VFloat (FFin 0));
                               ("longitude", VFloat (FFin 0))]);
            ("geoDataExif", VDict [("latitude", VFloat (FFin (37 # 1)));
                                   ("longitude", VFloat (FFin (-122 # 1)))])])
    []
  = (Ok [], []).
Proof. reflexivity. Qed.

End ApplierArguments.

(** ** The metadata applier and the file as a whole *)

Section ApplierRuns.
Import PyStr Pathlib Py Run Script Words Traces.

Lemma bind_assoc {A B C} (m : M A) (k : A -> M B) (k' : B -> M C) w :
  bind (bind m k) k' w = bind m (fun a => bind (k a) k') w.
Proof. unfold bind. destruct (m w) as [[a|e] w1]; reflexivity. Qed.

Lemma bind_ext {A B} (m : M A) (k k' : A -> M B) w :
  (forall a w1, k a w1 = k' a w1) -> bind m k w = bind m k' w.
Proof. intros H. unfold bind. destruct (m w) as [[a|e] w1]; auto. Qed.

Lemma bind_Ok_inv {A B} (m : M A) (k : A -> M B) w b w' :
  bind m k w = (Ok b, w') ->
  exists a w1, m w = (Ok a, w1) /\ k a w1 = (Ok b, w').
Proof.
  unfold bind. destruct (m w) as [[a|e] w1]; [| discriminate].
  intros H. now exists a, w1.
Qed.

(** Once its arguments are built, [update_metadata_with_exiftool] logs,
    runs exiftool, logs what came of it, and returns. *)
Lemma update_metadata_run env target_file metadata w dates w1 gps w2 descr w3 :
  timestamp_args target_file metadata w = (Ok dates, w1) ->
  gps_args metadata w1 = (Ok gps, w2) ->
  description_args metadata w2 = (Ok descr, w3) ->
  let argv :=
    [Lit "exiftool"; Lit "-overwrite_original"]
      ++ dates ++ gps ++ descr ++ [Lit (str target_file)] in
  let w4 :=
    w3 ++ [Log INFO "Updating metadata on: {target_file}" [str target_file]] in
  update_metadata_with_exiftool env target_file metadata w
  = (Ok tt, w4 ++ [Spawn argv; exiftool_outcome target_file (spawn env w4 argv)]).
Proof.
  intros Ht Hg Hd argv w4.
  unfold update_metadata_with_exiftool, bind. rewrite Ht, Hg, Hd.
  unfold log, emit, try_except_Exception, subprocess_run, bind, ret, lift.
  fold argv. fold w4. simpl andb.
  destruct (spawn env w4 argv) as [status|e]; simpl.
  - destruct (status =? 0); simpl; now rewrite <- app_assoc.
  - now rewrite <- app_assoc.
Qed.


(** [copy_metadata] where exiftool starts and exits. *)
Lemma copy_metadata_run env src_file dst_file w status :
  let w1 :=
    w ++ [Log INFO "Copying metadata from {src_file} to {dst_file}"
            [str src_file; str dst_file]] in
  spawn env w1 (copy_metadata_argv src_file dst_file) = Ok status ->
  copy_metadata env src_file dst_file w
  = if status =? 0 then
      (Ok true, w1 ++ [Spawn (copy_metadata_argv src_file dst_file)])
    else
      (Ok false,
       w1 ++ [Spawn (copy_metadata_argv src_file dst_file);
              Log ERROR
                "Metadata copy failed from {src_file} to {dst_file}: {e}"
                [str src_file; str dst_file]]).
Proof.
  intros w1 Hs.
  unfold copy_metadata, bind, log, emit, try_except, subprocess_run, bind,
    ret, lift.
  fold (copy_metadata_argv src_file dst_file). fold w1. rewrite Hs.
  simpl andb. destruct (status =? 0); simpl; [reflexivity |].
  now rewrite <- app_assoc.
Qed.

(** Whatever the metadata step does, where it returns it returns [True]. *)
Lemma apply_metadata_returns_true
    env file_path output_file conversion_performed w b w' :
  apply_metadata env file_path output_file conversion_performed w
  = (Ok b, w') ->
  b = true.
Proof.
  unfold apply_metadata. unfold bind at 1.
  destruct (find_corresponding_json env file_path w) as [[js|e] w0];
    [| discriminate].
  unfold bind at 1.
  match goal with
  | |- context [let (_, _) := ?m in _] => destruct m as [[u|e] w1]
  end; [| discriminate].
  unfold ret. congruence.
Qed.

(** One step of the walk over a supported file that [process_file] has
    returned for. *)
Lemma walk_step env input_dir output_dir file_path rest r w ok w1 :
  lower (suffix file_path) ∈ SUPPORTED_MEDIA_EXTENSIONS ->
  process_file env file_path input_dir output_dir
    (w ++ [Log INFO "Processing file: {file_path}" [str file_path]])
  = (Ok ok, w1) ->
  walk env input_dir output_dir (file_path :: rest) r w
  = walk env input_dir output_dir rest
      (if ok then
         mkReport (total_files r + 1) (processed_files r + 1)
           (failed_files r)
           (increment (lower (suffix file_path)) (extension_map r))
       else
         mkReport (total_files r + 1) (processed_files r)
           (failed_files r ++ [str file_path]) (extension_map r))
      w1.
Proof.
  intros Hs Hp. simpl. rewrite bool_decide_eq_true_2 by assumption.
  unfold bind at 1. unfold log, emit. unfold bind at 1. now rewrite Hp.
Qed.

(** A file on which [process_file] raises ends the walk and the run. *)
Lemma walk_raises env input_dir output_dir file_path rest r w e w1 :
  lower (suffix file_path) ∈ SUPPORTED_MEDIA_EXTENSIONS ->
  process_file env file_path input_dir output_dir
    (w ++ [Log INFO "Processing file: {file_path}" [str file_path]])
  = (Raise e, w1) ->
  walk env input_dir output_dir (file_path :: rest) r w = (Raise e, w1).
Proof.
  intros Hs Hp. simpl. rewrite bool_decide_eq_true_2 by assumption.
  unfold bind at 1. unfold log, emit. unfold bind at 1. now rewrite Hp.
Qed.

Lemma process_directory_raises env input_dir output_dir files w e w1 :
  walk env input_dir output_dir files empty_report w = (Raise e, w1) ->
  process_directory env input_dir output_dir files w = (Raise e, w1).
Proof. intros H. unfold process_directory. unfold bind at 1. now rewrite H. Qed.


(** [process_file] once [normalize] has returned. *)
Lemma process_file_normalized env file_path input_dir output_dir w n w1 :
  normalize env file_path input_dir output_dir w = (Ok n, w1) ->
  process_file env file_path input_dir output_dir w
  = match n with
    | None => (Ok false, w1)
    | Some (output_file, conversion_performed) =>
        apply_metadata env file_path output_file conversion_performed w1
    end.
Proof.
  intros H. unfold process_file. unfold bind at 1. rewrite H.
  now destruct n as [[]|].
Qed.

(** [apply_metadata] where the sidecar is found and still there. *)
Lemma apply_metadata_with_sidecar
    env file_path output_file conversion_performed w sidecar :
  find_corresponding_json env file_path w = (Ok (Some sidecar), w) ->
  path_exists env w sidecar = Ok true ->
  apply_metadata env file_path output_file conversion_performed w
  = bind (with_sidecar env sidecar output_file) (fun _ => ret true) w.
Proof.
  intros Hf He. unfold apply_metadata. unfold bind at 1. rewrite Hf.
  rewrite bind_assoc. unfold bind at 1. now rewrite He.
Qed.

(** C7. For every file whose resolved sidecar fails to parse, the error is
    logged as a warning, the metadata is the empty bag, exiftool is run
    with the output path alone, and [process_file] returns [True]: the
    file is a success of the walk. *)
Theorem C7_malformed_sidecar_is_empty_metadata
    env file_path input_dir output_dir w output_file conversion_performed
    w1 sidecar e :
  normalize env file_path input_dir output_dir w
  = (Ok (Some (output_file, conversion_performed)), w1) ->
  find_corresponding_json env file_path w1 = (Ok (Some sidecar), w1) ->
  path_exists env w1 sidecar = Ok true ->
  json_load env w1 sidecar = Raise e ->
  let w2 :=
    w1 ++ [Log WARNING "Could not parse JSON {json_sidecar}: {e}"
             [str sidecar];
           Log INFO "Updating metadata on: {target_file}"
             [str output_file]] in
  let argv :=
    [Lit "exiftool"; Lit "-overwrite_original"; Lit (str output_file)] in
  with_sidecar env sidecar output_file w1
  = update_metadata_with_exiftool env output_file (VDict [])
      (w1 ++ [Log WARNING "Could not parse JSON {json_sidecar}: {e}"
                [str sidecar]])
  /\ process_file env file_path input_dir output_dir w
     = (Ok true,
        w2 ++ [Spawn argv;
               exiftool_outcome output_file (spawn env w2 argv)]).
Proof.
  intros Hn Hf He Hj w2 argv.
  assert (Hw : with_sidecar env sidecar output_file w1
               = update_metadata_with_exiftool env output_file (VDict [])
                   (w1 ++ [Log WARNING
                             "Could not parse JSON {json_sidecar}: {e}"
                             [str sidecar]])).
  { unfold with_sidecar. unfold bind at 1.
    unfold try_except_Exception, bind, log, emit, ret. now rewrite Hj. }
  split; [exact Hw |].
  rewrite (process_file_normalized _ _ _ _ _ _ _ Hn).
  rewrite (apply_metadata_with_sidecar _ _ _ _ _ _ Hf He).
  unfold bind. rewrite Hw.
  rewrite (update_metadata_run env output_file (VDict []) _ [] _ [] _ [] _
             eq_refl eq_refl eq_refl).
  unfold ret. subst w2 argv. simpl app.
  now rewrite <- (app_assoc w1).
Qed.

Lemma C7_witness_photo :
  process_file Examples.malformed_sidecar_env Examples.photo_heic
    Examples.input_dir Examples.output_dir []
  = (Ok true,
     [Mkdir (Examples.rel ["output"]);
      Log INFO "Converting HEIC: {heic_file} -> {jpg_file}"
        ["in/photo.heic"; "output/photo.jpg"];
      Spawn (magick_argv Examples.photo_heic
               (Examples.rel ["output"; "photo.jpg"]));
      Log WARNING "Could not parse JSON {json_sidecar}: {e}"
        ["in/photo.heic.json"];
      Log INFO "Updating metadata on: {target_file}" ["output/photo.jpg"];
      Spawn [Lit "exiftool"; Lit "-overwrite_original";
             Lit "output/photo.jpg"];
      Log INFO "Metadata updated for {target_file}" ["output/photo.jpg"]]).
Proof.
  refine (proj2 (C7_malformed_sidecar_is_empty_metadata
                   Examples.malformed_sidecar_env Examples.photo_heic
                   Examples.input_dir Examples.output_dir []
                   (Examples.rel ["output"; "photo.jpg"]) true
                   [Mkdir (Examples.rel ["output"]);
                    Log INFO "Converting HEIC: {heic_file} -> {jpg_file}"
                      ["in/photo.heic"; "output/photo.jpg"];
                    Spawn (magick_argv Examples.photo_heic
                             (Examples.rel ["output"; "photo.jpg"]))]
                   Examples.photo_heic_json JSONDecodeError
                   _ _ _ _)); reflexivity.
Defined.


(** A value that is not a [dict] has no [get]. *)
Lemma update_metadata_not_dict env target_file metadata w :
  (forall d, metadata <> VDict d) ->
  update_metadata_with_exiftool env target_file metadata w
  = (Raise AttributeError, w).
Proof.
  intros H. destruct metadata; try reflexivity. now destruct (H d).
Qed.

Lemma walk_app env input_dir output_dir before after r w :
  walk env input_dir output_dir (before ++ after) r w
  = bind (walk env input_dir output_dir before r)
         (fun r' => walk env input_dir output_dir after r') w.
Proof.
  revert r w; induction before as [|f before IH]; intros r w; simpl.
  - reflexivity.
  - destruct (bool_decide _); [| apply IH].
    rewrite bind_assoc. apply bind_ext. intros _ w1.
    rewrite bind_assoc. apply bind_ext. intros ok w2. apply IH.
Qed.

(** C9. For every sidecar that parses to a value that is neither an object
    nor an array that starts with an object, the first key lookup of the
    metadata applier raises [AttributeError]; nothing catches it, so
    [process_file] raises, the walk stops at this file (the files after it
    are not processed) and [process_directory] raises without a report. *)
Theorem C9_non_object_sidecar_aborts_walk
    env input_dir output_dir before file_path after r w0 w output_file
    conversion_performed w1 sidecar v :
  walk env input_dir output_dir before empty_report w0 = (Ok r, w) ->
  lower (suffix file_path) ∈ SUPPORTED_MEDIA_EXTENSIONS ->
  normalize env file_path input_dir output_dir
    (w ++ [Log INFO "Processing file: {file_path}" [str file_path]])
  = (Ok (Some (output_file, conversion_performed)), w1) ->
  find_corresponding_json env file_path w1 = (Ok (Some sidecar), w1) ->
  path_exists env w1 sidecar = Ok true ->
  json_load env w1 sidecar = Ok v ->
  is_metadata_bag v = false ->
  process_file env file_path input_dir output_dir
    (w ++ [Log INFO "Processing file: {file_path}" [str file_path]])
  = (Raise AttributeError, w1)
  /\ walk env input_dir output_dir (before ++ file_path :: after)
       empty_report w0
     = (Raise AttributeError, w1)
  /\ process_directory env input_dir output_dir
       (before ++ file_path :: after) w0
     = (Raise AttributeError, w1).
Proof.
  intros Hb Hs Hn Hf He Hj Hv.
  assert (Hp : process_file env file_path input_dir output_dir
                 (w ++ [Log INFO "Processing file: {file_path}"
                          [str file_path]])
               = (Raise AttributeError, w1)).
  { rewrite (process_file_normalized _ _ _ _ _ _ _ Hn).
    rewrite (apply_metadata_with_sidecar _ _ _ _ _ _ Hf He).
    unfold bind at 1. unfold with_sidecar. unfold bind at 1.
    unfold try_except_Exception, bind, ret. rewrite Hj.
    destruct v as [| | | | | [|first l] | d]; try discriminate;
      try (now rewrite update_metadata_not_dict by discriminate).
    destruct first; try discriminate;
      now rewrite update_metadata_not_dict by discriminate. }
  assert (Hw : walk env input_dir output_dir (before ++ file_path :: after)
                 empty_report w0
               = (Raise AttributeError, w1)).
  { rewrite walk_app. unfold bind. rewrite Hb.
    now apply walk_raises. }
  repeat split; try assumption. now apply process_directory_raises.
Qed.

Lemma C9_witness_empty_array :
  process_directory Examples.empty_array_sidecar_env Examples.input_dir
    Examples.output_dir ([] ++ Examples.photo_heic :: [Examples.name_jpg]) []
  = (Raise AttributeError,
     [Log INFO "Processing file: {file_path}" ["in/photo.heic"];
      Mkdir (Examples.rel ["output"]);
      Log INFO "Converting HEIC: {heic_file} -> {jpg_file}"
        ["in/photo.heic"; "output/photo.jpg"];
      Spawn (magick_argv Examples.photo_heic
               (Examples.rel ["output"; "photo.jpg"]))]).
Proof.
  refine (proj2 (proj2 (C9_non_object_sidecar_aborts_walk
                   Examples.empty_array_sidecar_env Examples.input_dir
                   Examples.output_dir [] Examples.photo_heic
                   [Examples.name_jpg] empty_report [] []
                   (Examples.rel ["output"; "photo.jpg"]) true
                   _ Examples.photo_heic_json (VList [])
                   eq_refl _ _ _ _ _ _))); reflexivity.
Defined.


(** *** Failures of the metadata tool *)

(** Exiftool exits with status 1 on both contracts: both failures are
    logged, and both files are reported as processed, none as failed. *)
Lemma C5_counterexample_failure_not_recorded :
  let run :=
    process_directory Examples.failing_exiftool_env Examples.input_dir
      Examples.output_dir [Examples.a_jpg; Examples.b_heic] [] in
  (forall w argv,
      Examples.program argv = "exiftool" ->
      spawn Examples.failing_exiftool_env w argv = Ok 1)
  /\ In (Log ERROR
           "ExifTool error for {target_file}: {result.stderr.strip()}"
           ["output/a.jpg"]) (snd run)
  /\ In (Log ERROR "Metadata copy failed from {src_file} to {dst_file}: {e}"
           ["in/b.heic"; "output/b.jpg"]) (snd run)
  /\ exists r,
       fst run = Ok r /\ failed_files r = [] /\ total_files r = 2
       /\ processed_files r = 2 /\ reported_failed r = 0.
Proof.
  cbv zeta. split; [| split; [| split]].
  - intros w argv H. simpl. unfold Examples.exiftool_fails. now rewrite H.
  - vm_compute. tauto.
  - vm_compute. tauto.
  - eexists. split; [vm_compute; reflexivity |]. repeat split.
Qed.

(** C5, amended. For every file on which the metadata tool exits
    non-zero in the sidecar-apply contract, the failure is logged as an
    error and is not recorded against the file: [process_file] returns
    [True], and the walk counts the file as processed, tallies its
    extension, leaves the failed list as it is, and goes on to the next
    file. *)
Theorem C5_metadata_failure_is_logged_only
    env input_dir output_dir file_path rest r w output_file
    conversion_performed w1 sidecar loaded dates w2 gps descr status :
  lower (suffix file_path) ∈ SUPPORTED_MEDIA_EXTENSIONS ->
  let w0 := w ++ [Log INFO "Processing file: {file_path}" [str file_path]] in
  normalize env file_path input_dir output_dir w0
  = (Ok (Some (output_file, conversion_performed)), w1) ->
  find_corresponding_json env file_path w1 = (Ok (Some sidecar), w1) ->
  path_exists env w1 sidecar = Ok true ->
  json_load env w1 sidecar = Ok loaded ->
  let metadata :=
    match loaded with
    | VList (first :: _) => first
    | _ => loaded
    end in
  timestamp_args output_file metadata w1 = (Ok dates, w2) ->
  gps_args metadata w2 = (Ok gps, w2) ->
  description_args metadata w2 = (Ok descr, w2) ->
  let argv :=
    [Lit "exiftool"; Lit "-overwrite_original"]
      ++ dates ++ gps ++ descr ++ [Lit (str output_file)] in
  let w3 :=
    w2 ++ [Log INFO "Updating metadata on: {target_file}"
             [str output_file]] in
  spawn env w3 argv = Ok status ->
  status <> 0 ->
  let w4 :=
    w3 ++ [Spawn argv;
           Log ERROR
             "ExifTool error for {target_file}: {result.stderr.strip()}"
             [str output_file]] in
  process_file env file_path input_dir output_dir w0 = (Ok true, w4)
  /\ walk env input_dir output_dir (file_path :: rest) r w
     = walk env input_dir output_dir rest
         (mkReport (total_files r + 1) (processed_files r + 1)
            (failed_files r)
            (increment (lower (suffix file_path)) (extension_map r)))
         w4.
Proof.
  intros Hs w0 Hn Hf He Hj metadata Ht Hg Hd argv w3 Hsp Hne w4.
  assert (Hp : process_file env file_path input_dir output_dir w0
               = (Ok true, w4)).
  { rewrite (process_file_normalized _ _ _ _ _ _ _ Hn).
    rewrite (apply_metadata_with_sidecar _ _ _ _ _ _ Hf He).
    unfold bind at 1. unfold with_sidecar. unfold bind at 1.
    assert (Hl : try_except_Exception
                   (bind (fun w => (json_load env w sidecar, w))
                      (fun metadata =>
                         match metadata with
                         | VList (first :: _) => ret first
                         | _ => ret metadata
                         end))
                   (bind (log WARNING "Could not parse JSON {json_sidecar}: {e}"
                            [str sidecar])
                      (fun _ => ret (VDict []))) w1
                 = (Ok metadata, w1)).
    { unfold try_except_Exception, bind, ret. rewrite Hj. subst metadata.
      destruct loaded as [| | | | | [|first l] |]; reflexivity. }
    rewrite Hl.
    rewrite (update_metadata_run env _ _ _ _ _ _ _ _ _ Ht Hg Hd).
    fold argv. fold w3. rewrite Hsp. simpl exiftool_outcome.
    now rewrite (proj2 (Z.eqb_neq status 0) Hne). }
  split; [exact Hp |]. now rewrite (walk_step _ _ _ _ _ _ _ _ _ Hs Hp).
Qed.

Lemma C5_witness_sidecar_apply :
  process_file Examples.failing_exiftool_env Examples.a_jpg
    Examples.input_dir Examples.output_dir
    ([] ++ [Log INFO "Processing file: {file_path}" ["in/a.jpg"]])
  = (Ok true,
     [Log INFO "Processing file: {file_path}" ["in/a.jpg"];
      Mkdir (Examples.rel ["output"]);
      Copy2 Examples.a_jpg (Examples.rel ["output"; "a.jpg"]);
      Log INFO "Updating metadata on: {target_file}" ["output/a.jpg"];
      Spawn [Lit "exiftool"; Lit "-overwrite_original";
             Lit "-DateTimeOriginal=2020:09:13 12:26:40";
             Lit "-CreateDate=2020:09:13 12:26:40";
             Lit "-ModifyDate=2020:09:13 12:26:40";
             Fmt "-GPSLatitude=" (VFloat (FFin (37 # 1)));
             Fmt "-GPSLongitude=" (VFloat (FFin (-122 # 1)));
             Lit "-GPSLatitudeRef=N"; Lit "-GPSLongitudeRef=W";
             Lit "output/a.jpg"];
      Log ERROR "ExifTool error for {target_file}: {result.stderr.strip()}"
        ["output/a.jpg"]]).
Proof.
  refine (proj1 (C5_metadata_failure_is_logged_only
                   Examples.failing_exiftool_env Examples.input_dir
                   Examples.output_dir Examples.a_jpg [] empty_report []
                   (Examples.rel ["output"; "a.jpg"]) false
                   [Log INFO "Processing file: {file_path}" ["in/a.jpg"];
                    Mkdir (Examples.rel ["output"]);
                    Copy2 Examples.a_jpg (Examples.rel ["output"; "a.jpg"])]
                   Examples.a_jpg_json Examples.photo_metadata
                   [Lit "-DateTimeOriginal=2020:09:13 12:26:40";
                    Lit "-CreateDate=2020:09:13 12:26:40";
                    Lit "-ModifyDate=2020:09:13 12:26:40"]
                   [Log INFO "Processing file: {file_path}" ["in/a.jpg"];
                    Mkdir (Examples.rel ["output"]);
                    Copy2 Examples.a_jpg (Examples.rel ["output"; "a.jpg"])]
                   [Fmt "-GPSLatitude=" (VFloat (FFin (37 # 1)));
                    Fmt "-GPSLongitude=" (VFloat (FFin (-122 # 1)));
                    Lit "-GPSLatitudeRef=N"; Lit "-GPSLongitudeRef=W"]
                   [] 1 _ _ _ _ _ _ _ _ _ _));
    try reflexivity.
  discriminate.
Defined.

(** *** Failures of the converters *)

(** A converter that exits non-zero: the conversion returns [False]. *)
Lemma convert_heic_nonzero env heic_file jpg_file w status :
  let w1 :=
    w ++ [Log INFO "Converting HEIC: {heic_file} -> {jpg_file}"
            [str heic_file; str jpg_file]] in
  spawn env w1 (magick_argv heic_file jpg_file) = Ok status ->
  status <> 0 ->
  convert_heic_to_jpg env heic_file jpg_file w
  = (Ok false,
     w1 ++ [Spawn (magick_argv heic_file jpg_file);
            Log ERROR "HEIC conversion failed for {heic_file}: {e}"
              [str heic_file]]).
Proof.
  intros w1 Hs Hne.
  unfold convert_heic_to_jpg, bind, log, emit, try_except, subprocess_run,
    bind, ret, lift.
  fold (magick_argv heic_file jpg_file). fold w1. rewrite Hs.
  rewrite (proj2 (Z.eqb_neq status 0) Hne). simpl.
  now rewrite <- app_assoc.
Qed.

Lemma convert_video_nonzero env mov_file mp4_file w status :
  which env w "ffmpeg" = true ->
  let w1 :=
    w ++ [Log INFO "Converting: {mov_file} -> {mp4_file}"
            [str mov_file; str mp4_file]] in
  spawn env w1 (ffmpeg_argv mov_file mp4_file) = Ok status ->
  status <> 0 ->
  convert_video_to_mp4 env mov_file mp4_file w
  = (Ok false,
     w1 ++ [Spawn (ffmpeg_argv mov_file mp4_file);
            Log ERROR "Failed to convert {mov_file} to MP4: {e}"
              [str mov_file]]).
Proof.
  intros Hw w1 Hs Hne.
  unfold convert_video_to_mp4. unfold bind at 1. unfold ask. rewrite Hw.
  unfold bind, log, emit, try_except, subprocess_run, bind, ret, lift.
  cbv beta iota delta [negb]. fold w1. rewrite Hs.
  rewrite (proj2 (Z.eqb_neq status 0) Hne). simpl.
  now rewrite <- app_assoc.
Qed.

(** ffmpeg is not on the path: the conversion fails at once, and no
    subprocess is started. *)
Lemma convert_video_fails_fast env mov_file mp4_file w :
  which env w "ffmpeg" = false ->
  convert_video_to_mp4 env mov_file mp4_file w
  = (Ok false,
     w ++ [Log ERROR
             "ffmpeg not found in PATH. Please install ffmpeg and add it to your PATH."
             []]).
Proof.
  intros Hw. unfold convert_video_to_mp4. unfold bind at 1. unfold ask.
  rewrite Hw. reflexivity.
Qed.

(** A failed conversion ends [process_file] with [False]; the metadata
    step is not reached. *)
Lemma failed_conversion_skips_metadata
    env file_path input_dir output_dir w w1 :
  normalize env file_path input_dir output_dir w = (Ok None, w1) ->
  process_file env file_path input_dir output_dir w = (Ok false, w1).
Proof. intros H. now rewrite (process_file_normalized _ _ _ _ _ _ _ H). Qed.

(** ImageMagick cannot be started: [FileNotFoundError] is not a
    [CalledProcessError], and [convert_heic_to_jpg] raises it. *)
Lemma convert_heic_not_found env heic_file jpg_file w :
  let w1 :=
    w ++ [Log INFO "Converting HEIC: {heic_file} -> {jpg_file}"
            [str heic_file; str jpg_file]] in
  spawn env w1 (magick_argv heic_file jpg_file) = Raise FileNotFoundError ->
  convert_heic_to_jpg env heic_file jpg_file w
  = (Raise FileNotFoundError, w1 ++ [Spawn (magick_argv heic_file jpg_file)]).
Proof.
  intros w1 Hs.
  unfold convert_heic_to_jpg, bind, log, emit, try_except, subprocess_run,
    bind, ret, lift.
  fold (magick_argv heic_file jpg_file). fold w1. now rewrite Hs.
Qed.

(** C6, at a [.heic] file on a machine without ImageMagick: the exception
    leaves [process_file] and [process_directory]; the run ends without a
    report, and [name.jpg], next in the walk, is never processed. *)
Theorem C6_missing_image_converter_aborts_walk :
  process_directory Examples.no_magick_env Examples.input_dir
    Examples.output_dir [Examples.photo_heic; Examples.name_jpg] []
  = (Raise FileNotFoundError,
     [Log INFO "Processing file: {file_path}" ["in/photo.heic"];
      Mkdir (Examples.rel ["output"]);
      Log INFO "Converting HEIC: {heic_file} -> {jpg_file}"
        ["in/photo.heic"; "output/photo.jpg"];
      Spawn (magick_argv Examples.photo_heic
               (Examples.rel ["output"; "photo.jpg"]))]).
Proof. reflexivity. Qed.

End ApplierRuns.

(** ** The fields of a sidecar *)

Section SidecarFields.
Import PyStr Pathlib Py Datetime Run Script Words Traces Observations.




(** C4, as stated, fails: with latitude 50 and the longitude a string,
    both coordinates are present and the latitude is greater than 0.00001,
    yet no GPS field is written: [longitude >= 0] raises [TypeError],
    exiftool is not run, and the exception ends the run of the whole
    directory. *)
Lemma C4_counterexample_string_longitude :
  coordinate_bag [("geoData", VDict [("latitude", VInt 50);
                                     ("longitude", VStr "2.35")])]
  = VDict [("latitude", VInt 50); ("longitude", VStr "2.35")]
  /\ magnitude_exceeds (VInt 50) GPS_EPSILON
  /\ update_metadata_with_exiftool FieldExamples.string_longitude_env
       (Examples.rel ["output"; "photo.jpg"])
       FieldExamples.string_longitude []
     = (Raise TypeError, [])
  /\ fst (process_directory FieldExamples.string_longitude_env
            Examples.input_dir Examples.output_dir
            [Examples.photo_heic; Examples.name_jpg] [])
     = Raise TypeError.
Proof. repeat split. Qed.

(** C4, amended. For every sidecar metadata bag whose coordinate bag
    ([geoData], or [geoDataExif] where that is absent or empty) is an
    object with numbers for the coordinates it has, exiftool is run with
    the four GPS arguments if and only if latitude and longitude are both
    present (not [None]) and at least one has absolute value greater than
    0.00001; then the latitude reference is N for a non-negative latitude
    and S otherwise, the longitude reference E for a non-negative longitude
    and W otherwise. Otherwise exiftool is run without a GPS argument. *)
Theorem C4_gps_fields env target_file d w c dates w1 descr :
  coordinate_bag d = VDict c ->
  let latitude := default VNone (lookup "latitude" c) in
  let longitude := default VNone (lookup "longitude" c) in
  (latitude <> VNone -> longitude <> VNone ->
   is_number latitude /\ is_number longitude) ->
  timestamp_args target_file (VDict d) w = (Ok dates, w1) ->
  description_args (VDict d) w1 = (Ok descr, w1) ->
  exists gps,
    (let argv :=
       [Lit "exiftool"; Lit "-overwrite_original"]
         ++ dates ++ gps ++ descr ++ [Lit (str target_file)] in
     let w2 :=
       w1 ++ [Log INFO "Updating metadata on: {target_file}"
                [str target_file]] in
     update_metadata_with_exiftool env target_file (VDict d) w
     = (Ok tt,
        w2 ++ [Spawn argv;
               exiftool_outcome target_file (spawn env w2 argv)]))
    /\ (gps <> []
        <-> latitude <> VNone /\ longitude <> VNone
            /\ (magnitude_exceeds latitude GPS_EPSILON
                \/ magnitude_exceeds longitude GPS_EPSILON))
    /\ (gps <> [] ->
        exists ns ew,
          gps = [Fmt "-GPSLatitude=" latitude;
                 Fmt "-GPSLongitude=" longitude;
                 Lit ("-GPSLatitudeRef=" +:+ ns);
                 Lit ("-GPSLongitudeRef=" +:+ ew)]
          /\ (ns = "N" /\ non_negative latitude
              \/ ns = "S" /\ ~ non_negative latitude)
          /\ (ew = "E" /\ non_negative longitude
              \/ ew = "W" /\ ~ non_negative longitude)).
Proof.
  intros Hbag latitude longitude Hnum Ht Hd.
  destruct (gps_args_numbers d w1 c Hbag Hnum) as (gps & Hg & Hiff & Hshape).
  exists gps. split; [| split; assumption].
  exact (update_metadata_run env _ _ _ _ _ _ _ _ _ Ht Hg Hd).
Qed.

Lemma C4_witness_north_west :
  let c := [("latitude", VFloat (FFin (37 # 1)));
            ("longitude", VFloat (FFin (-122 # 1)))] in
  let latitude := default VNone (lookup "latitude" c) in
  let longitude := default VNone (lookup "longitude" c) in
  let target_file := Examples.rel ["output"; "photo.jpg"] in
  exists gps,
    update_metadata_with_exiftool Examples.photo_env target_file
      (VDict [("geoData", VDict c)]) []
    = (Ok tt,
       [Log INFO "Updating metadata on: {target_file}" ["output/photo.jpg"];
        Spawn ([Lit "exiftool"; Lit "-overwrite_original"]
                 ++ gps ++ [Lit "output/photo.jpg"]);
        Log INFO "Metadata updated for {target_file}" ["output/photo.jpg"]])
    /\ (gps <> []
        <-> latitude <> VNone /\ longitude <> VNone
            /\ (magnitude_exceeds latitude GPS_EPSILON
                \/ magnitude_exceeds longitude GPS_EPSILON))
    /\ (gps <> [] ->
        exists ns ew,
          gps = [Fmt "-GPSLatitude=" latitude;
                 Fmt "-GPSLongitude=" longitude;
                 Lit ("-GPSLatitudeRef=" +:+ ns);
                 Lit ("-GPSLongitudeRef=" +:+ ew)]
          /\ (ns = "N" /\ non_negative latitude
              \/ ns = "S" /\ ~ non_negative latitude)
          /\ (ew = "E" /\ non_negative longitude
              \/ ew = "W" /\ ~ non_negative longitude)).
Proof.
  refine (C4_gps_fields Examples.photo_env
            (Examples.rel ["output"; "photo.jpg"])
            [("geoData", VDict [("latitude", VFloat (FFin (37 # 1)));
                                ("longitude", VFloat (FFin (-122 # 1)))])]
            []
            [("latitude", VFloat (FFin (37 # 1)));
             ("longitude", VFloat (FFin (-122 # 1)))]
            [] [] [] _ _ _ _).
  - reflexivity.
  - intros _ _. split; exact I.
  - reflexivity.
  - reflexivity.
Defined.

End SidecarFields.

(** ** The directory walker and its report *)

Section Walker.
Import PyStr Pathlib Py Run Script.

Lemma tally_sum_empty : tally_sum ∅ = 0.
Proof. apply map_fold_empty. Qed.

Lemma tally_sum_increment ext (m : gmap string Z) :
  tally_sum (increment ext m) = tally_sum m + 1.
Proof.
  unfold tally_sum, increment.
  assert (C : forall (m' : gmap string Z) (j1 j2 : string) (z1 z2 y : Z),
             j1 <> j2 -> m' !! j1 = Some z1 -> m' !! j2 = Some z2 ->
             z1 + (z2 + y) = z2 + (z1 + y)) by (intros; lia).
  destruct (m !! ext) as [v|] eqn:E; simpl.
  - rewrite (map_fold_delete_L _ _ ext v m (C m) E).
    rewrite <- insert_delete_eq.
    rewrite map_fold_insert_L; [lia | apply C | apply lookup_delete_eq].
  - rewrite map_fold_insert_L; [lia | apply C | assumption].
Qed.

(** C8. For every file whose lower-cased extension is outside the
    supported set, the walk is the walk without the file: the same report
    (total, per-extension counts, failed list) and the same trace, so no
    directory is made, nothing is copied or converted, and no tool is run
    for it. *)
Theorem C8_unsupported_files_are_ignored
    env input_dir output_dir before file_path after r w :
  lower (suffix file_path) ∉ SUPPORTED_MEDIA_EXTENSIONS ->
  walk env input_dir output_dir (before ++ file_path :: after) r w
  = walk env input_dir output_dir (before ++ after) r w
  /\ process_directory env input_dir output_dir
       (before ++ file_path :: after) w
     = process_directory env input_dir output_dir (before ++ after) w.
Proof.
  intros Hun.
  assert (E : forall r w,
             walk env input_dir output_dir (before ++ file_path :: after) r w
             = walk env input_dir output_dir (before ++ after) r w).
  { intros r0 w0. rewrite !walk_app. unfold bind.
    destruct (walk env input_dir output_dir before r0 w0) as [[r1|e] w1];
      [| reflexivity].
    simpl. now rewrite bool_decide_eq_false_2. }
  split; [apply E |].
  unfold process_directory, bind. now rewrite E.
Qed.

Lemma C8_witness_notes_txt :
  process_directory Examples.photo_env Examples.input_dir Examples.output_dir
    ([Examples.photo_heic] ++ Examples.rel ["in"; "notes.txt"] :: []) []
  = process_directory Examples.photo_env Examples.input_dir
      Examples.output_dir ([Examples.photo_heic] ++ []) [].
Proof.
  apply (C8_unsupported_files_are_ignored Examples.photo_env
           Examples.input_dir Examples.output_dir [Examples.photo_heic]
           (Examples.rel ["in"; "notes.txt"]) [] empty_report []).
  vm_compute. discriminate.
Defined.

(** The walk keeps the report consistent. *)
Lemma walk_consistent env input_dir output_dir files r w r' w' :
  total_files r = processed_files r + Z.of_nat (length (failed_files r)) ->
  tally_sum (extension_map r) = processed_files r ->
  walk env input_dir output_dir files r w = (Ok r', w') ->
  total_files r' = processed_files r' + Z.of_nat (length (failed_files r'))
  /\ tally_sum (extension_map r') = processed_files r'.
Proof.
  revert r w; induction files as [|f files IH]; intros r w Ht Hs; simpl.
  - intros [= <- <-]. auto.
  - destruct (bool_decide _); [| apply IH; assumption].
    unfold bind at 1. unfold log, emit. unfold bind at 1.
    destruct (process_file env f input_dir output_dir _) as [[ok|e] w1];
      [| discriminate].
    apply IH; destruct ok; simpl; rewrite ?tally_sum_increment,
      ?length_app; simpl; lia.
Qed.

(** A run that returns has completed its walk, and returns the report
    of the walk. *)
Lemma process_directory_inv env input_dir output_dir files w r w' :
  process_directory env input_dir output_dir files w = (Ok r, w') ->
  exists w1, walk env input_dir output_dir files empty_report w = (Ok r, w1).
Proof.
  unfold process_directory. intros H.
  apply bind_Ok_inv in H as (r1 & w1 & Hw & H).
  do 4 apply bind_Ok_inv in H as (? & ? & _ & H).
  injection H as <- _. now exists w1.
Qed.

(** C10. At the end of every run of the directory walk that reaches its
    report, the report is consistent: the total count is the processed
    count plus the length of the failed list, the number printed as Failed
    is the length of the failed list, and the per-extension counts sum to
    the processed count. *)
Theorem C10_report_is_consistent env input_dir output_dir files w r w' :
  process_directory env input_dir output_dir files w = (Ok r, w') ->
  total_files r = processed_files r + Z.of_nat (length (failed_files r))
  /\ reported_failed r = Z.of_nat (length (failed_files r))
  /\ tally_sum (extension_map r) = processed_files r.
Proof.
  intros H. apply process_directory_inv in H as [w1 E].
  destruct (walk_consistent env input_dir output_dir files empty_report
              w r w1 eq_refl tally_sum_empty E) as [Ht Hs].
  unfold reported_failed. repeat split; [assumption | lia | assumption].
Qed.

Lemma C10_witness_photo :
  let r := mkReport 1 1 [] (increment ".heic" ∅) in
  total_files r = processed_files r + Z.of_nat (length (failed_files r))
  /\ reported_failed r = Z.of_nat (length (failed_files r))
  /\ tally_sum (extension_map r) = processed_files r.
Proof.
  eapply (C10_report_is_consistent Examples.photo_env Examples.input_dir
            Examples.output_dir
            [Examples.photo_heic; Examples.rel ["in"; "notes.txt"]] []).
  vm_compute. reflexivity.
Defined.

(** The end-to-end example of the specification: [photo.heic] with its
    sidecar gives [photo.jpg], tagged with the date and with N and W; the
    report has one [.heic] file and no failure. *)
Example end_to_end_photo :
  process_directory Examples.photo_env Examples.input_dir Examples.output_dir
    [Examples.photo_heic; Examples.photo_heic_json] []
  = (Ok (mkReport 1 1 [] (increment ".heic" ∅)),
     [Log INFO "Processing file: {file_path}" ["in/photo.heic"];
      Mkdir (Examples.rel ["output"]);
      Log INFO "Converting HEIC: {heic_file} -> {jpg_file}"
        ["in/photo.heic"; "output/photo.jpg"];
      Spawn [Lit "magick"; Lit "convert"; Lit "in/photo.heic";
             Lit "-auto-orient"; Lit "output/photo.jpg"];
      Log INFO "Updating metadata on: {target_file}" ["output/photo.jpg"];
      Spawn [Lit "exiftool"; Lit "-overwrite_original";
             Lit "-DateTimeOriginal=2020:09:13 12:26:40";
             Lit "-CreateDate=2020:09:13 12:26:40";
             Lit "-ModifyDate=2020:09:13 12:26:40";
             Fmt "-GPSLatitude=" (VFloat (FFin (37 # 1)));
             Fmt "-GPSLongitude=" (VFloat (FFin (-122 # 1)));
             Lit "-GPSLatitudeRef=N"; Lit "-GPSLongitudeRef=W";
             Lit "output/photo.jpg"];
      Log INFO "Metadata updated for {target_file}" ["output/photo.jpg"];
      Log INFO "\n{report_text}" [];
      WriteReport (Examples.rel ["output"; "report.txt"]);
      Log INFO "Report written to: {report_path.resolve()}"
        ["output/report.txt"]]).
Proof. vm_compute. reflexivity. Qed.

End Walker.

(** * Further properties *)

(** * Further properties of merged_script.py *)

(** ** Failures of one file: recorded, or fatal *)

Section FileFailures.
Import PyStr Pathlib Py Run Script Traces Observations.

(** [relative_to] raises nothing but [ValueError]. *)
Lemma relative_to_raises p other e :
  relative_to p other = Raise e -> e = ValueError.
Proof.
  unfold relative_to. destruct (String.eqb _ _); [| congruence].
  destruct (strip_prefix _ _); congruence.
Qed.

(** The walk over a supported file, by what [process_file] returns. *)
Lemma walk_records env input_dir output_dir file_path rest r w ok w1 :
  supported file_path = true ->
  process_file env file_path input_dir output_dir
    (w ++ [Log INFO "Processing file: {file_path}" [str file_path]])
  = (Ok ok, w1) ->
  walk env input_dir output_dir (file_path :: rest) r w
  = walk env input_dir output_dir rest
      (if ok then record_success file_path r else record_failure file_path r)
      w1.
Proof.
  intros Hs Hp. apply bool_decide_eq_true in Hs.
  now rewrite (walk_step _ _ _ _ _ _ _ _ _ Hs Hp).
Qed.

(** [normalize] up to the copy or the conversion. *)
Lemma normalize_prepared env file_path input_dir output_dir w rel_path :
  relative_to file_path input_dir = Ok rel_path ->
  mkdir env w (parent (joinpath output_dir rel_path)) = None ->
  let out := joinpath output_dir rel_path in
  let w1 := w ++ [Mkdir (parent out)] in
  let ext := lower (suffix file_path) in
  normalize env file_path input_dir output_dir w
  = if String.eqb ext ".heic" then
      bind (lift (with_suffix out ".jpg"))
        (fun jpg =>
           bind (convert_heic_to_jpg env file_path jpg)
             (fun converted =>
                if negb converted then ret None
                else ret (Some (jpg, true)))) w1
    else if bool_decide (ext ∈ ({[ ".mov"; ".avi" ]} : gset string)) then
      bind (lift (with_suffix out ".mp4"))
        (fun mp4 =>
           bind (convert_video_to_mp4 env file_path mp4)
             (fun converted =>
                if negb converted then ret None
                else ret (Some (mp4, true)))) w1
    else
      match copy2 env w1 file_path out with
      | None => (Ok (Some (out, false)), w1 ++ [Copy2 file_path out])
      | Some _ =>
          (Ok None,
           w1 ++ [Copy2 file_path out;
                  Log ERROR "Error copying {file_path} to {output_file}: {e}"
                    [str file_path; str out]])
      end.
Proof.
  intros Hrel Hmk out w1 ext.
  unfold normalize. unfold bind at 1. unfold try_except, bind, lift, ret.
  rewrite Hrel. rewrite Hmk. fold out. fold w1. fold ext.
  destruct (String.eqb ext ".heic"); [reflexivity |].
  destruct (bool_decide _); [reflexivity |].
  unfold try_except_Exception, log, emit.
  destruct (copy2 env w1 file_path out); simpl; [| reflexivity].
  now rewrite <- app_assoc.
Qed.

(** X1. A supported file whose path is not below the input directory is a
    failure of that file alone: [process_file] logs the error and returns
    [False] before any directory is made or file copied, and the walk adds
    the path to the failed list and goes on. *)
Theorem X1_path_outside_root_is_recorded_failure
    env input_dir output_dir file_path rest r w e :
  supported file_path = true ->
  relative_to file_path input_dir = Raise e ->
  let w1 :=
    w ++ [Log INFO "Processing file: {file_path}" [str file_path];
          Log ERROR "Error computing relative path for {file_path}: {e}"
            [str file_path]] in
  process_file env file_path input_dir output_dir
    (w ++ [Log INFO "Processing file: {file_path}" [str file_path]])
  = (Ok false, w1)
  /\ walk env input_dir output_dir (file_path :: rest) r w
     = walk env input_dir output_dir rest (record_failure file_path r) w1.
Proof.
  intros Hs Hrel w1.
  assert (Hp : process_file env file_path input_dir output_dir
                 (w ++ [Log INFO "Processing file: {file_path}"
                          [str file_path]])
               = (Ok false, w1)).
  { apply failed_conversion_skips_metadata.
    unfold normalize. unfold bind at 1. unfold try_except, bind, lift.
    rewrite Hrel. rewrite (relative_to_raises _ _ _ Hrel). simpl.
    unfold log, emit, ret. subst w1. now rewrite <- app_assoc. }
  split; [exact Hp |]. now rewrite (walk_records _ _ _ _ _ _ _ _ _ Hs Hp).
Qed.

Lemma X1_witness_elsewhere :
  process_file FailingExamples.plain_env (Examples.rel ["elsewhere"; "x.jpg"])
    Examples.input_dir Examples.output_dir
    ([] ++ [Log INFO "Processing file: {file_path}" ["elsewhere/x.jpg"]])
  = (Ok false,
     [Log INFO "Processing file: {file_path}" ["elsewhere/x.jpg"];
      Log ERROR "Error computing relative path for {file_path}: {e}"
        ["elsewhere/x.jpg"]]).
Proof.
  refine (proj1 (X1_path_outside_root_is_recorded_failure
                   FailingExamples.plain_env Examples.input_dir
                   Examples.output_dir (Examples.rel ["elsewhere"; "x.jpg"])
                   [] empty_report [] ValueError _ _)); reflexivity.
Defined.

(** X2. A copy that fails, with whatever exception, is a failure of that
    file alone: the error is logged, [process_file] returns [False] without
    looking for a sidecar or running a tool, and the walk adds the path to
    the failed list and goes on. *)
Theorem X2_copy_failure_is_recorded_failure
    env input_dir output_dir file_path rest r w rel_path e :
  supported file_path = true ->
  String.eqb (lower (suffix file_path)) ".heic" = false ->
  bool_decide (lower (suffix file_path) ∈ ({[ ".mov"; ".avi" ]} : gset string))
  = false ->
  relative_to file_path input_dir = Ok rel_path ->
  let out := joinpath output_dir rel_path in
  let w0 := w ++ [Log INFO "Processing file: {file_path}" [str file_path]] in
  mkdir env w0 (parent out) = None ->
  copy2 env (w0 ++ [Mkdir (parent out)]) file_path out = Some e ->
  let w1 :=
    w0 ++ [Mkdir (parent out); Copy2 file_path out;
           Log ERROR "Error copying {file_path} to {output_file}: {e}"
             [str file_path; str out]] in
  process_file env file_path input_dir output_dir w0 = (Ok false, w1)
  /\ walk env input_dir output_dir (file_path :: rest) r w
     = walk env input_dir output_dir rest (record_failure file_path r) w1.
Proof.
  intros Hs Hh Hv Hrel out w0 Hmk Hcp w1.
  assert (Hp : process_file env file_path input_dir output_dir w0
               = (Ok false, w1)).
  { apply failed_conversion_skips_metadata.
    rewrite (normalize_prepared _ _ _ _ _ _ Hrel Hmk).
    rewrite Hh, Hv. fold out. rewrite Hcp. subst w1.
    now rewrite <- app_assoc. }
  split; [exact Hp |]. now rewrite (walk_records _ _ _ _ _ _ _ _ _ Hs Hp).
Qed.

Lemma X2_witness_disk_full :
  process_file FailingExamples.disk_full_env Examples.name_jpg
    Examples.input_dir Examples.output_dir
    ([] ++ [Log INFO "Processing file: {file_path}" ["in/name.jpg"]])
  = (Ok false,
     [Log INFO "Processing file: {file_path}" ["in/name.jpg"];
      Mkdir (Examples.rel ["output"]);
      Copy2 Examples.name_jpg (Examples.rel ["output"; "name.jpg"]);
      Log ERROR "Error copying {file_path} to {output_file}: {e}"
        ["in/name.jpg"; "output/name.jpg"]]).
Proof.
  refine (proj1 (X2_copy_failure_is_recorded_failure
                   FailingExamples.disk_full_env Examples.input_dir
                   Examples.output_dir Examples.name_jpg [] empty_report []
                   (Examples.rel ["name.jpg"]) OSError _ _ _ _ _ _));
    reflexivity.
Defined.

(** X3. A parent directory that cannot be made is not a failure of one
    file: the exception of [mkdir] is caught nowhere, so [process_file]
    raises it and the walk and [process_directory] end with it, the files
    after this one unprocessed and no report written. *)
Theorem X3_mkdir_failure_aborts_walk
    env input_dir output_dir file_path rest w rel_path e :
  supported file_path = true ->
  relative_to file_path input_dir = Ok rel_path ->
  let out := joinpath output_dir rel_path in
  let w0 := w ++ [Log INFO "Processing file: {file_path}" [str file_path]] in
  mkdir env w0 (parent out) = Some e ->
  process_file env file_path input_dir output_dir w0
  = (Raise e, w0 ++ [Mkdir (parent out)])
  /\ process_directory env input_dir output_dir (file_path :: rest) w
     = (Raise e, w0 ++ [Mkdir (parent out)]).
Proof.
  intros Hs Hrel out w0 Hmk.
  assert (Hp : process_file env file_path input_dir output_dir w0
               = (Raise e, w0 ++ [Mkdir (parent out)])).
  { unfold process_file. unfold bind at 1.
    unfold normalize. unfold bind at 1. unfold try_except, bind, lift, ret.
    rewrite Hrel. fold out. now rewrite Hmk. }
  split; [exact Hp |].
  apply process_directory_raises. apply walk_raises; [| exact Hp].
  now apply bool_decide_eq_true in Hs.
Qed.

Lemma X3_witness_read_only :
  process_directory FailingExamples.read_only_env Examples.input_dir
    Examples.output_dir [Examples.name_jpg; Examples.photo_heic] []
  = (Raise OSError,
     [Log INFO "Processing file: {file_path}" ["in/name.jpg"];
      Mkdir (Examples.rel ["output"])]).
Proof.
  refine (proj2 (X3_mkdir_failure_aborts_walk
                   FailingExamples.read_only_env Examples.input_dir
                   Examples.output_dir Examples.name_jpg
                   [Examples.photo_heic] [] (Examples.rel ["name.jpg"])
                   OSError _ _ _)); reflexivity.
Defined.

(** X4. An image converter that exits non-zero is a failure of that file
    alone: the conversion error is logged, [process_file] returns [False]
    without looking for a sidecar or running exiftool, and the walk adds
    the path to the failed list, tallies no extension, and goes on. *)
Theorem X4_failed_image_conversion_is_recorded_failure
    env input_dir output_dir file_path rest r w rel_path jpg status :
  supported file_path = true ->
  lower (suffix file_path) = ".heic" ->
  relative_to file_path input_dir = Ok rel_path ->
  let out := joinpath output_dir rel_path in
  let w0 := w ++ [Log INFO "Processing file: {file_path}" [str file_path]] in
  mkdir env w0 (parent out) = None ->
  with_suffix out ".jpg" = Ok jpg ->
  let w1 :=
    w0 ++ [Mkdir (parent out);
           Log INFO "Converting HEIC: {heic_file} -> {jpg_file}"
             [str file_path; str jpg]] in
  spawn env w1 (magick_argv file_path jpg) = Ok status ->
  status <> 0 ->
  let w2 :=
    w1 ++ [Spawn (magick_argv file_path jpg);
           Log ERROR "HEIC conversion failed for {heic_file}: {e}"
             [str file_path]] in
  process_file env file_path input_dir output_dir w0 = (Ok false, w2)
  /\ walk env input_dir output_dir (file_path :: rest) r w
     = walk env input_dir output_dir rest (record_failure file_path r) w2.
Proof.
  intros Hs He Hrel out w0 Hmk Hjpg w1 Hsp Hne w2.
  assert (Hp : process_file env file_path input_dir output_dir w0
               = (Ok false, w2)).
  { apply failed_conversion_skips_metadata.
    rewrite (normalize_prepared _ _ _ _ _ _ Hrel Hmk).
    rewrite He. simpl String.eqb. cbv iota. fold out.
    unfold bind at 1. unfold lift. rewrite Hjpg. unfold bind at 1.
    rewrite (convert_heic_nonzero env file_path jpg _ status).
    - unfold ret. simpl. subst w2 w1. now rewrite <- !app_assoc.
    - rewrite <- app_assoc. exact Hsp.
    - assumption. }
  split; [exact Hp |]. now rewrite (walk_records _ _ _ _ _ _ _ _ _ Hs Hp).
Qed.

Lemma X4_witness_magick_fails :
  process_file FailingExamples.broken_converters_env Examples.photo_heic
    Examples.input_dir Examples.output_dir
    ([] ++ [Log INFO "Processing file: {file_path}" ["in/photo.heic"]])
  = (Ok false,
     [Log INFO "Processing file: {file_path}" ["in/photo.heic"];
      Mkdir (Examples.rel ["output"]);
      Log INFO "Converting HEIC: {heic_file} -> {jpg_file}"
        ["in/photo.heic"; "output/photo.jpg"];
      Spawn (magick_argv Examples.photo_heic
               (Examples.rel ["output"; "photo.jpg"]));
      Log ERROR "HEIC conversion failed for {heic_file}: {e}"
        ["in/photo.heic"]]).
Proof.
  refine (proj1 (X4_failed_image_conversion_is_recorded_failure
                   FailingExamples.broken_converters_env Examples.input_dir
                   Examples.output_dir Examples.photo_heic [] empty_report []
                   (Examples.rel ["photo.heic"])
                   (Examples.rel ["output"; "photo.jpg"]) 1
                   _ _ _ _ _ _ _)); try reflexivity.
  discriminate.
Defined.

(** X5. A video on a machine where ffmpeg is not on the path is a failure
    of that file alone, and no subprocess is started for it: the only
    events are the directory, and the error record; the walk adds the
    path to the failed list and goes on. *)
Theorem X5_missing_ffmpeg_is_recorded_failure
    env input_dir output_dir file_path rest r w rel_path mp4 :
  supported file_path = true ->
  lower (suffix file_path) = ".mov" \/ lower (suffix file_path) = ".avi" ->
  relative_to file_path input_dir = Ok rel_path ->
  let out := joinpath output_dir rel_path in
  let w0 := w ++ [Log INFO "Processing file: {file_path}" [str file_path]] in
  mkdir env w0 (parent out) = None ->
  with_suffix out ".mp4" = Ok mp4 ->
  which env (w0 ++ [Mkdir (parent out)]) "ffmpeg" = false ->
  let w1 :=
    w0 ++ [Mkdir (parent out);
           Log ERROR
             "ffmpeg not found in PATH. Please install ffmpeg and add it to your PATH."
             []] in
  process_file env file_path input_dir output_dir w0 = (Ok false, w1)
  /\ walk env input_dir output_dir (file_path :: rest) r w
     = walk env input_dir output_dir rest (record_failure file_path r) w1.
Proof.
  intros Hs He Hrel out w0 Hmk Hmp4 Hwh w1.
  assert (Hp : process_file env file_path input_dir output_dir w0
               = (Ok false, w1)).
  { apply failed_conversion_skips_metadata.
    rewrite (normalize_prepared _ _ _ _ _ _ Hrel Hmk).
    replace (String.eqb (lower (suffix file_path)) ".heic") with false
      by (destruct He as [-> | ->]; reflexivity).
    rewrite bool_decide_eq_true_2
      by (destruct He as [-> | ->]; set_solver).
    fold out. unfold bind at 1. unfold lift. rewrite Hmp4. unfold bind at 1.
    rewrite (convert_video_fails_fast env file_path mp4 _ Hwh).
    unfold ret. simpl. subst w1. now rewrite <- app_assoc. }
  split; [exact Hp |].
  now rewrite (walk_records _ _ _ _ _ _ _ _ _ Hs Hp).
Qed.

Lemma X5_witness_no_ffmpeg :
  process_file FailingExamples.broken_converters_env
    FailingExamples.clip_mov Examples.input_dir Examples.output_dir
    ([] ++ [Log INFO "Processing file: {file_path}" ["in/clip.mov"]])
  = (Ok false,
     [Log INFO "Processing file: {file_path}" ["in/clip.mov"];
      Mkdir (Examples.rel ["output"]);
      Log ERROR
        "ffmpeg not found in PATH. Please install ffmpeg and add it to your PATH."
        []]).
Proof.
  refine (proj1 (X5_missing_ffmpeg_is_recorded_failure
                   FailingExamples.broken_converters_env Examples.input_dir
                   Examples.output_dir FailingExamples.clip_mov []
                   empty_report [] (Examples.rel ["clip.mov"])
                   (Examples.rel ["output"; "clip.mp4"])
                   _ _ _ _ _ _)); try reflexivity.
  left; reflexivity.
Defined.

End FileFailures.

(** ** The three contracts of the metadata step *)

Section ApplierContracts.
Import PyStr Pathlib Py Run Script Words Traces Observations.

(** Neither candidate exists: there is no sidecar. *)
Lemma find_corresponding_json_none env w media_file :
  name media_file <> EmptyString ->
  contains "/" (name media_file) = false ->
  path_exists env w (sibling media_file (name media_file +:+ ".json"))
  = Ok false ->
  path_exists env w (sibling media_file (stem media_file +:+ ".json"))
  = Ok false ->
  find_corresponding_json env media_file w = (Ok None, w).
Proof.
  intros Hn Hsl H1 H2.
  rewrite (find_corresponding_json_checks env w media_file Hn Hsl).
  now rewrite H1, H2.
Qed.

Lemma supported_has_name file_path :
  supported file_path = true -> name file_path <> EmptyString.
Proof.
  unfold supported, suffix. intros H E. rewrite E in H. vm_compute in H.
  discriminate.
Qed.

(** X6. A supported file that needs no conversion and has neither sidecar
    is copied and nothing more: no subprocess is started, the absence of a
    sidecar is logged for information, [process_file] returns [True], and
    the walk counts the file as processed under its lower-cased
    extension. *)
Theorem X6_plain_copy_without_sidecar_runs_no_tool
    env input_dir output_dir file_path rest r w rel_path :
  supported file_path = true ->
  contains "/" (name file_path) = false ->
  String.eqb (lower (suffix file_path)) ".heic" = false ->
  bool_decide (lower (suffix file_path) ∈ ({[ ".mov"; ".avi" ]} : gset string))
  = false ->
  relative_to file_path input_dir = Ok rel_path ->
  let out := joinpath output_dir rel_path in
  let w0 := w ++ [Log INFO "Processing file: {file_path}" [str file_path]] in
  mkdir env w0 (parent out) = None ->
  copy2 env (w0 ++ [Mkdir (parent out)]) file_path out = None ->
  let w1 := w0 ++ [Mkdir (parent out); Copy2 file_path out] in
  path_exists env w1 (sibling file_path (name file_path +:+ ".json"))
  = Ok false ->
  path_exists env w1 (sibling file_path (stem file_path +:+ ".json"))
  = Ok false ->
  let w2 :=
    w1 ++ [Log INFO
             "No JSON sidecar found for {file_path}. Preserving original metadata."
             [str file_path]] in
  process_file env file_path input_dir output_dir w0 = (Ok true, w2)
  /\ walk env input_dir output_dir (file_path :: rest) r w
     = walk env input_dir output_dir rest (record_success file_path r) w2.
Proof.
  intros Hs Hsl Hh Hv Hrel out w0 Hmk Hcp w1 He1 He2 w2.
  assert (Hn : normalize env file_path input_dir output_dir w0
               = (Ok (Some (out, false)), w1)).
  { rewrite (normalize_prepared _ _ _ _ _ _ Hrel Hmk).
    rewrite Hh, Hv. fold out. rewrite Hcp. subst w1.
    now rewrite <- app_assoc. }
  assert (Hp : process_file env file_path input_dir output_dir w0
               = (Ok true, w2)).
  { rewrite (process_file_normalized _ _ _ _ _ _ _ Hn).
    unfold apply_metadata. unfold bind at 1.
    rewrite (find_corresponding_json_none env w1 file_path
               (supported_has_name _ Hs) Hsl He1 He2).
    reflexivity. }
  split; [exact Hp |]. now rewrite (walk_records _ _ _ _ _ _ _ _ _ Hs Hp).
Qed.

Lemma X6_witness_name_jpg :
  process_file FailingExamples.plain_env Examples.name_jpg
    Examples.input_dir Examples.output_dir
    ([] ++ [Log INFO "Processing file: {file_path}" ["in/name.jpg"]])
  = (Ok true,
     [Log INFO "Processing file: {file_path}" ["in/name.jpg"];
      Mkdir (Examples.rel ["output"]);
      Copy2 Examples.name_jpg (Examples.rel ["output"; "name.jpg"]);
      Log INFO
        "No JSON sidecar found for {file_path}. Preserving original metadata."
        ["in/name.jpg"]]).
Proof.
  refine (proj1 (X6_plain_copy_without_sidecar_runs_no_tool
                   FailingExamples.plain_env Examples.input_dir
                   Examples.output_dir Examples.name_jpg [] empty_report []
                   (Examples.rel ["name.jpg"]) _ _ _ _ _ _ _ _ _));
    reflexivity.
Defined.

Lemma quiet_ret {A} (P : A -> Prop) (a : A) w : P a -> quiet P (ret a) w.
Proof. now split. Qed.

Lemma quiet_lift {A} (r : result A) w : quiet (fun _ => True) (lift r) w.
Proof. split; [reflexivity |]. simpl. now destruct r. Qed.

Lemma quiet_bind {A B} (P : B -> Prop) (m : M A) (k : A -> M B) w :
  quiet (fun _ => True) m w ->
  (forall a, quiet P (k a) w) ->
  quiet P (bind m k) w.
Proof.
  unfold quiet, bind. destruct (m w) as [[a|e] w1]; simpl; intros [-> _] H.
  - apply H.
  - now split.
Qed.

Ltac quiet_steps :=
  repeat first
    [ apply quiet_lift
    | apply quiet_ret; first [exact I | simpl; lia | discriminate]
    | apply quiet_bind; [| intros ?]
    | match goal with
      | |- context [if ?b then _ else _] => destruct b
      end ].

(** The GPS and description blocks log nothing; the timestamp block logs
    at most its warning, and then adds nothing. *)
Lemma gps_args_quiet metadata w :
  quiet (fun args => (length args <= 4)%nat) (gps_args metadata) w.
Proof. unfold gps_args, geo_data. quiet_steps. Qed.

Lemma description_args_quiet metadata w :
  quiet (fun args => (length args <= 1)%nat) (description_args metadata) w.
Proof. unfold description_args. quiet_steps. Qed.

Lemma photo_timestamp_quiet metadata w :
  quiet (fun _ => True) (photo_timestamp metadata) w.
Proof. unfold photo_timestamp. quiet_steps. Qed.

Lemma quiet_run {A} (P : A -> Prop) (m : M A) w res w' :
  quiet P m w -> m w = (res, w') ->
  w' = w /\ match res with
            | Ok a => P a
            | Raise _ => True
            end.
Proof. unfold quiet. intros Q E. rewrite E in Q. simpl in Q. tauto. Qed.

Lemma timestamp_args_world target_file metadata w res w' :
  timestamp_args target_file metadata w = (res, w') ->
  match res with
  | Ok args =>
      (w' = w /\ (length args <= 3)%nat)
      \/ (w' = w ++ [timestamp_warning target_file] /\ args = [])
  | Raise _ => w' = w
  end.
Proof.
  unfold timestamp_args. unfold bind at 1.
  destruct (photo_timestamp metadata w) as [rts w1] eqn:Ets.
  destruct (quiet_run _ _ _ _ _ (photo_timestamp_quiet metadata w) Ets)
    as [-> _].
  destruct rts as [ts|e].
  2:{ now intros [= <- <-]. }
  destruct (truthy ts).
  2:{ intros [= <- <-]. left. split; [reflexivity | simpl; lia]. }
  unfold try_except, bind, lift, ret, log, emit, timestamp_warning.
  destruct (int ts) as [epoch|e]; simpl.
  - destruct (Datetime.utcfromtimestamp epoch) as [dt|e]; simpl.
    + intros [= <- <-]. left. split; [reflexivity | simpl; lia].
    + destruct (isinstance e ValueError); intros [= <- <-]; auto.
  - destruct (isinstance e ValueError); intros [= <- <-]; auto.
Qed.

(** No field argument is the option of [copy_metadata] that clones
    tags. *)
Lemma timestamp_args_head target_file metadata w args w' :
  timestamp_args target_file metadata w = (Ok args, w') ->
  hd_error args <> Some (Lit "-TagsFromFile").
Proof.
  unfold timestamp_args. unfold bind at 1.
  destruct (photo_timestamp metadata w) as [[ts|e] w1]; [| discriminate].
  destruct (truthy ts); [| intros [= <- <-]; discriminate].
  unfold try_except, bind, lift, ret, log, emit.
  destruct (int ts) as [epoch|e]; simpl.
  - destruct (Datetime.utcfromtimestamp epoch) as [dt|e]; simpl.
    + intros [= <- <-]. simpl. intros [= H].
    + destruct (isinstance e ValueError); intros [= <- <-]; discriminate.
  - destruct (isinstance e ValueError); intros [= <- <-]; discriminate.
Qed.

Lemma gps_args_head metadata w :
  quiet (fun args => hd_error args <> Some (Lit "-TagsFromFile"))
    (gps_args metadata) w.
Proof. unfold gps_args, geo_data. quiet_steps. Qed.

Lemma description_args_head metadata w :
  quiet (fun args => hd_error args <> Some (Lit "-TagsFromFile"))
    (description_args metadata) w.
Proof. unfold description_args. quiet_steps. Qed.

Lemma hd_error_app_head {A} (l l' : list A) (a : A) :
  hd_error l <> Some a -> hd_error l' <> Some a ->
  hd_error (l ++ l') <> Some a.
Proof. now destruct l. Qed.

(** The command line of the sidecar-apply contract is not that of the
    tag-clone contract. *)
Lemma not_copy_metadata_argv fields target_file src_file dst_file :
  hd_error fields <> Some (Lit "-TagsFromFile") ->
  [Lit "exiftool"; Lit "-overwrite_original"]
    ++ fields ++ [Lit (str target_file)]
  <> copy_metadata_argv src_file dst_file.
Proof.
  intros Hh. unfold copy_metadata_argv. simpl.
  destruct fields as [|f fields]; simpl; [discriminate |].
  intros [= -> _]. now apply Hh.
Qed.

(** The trace of [update_metadata_with_exiftool]. *)
Lemma update_metadata_trace env target_file metadata w res w' :
  update_metadata_with_exiftool env target_file metadata w = (res, w') ->
  match res with
  | Ok _ =>
      exists pre fields outcome,
        w' = pre ++ [Log INFO "Updating metadata on: {target_file}"
                       [str target_file];
                     Spawn ([Lit "exiftool"; Lit "-overwrite_original"]
                              ++ fields ++ [Lit (str target_file)]);
                     outcome]
        /\ (pre = w \/ pre = w ++ [timestamp_warning target_file])
        /\ (length fields <= 8)%nat
        /\ is_spawn outcome = false
        /\ hd_error fields <> Some (Lit "-TagsFromFile")
  | Raise _ => w' = w \/ w' = w ++ [timestamp_warning target_file]
  end.
Proof.
  intros H.
  destruct (timestamp_args target_file metadata w) as [rd w1] eqn:Ed.
  pose proof (timestamp_args_world _ _ _ _ _ Ed) as Hd.
  destruct rd as [dates|e].
  2:{ subst w1. unfold update_metadata_with_exiftool in H.
      unfold bind at 1 in H. rewrite Ed in H. injection H as <- <-. now left. }
  destruct (gps_args metadata w1) as [rg w2] eqn:Eg.
  destruct (quiet_run _ _ _ _ _ (gps_args_quiet metadata w1) Eg) as [-> Hg].
  destruct rg as [gps|e].
  2:{ unfold update_metadata_with_exiftool in H.
      unfold bind at 1 in H. rewrite Ed in H.
      unfold bind at 1 in H. rewrite Eg in H. injection H as <- <-.
      destruct Hd as [[-> _] | [-> _]]; auto. }
  destruct (description_args metadata w1) as [rx w3] eqn:Ex.
  destruct (quiet_run _ _ _ _ _ (description_args_quiet metadata w1) Ex)
    as [-> Hx].
  destruct rx as [descr|e].
  2:{ unfold update_metadata_with_exiftool in H.
      unfold bind at 1 in H. rewrite Ed in H.
      unfold bind at 1 in H. rewrite Eg in H.
      unfold bind at 1 in H. rewrite Ex in H. injection H as <- <-.
      destruct Hd as [[-> _] | [-> _]]; auto. }
  rewrite (update_metadata_run env _ _ _ _ _ _ _ _ _ Ed Eg Ex) in H.
  injection H as <- <-.
  exists w1, (dates ++ gps ++ descr),
    (exiftool_outcome target_file
       (spawn env
          (w1 ++ [Log INFO "Updating metadata on: {target_file}"
                    [str target_file]])
          ([Lit "exiftool"; Lit "-overwrite_original"]
             ++ dates ++ gps ++ descr ++ [Lit (str target_file)]))).
  split; [| split; [| split; [| split]]].
  - rewrite <- app_assoc. simpl. now rewrite <- !app_assoc.
  - destruct Hd as [[-> _] | [-> _]]; auto.
  - rewrite !length_app.
    destruct Hd as [[_ Hd] | [_ ->]]; simpl in *; lia.
  - unfold exiftool_outcome.
    destruct (spawn env _ _) as [status|]; [destruct (status =? 0) |];
      reflexivity.
  - apply hd_error_app_head; [| apply hd_error_app_head].
    + exact (timestamp_args_head _ _ _ _ _ Ed).
    + exact (proj2 (quiet_run _ _ _ _ _ (gps_args_head metadata w1) Eg)).
    + exact (proj2 (quiet_run _ _ _ _ _
                      (description_args_head metadata w1) Ex)).
Qed.

(** X8. [update_metadata_with_exiftool] runs exiftool once or not at all.
    Where it returns, it has started exactly one subprocess, after at most
    the timestamp warning and the information record: [exiftool
    -overwrite_original], at most eight field arguments, and the target
    path last; the event after it is a log record. Where it raises, no
    subprocess has been started: a malformed field never leads to a
    partial write. *)
Theorem X8_exiftool_runs_once_or_not_at_all env target_file metadata w res w' :
  update_metadata_with_exiftool env target_file metadata w = (res, w') ->
  match res with
  | Ok _ =>
      exists pre fields outcome,
        w' = pre ++ [Log INFO "Updating metadata on: {target_file}"
                       [str target_file];
                     Spawn ([Lit "exiftool"; Lit "-overwrite_original"]
                              ++ fields ++ [Lit (str target_file)]);
                     outcome]
        /\ (pre = w \/ pre = w ++ [timestamp_warning target_file])
        /\ (length fields <= 8)%nat
        /\ is_spawn outcome = false
  | Raise _ => w' = w \/ w' = w ++ [timestamp_warning target_file]
  end.
Proof.
  intros H. pose proof (update_metadata_trace _ _ _ _ _ _ H) as T.
  destruct res as [u|e]; [| exact T].
  destruct T as (pre & fields & outcome & Hw & Hpre & Hlen & Hout & _).
  now exists pre, fields, outcome.
Qed.

Lemma X8_witness_photo :
  let target_file := Examples.rel ["output"; "photo.jpg"] in
  exists pre fields outcome,
    snd (update_metadata_with_exiftool Examples.photo_env target_file
           Examples.photo_metadata [])
    = pre ++ [Log INFO "Updating metadata on: {target_file}"
                [str target_file];
              Spawn ([Lit "exiftool"; Lit "-overwrite_original"]
                       ++ fields ++ [Lit (str target_file)]);
              outcome]
    /\ (pre = [] \/ pre = [] ++ [timestamp_warning target_file])
    /\ (length fields <= 8)%nat
    /\ is_spawn outcome = false.
Proof.
  exact (X8_exiftool_runs_once_or_not_at_all Examples.photo_env
           (Examples.rel ["output"; "photo.jpg"]) Examples.photo_metadata []
           (Ok tt) _ eq_refl).
Defined.

(** What [with_sidecar] applies: the value that the sidecar parses to, the
    first element of an array, or the empty object, after a warning, where
    it does not parse. *)
Lemma with_sidecar_loaded env sidecar output_file w :
  with_sidecar env sidecar output_file w
  = update_metadata_with_exiftool env output_file
      (fst (loaded_metadata env sidecar w))
      (snd (loaded_metadata env sidecar w)).
Proof.
  unfold with_sidecar, loaded_metadata. unfold bind at 1.
  unfold try_except_Exception, bind, log, emit, ret.
  destruct (json_load env w sidecar) as [v|e]; [| reflexivity].
  destruct v as [| | | | | [|first l] |]; reflexivity.
Qed.



(** X9. In the sidecar-apply contract, an exiftool that cannot be started
    (not installed, not executable) is not fatal: whatever exception
    [subprocess.run] raises is caught and logged as an error, and the
    function returns, so that [process_file] goes on to return [True]. *)
Theorem X9_unstartable_exiftool_is_logged_on_sidecar_apply
    env target_file metadata w dates w1 gps w2 descr w3 e :
  timestamp_args target_file metadata w = (Ok dates, w1) ->
  gps_args metadata w1 = (Ok gps, w2) ->
  description_args metadata w2 = (Ok descr, w3) ->
  let argv :=
    [Lit "exiftool"; Lit "-overwrite_original"]
      ++ dates ++ gps ++ descr ++ [Lit (str target_file)] in
  let w4 :=
    w3 ++ [Log INFO "Updating metadata on: {target_file}"
             [str target_file]] in
  spawn env w4 argv = Raise e ->
  update_metadata_with_exiftool env target_file metadata w
  = (Ok tt,
     w4 ++ [Spawn argv;
            Log ERROR "Failed to run ExifTool for {target_file}: {e}"
              [str target_file]]).
Proof.
  intros Ht Hg Hd argv w4 Hs.
  rewrite (update_metadata_run env _ _ _ _ _ _ _ _ _ Ht Hg Hd).
  fold argv. fold w4. now rewrite Hs.
Qed.

Lemma X9_witness_no_exiftool :
  update_metadata_with_exiftool FailingExamples.no_exiftool_env
    (Examples.rel ["output"; "photo.jpg"]) Examples.photo_metadata []
  = (Ok tt,
     [Log INFO "Updating metadata on: {target_file}" ["output/photo.jpg"];
      Spawn [Lit "exiftool"; Lit "-overwrite_original";
             Lit "-DateTimeOriginal=2020:09:13 12:26:40";
             Lit "-CreateDate=2020:09:13 12:26:40";
             Lit "-ModifyDate=2020:09:13 12:26:40";
             Fmt "-GPSLatitude=" (VFloat (FFin (37 # 1)));
             Fmt "-GPSLongitude=" (VFloat (FFin (-122 # 1)));
             Lit "-GPSLatitudeRef=N"; Lit "-GPSLongitudeRef=W";
             Lit "output/photo.jpg"];
      Log ERROR "Failed to run ExifTool for {target_file}: {e}"
        ["output/photo.jpg"]]).
Proof.
  exact (X9_unstartable_exiftool_is_logged_on_sidecar_apply
           FailingExamples.no_exiftool_env
           (Examples.rel ["output"; "photo.jpg"]) Examples.photo_metadata
           [] _ [] _ [] _ [] FileNotFoundError
           eq_refl eq_refl eq_refl eq_refl).
Defined.

(** X10. In the tag-clone contract the same failure is fatal: starting
    exiftool raises an exception that is not a [CalledProcessError],
    [copy_metadata] does not catch it, and it leaves [process_file] and
    [process_directory]; the converted file stays in the output tree, the
    files after it are not processed, and no report is written. *)
Theorem X10_unstartable_exiftool_aborts_walk_on_tag_clone
    env input_dir output_dir file_path rest w output_file w1 e :
  supported file_path = true ->
  contains "/" (name file_path) = false ->
  let w0 := w ++ [Log INFO "Processing file: {file_path}" [str file_path]] in
  normalize env file_path input_dir output_dir w0
  = (Ok (Some (output_file, true)), w1) ->
  path_exists env w1 (sibling file_path (name file_path +:+ ".json"))
  = Ok false ->
  path_exists env w1 (sibling file_path (stem file_path +:+ ".json"))
  = Ok false ->
  let w2 :=
    w1 ++ [Log INFO "Copying metadata from {src_file} to {dst_file}"
             [str file_path; str output_file]] in
  spawn env w2 (copy_metadata_argv file_path output_file) = Raise e ->
  isinstance e CalledProcessError = false ->
  let w3 := w2 ++ [Spawn (copy_metadata_argv file_path output_file)] in
  process_file env file_path input_dir output_dir w0 = (Raise e, w3)
  /\ process_directory env input_dir output_dir (file_path :: rest) w
     = (Raise e, w3).
Proof.
  intros Hs Hsl w0 Hn He1 He2 w2 Hsp Hi w3.
  assert (Hp : process_file env file_path input_dir output_dir w0
               = (Raise e, w3)).
  { rewrite (process_file_normalized _ _ _ _ _ _ _ Hn).
    unfold apply_metadata. unfold bind at 1.
    rewrite (find_corresponding_json_none env w1 file_path
               (supported_has_name _ Hs) Hsl He1 He2).
    unfold bind at 1. unfold without_sidecar.
    unfold bind at 1.
    unfold copy_metadata, bind, log, emit, try_except, subprocess_run,
      bind, ret, lift.
    fold (copy_metadata_argv file_path output_file). fold w2.
    rewrite Hsp, Hi. reflexivity. }
  split; [exact Hp |].
  apply process_directory_raises. apply walk_raises; [| exact Hp].
  now apply bool_decide_eq_true in Hs.
Qed.

Lemma X10_witness_no_exiftool :
  process_directory FailingExamples.no_exiftool_env Examples.input_dir
    Examples.output_dir [Examples.b_heic; Examples.photo_heic] []
  = (Raise FileNotFoundError,
     [Log INFO "Processing file: {file_path}" ["in/b.heic"];
      Mkdir (Examples.rel ["output"]);
      Log INFO "Converting HEIC: {heic_file} -> {jpg_file}"
        ["in/b.heic"; "output/b.jpg"];
      Spawn (magick_argv Examples.b_heic (Examples.rel ["output"; "b.jpg"]));
      Log INFO "Copying metadata from {src_file} to {dst_file}"
        ["in/b.heic"; "output/b.jpg"];
      Spawn (copy_metadata_argv Examples.b_heic
               (Examples.rel ["output"; "b.jpg"]))]).
Proof.
  refine (proj2 (X10_unstartable_exiftool_aborts_walk_on_tag_clone
                   FailingExamples.no_exiftool_env Examples.input_dir
                   Examples.output_dir Examples.b_heic [Examples.photo_heic]
                   [] (Examples.rel ["output"; "b.jpg"])
                   [Log INFO "Processing file: {file_path}" ["in/b.heic"];
                    Mkdir (Examples.rel ["output"]);
                    Log INFO "Converting HEIC: {heic_file} -> {jpg_file}"
                      ["in/b.heic"; "output/b.jpg"];
                    Spawn (magick_argv Examples.b_heic
                             (Examples.rel ["output"; "b.jpg"]))]
                   FileNotFoundError _ _ _ _ _ _ _)); reflexivity.
Defined.

(** X18. In the tag-clone contract a non-zero exit of exiftool is logged
    and goes no further: [copy_metadata] returns [False], [process_file]
    does not look at what it returns and returns [True], and the walk
    counts the converted file as processed, tallies its extension and
    leaves the failed list as it is. *)
Theorem X18_failed_tag_clone_is_not_recorded
    env input_dir output_dir file_path rest r w output_file w1 status :
  supported file_path = true ->
  contains "/" (name file_path) = false ->
  let w0 := w ++ [Log INFO "Processing file: {file_path}" [str file_path]] in
  normalize env file_path input_dir output_dir w0
  = (Ok (Some (output_file, true)), w1) ->
  path_exists env w1 (sibling file_path (name file_path +:+ ".json"))
  = Ok false ->
  path_exists env w1 (sibling file_path (stem file_path +:+ ".json"))
  = Ok false ->
  let w2 :=
    w1 ++ [Log INFO "Copying metadata from {src_file} to {dst_file}"
             [str file_path; str output_file]] in
  spawn env w2 (copy_metadata_argv file_path output_file) = Ok status ->
  status <> 0 ->
  let w3 :=
    w2 ++ [Spawn (copy_metadata_argv file_path output_file);
           Log ERROR "Metadata copy failed from {src_file} to {dst_file}: {e}"
             [str file_path; str output_file]] in
  copy_metadata env file_path output_file w1 = (Ok false, w3)
  /\ process_file env file_path input_dir output_dir w0 = (Ok true, w3)
  /\ walk env input_dir output_dir (file_path :: rest) r w
     = walk env input_dir output_dir rest (record_success file_path r) w3.
Proof.
  intros Hs Hsl w0 Hn He1 He2 w2 Hsp Hne w3.
  assert (Hc : copy_metadata env file_path output_file w1 = (Ok false, w3)).
  { rewrite (copy_metadata_run env _ _ _ _ Hsp).
    now rewrite (proj2 (Z.eqb_neq status 0) Hne). }
  assert (Hp : process_file env file_path input_dir output_dir w0
               = (Ok true, w3)).
  { rewrite (process_file_normalized _ _ _ _ _ _ _ Hn).
    unfold apply_metadata. unfold bind at 1.
    rewrite (find_corresponding_json_none env w1 file_path
               (supported_has_name _ Hs) Hsl He1 He2).
    unfold bind at 1. unfold without_sidecar.
    unfold bind at 1. now rewrite Hc. }
  repeat split; try assumption.
  now rewrite (walk_records _ _ _ _ _ _ _ _ _ Hs Hp).
Qed.

Lemma X18_witness_b_heic :
  process_file Examples.failing_exiftool_env Examples.b_heic
    Examples.input_dir Examples.output_dir
    ([] ++ [Log INFO "Processing file: {file_path}" ["in/b.heic"]])
  = (Ok true,
     [Log INFO "Processing file: {file_path}" ["in/b.heic"];
      Mkdir (Examples.rel ["output"]);
      Log INFO "Converting HEIC: {heic_file} -> {jpg_file}"
        ["in/b.heic"; "output/b.jpg"];
      Spawn (magick_argv Examples.b_heic (Examples.rel ["output"; "b.jpg"]));
      Log INFO "Copying metadata from {src_file} to {dst_file}"
        ["in/b.heic"; "output/b.jpg"];
      Spawn (copy_metadata_argv Examples.b_heic
               (Examples.rel ["output"; "b.jpg"]));
      Log ERROR "Metadata copy failed from {src_file} to {dst_file}: {e}"
        ["in/b.heic"; "output/b.jpg"]]).
Proof.
  refine (proj1 (proj2 (X18_failed_tag_clone_is_not_recorded
                   Examples.failing_exiftool_env Examples.input_dir
                   Examples.output_dir Examples.b_heic [] empty_report
                   [] (Examples.rel ["output"; "b.jpg"])
                   [Log INFO "Processing file: {file_path}" ["in/b.heic"];
                    Mkdir (Examples.rel ["output"]);
                    Log INFO "Converting HEIC: {heic_file} -> {jpg_file}"
                      ["in/b.heic"; "output/b.jpg"];
                    Spawn (magick_argv Examples.b_heic
                             (Examples.rel ["output"; "b.jpg"]))]
                   1 _ _ _ _ _ _ _))); try reflexivity.
  discriminate.
Defined.

(** X19. An existence check that raises is fatal. Where the check of the
    first sidecar candidate raises, or where the first candidate does not
    exist and the check of the second raises, nothing catches the
    exception: it leaves [find_corresponding_json], [process_file] and
    [process_directory] once the file has been copied or converted; no
    metadata is applied, the files after it are not processed, and no
    report is written. *)
Theorem X19_failing_existence_check_aborts_walk
    env input_dir output_dir file_path rest w output_file
    conversion_performed w1 e :
  supported file_path = true ->
  contains "/" (name file_path) = false ->
  let w0 := w ++ [Log INFO "Processing file: {file_path}" [str file_path]] in
  normalize env file_path input_dir output_dir w0
  = (Ok (Some (output_file, conversion_performed)), w1) ->
  let appended := sibling file_path (name file_path +:+ ".json") in
  let replaced := sibling file_path (stem file_path +:+ ".json") in
  path_exists env w1 appended = Raise e
  \/ path_exists env w1 appended = Ok false
     /\ path_exists env w1 replaced = Raise e ->
  find_corresponding_json env file_path w1 = (Raise e, w1)
  /\ process_file env file_path input_dir output_dir w0 = (Raise e, w1)
  /\ process_directory env input_dir output_dir (file_path :: rest) w
     = (Raise e, w1).
Proof.
  intros Hs Hsl w0 Hn appended replaced Hex.
  assert (Hf : find_corresponding_json env file_path w1 = (Raise e, w1)).
  { rewrite (find_corresponding_json_checks env w1 file_path
               (supported_has_name _ Hs) Hsl).
    fold appended replaced.
    destruct Hex as [-> | [-> ->]]; reflexivity. }
  assert (Hp : process_file env file_path input_dir output_dir w0
               = (Raise e, w1)).
  { rewrite (process_file_normalized _ _ _ _ _ _ _ Hn).
    unfold apply_metadata. unfold bind at 1. unfold bind at 1.
    now rewrite Hf. }
  repeat split; try assumption.
  apply process_directory_raises. apply walk_raises; [| exact Hp].
  now apply bool_decide_eq_true in Hs.
Qed.

Lemma X19_witness_long_name :
  process_directory FieldExamples.long_name_env Examples.input_dir
    Examples.output_dir [Examples.long_jpg; Examples.name_jpg] []
  = (Raise OSError,
     [Log INFO "Processing file: {file_path}" [str Examples.long_jpg];
      Mkdir (Examples.rel ["output"]);
      Copy2 Examples.long_jpg
        (Examples.rel ["output"; name Examples.long_jpg])]).
Proof.
  refine (proj2 (proj2 (X19_failing_existence_check_aborts_walk
                   FieldExamples.long_name_env Examples.input_dir
                   Examples.output_dir Examples.long_jpg [Examples.name_jpg]
                   [] (Examples.rel ["output"; name Examples.long_jpg])
                   false
                   [Log INFO "Processing file: {file_path}"
                      [str Examples.long_jpg];
                    Mkdir (Examples.rel ["output"]);
                    Copy2 Examples.long_jpg
                      (Examples.rel ["output"; name Examples.long_jpg])]
                   OSError _ _ _ _))).
  - vm_compute. reflexivity.
  - vm_compute. reflexivity.
  - vm_compute. reflexivity.
  - left. vm_compute. reflexivity.
Defined.

End ApplierContracts.

(** ** What the report counts *)

Section ReportCounts.
Import PyStr Pathlib Py Run Script Traces Observations.

Lemma walk_counts env input_dir output_dir files r w r' w' :
  walk env input_dir output_dir files r w = (Ok r', w') ->
  total_files r'
  = total_files r + Z.of_nat (length (List.filter supported files))
  /\ exists failed,
       failed_files r' = failed_files r ++ failed
       /\ sublist failed (map str (List.filter supported files)).
Proof.
  revert r w; induction files as [|f files IH]; intros r w; simpl.
  - intros [= <- <-]. split; [lia |]. exists []. now rewrite app_nil_r.
  - fold (supported f). destruct (supported f); [| apply IH].
    unfold bind at 1. unfold log, emit. unfold bind at 1.
    destruct (process_file env f input_dir output_dir _) as [[ok|e] w1];
      [| discriminate].
    intros H. destruct (IH _ _ H) as (Ht & failed & Hf & Hsub).
    split.
    + rewrite Ht. destruct ok; simpl; lia.
    + destruct ok; simpl in Hf.
      * exists failed. split; [assumption |]. simpl. now apply sublist_cons.
      * exists (str f :: failed). split.
        -- now rewrite Hf, <- app_assoc.
        -- simpl. now apply sublist_skip.
Qed.

(** X11. In the report of a run, the total is the number of walked files
    with a supported extension, whatever became of them, and the failed
    list holds paths of such files only, each at most once per occurrence
    and in the order of the walk. *)
Theorem X11_total_counts_supported_files env input_dir output_dir files w r w' :
  process_directory env input_dir output_dir files w = (Ok r, w') ->
  total_files r = Z.of_nat (length (List.filter supported files))
  /\ sublist (failed_files r) (map str (List.filter supported files)).
Proof.
  intros H. destruct (process_directory_inv _ _ _ _ _ _ _ H) as [w1 Hw].
  destruct (walk_counts _ _ _ _ _ _ _ _ Hw) as (Ht & failed & Hf & Hsub).
  simpl in Ht, Hf. subst failed. split; [lia | assumption].
Qed.

Lemma walk_tally env input_dir output_dir files r w r' w' :
  map_Forall (fun ext count =>
                ext ∈ SUPPORTED_MEDIA_EXTENSIONS /\ 1 <= count)
    (extension_map r) ->
  walk env input_dir output_dir files r w = (Ok r', w') ->
  map_Forall (fun ext count =>
                ext ∈ SUPPORTED_MEDIA_EXTENSIONS /\ 1 <= count)
    (extension_map r').
Proof.
  revert r w; induction files as [|f files IH]; intros r w Hr; simpl.
  - now intros [= <- <-].
  - destruct (bool_decide _) eqn:Es; [| now apply IH].
    apply bool_decide_eq_true in Es.
    unfold bind at 1. unfold log, emit. unfold bind at 1.
    destruct (process_file env f input_dir output_dir _) as [[ok|e] w1];
      [| discriminate].
    apply IH. destruct ok; simpl; [| assumption].
    unfold increment. apply map_Forall_insert_2; [| assumption].
    split; [assumption |].
    destruct (extension_map r !! lower (suffix f)) as [count|] eqn:E;
      simpl; [| lia].
    destruct (Hr _ _ E). lia.
Qed.

Lemma X11_witness_photo :
  let r := mkReport 1 1 [] (increment ".heic" ∅) in
  let files := [Examples.photo_heic; Examples.rel ["in"; "notes.txt"]] in
  total_files r = Z.of_nat (length (List.filter supported files))
  /\ sublist (failed_files r) (map str (List.filter supported files)).
Proof.
  eapply (X11_total_counts_supported_files Examples.photo_env Examples.input_dir
            Examples.output_dir
            [Examples.photo_heic; Examples.rel ["in"; "notes.txt"]] []).
  vm_compute. reflexivity.
Defined.

(** X12. In the report of a run, every extension of the per-extension
    counts is one of the supported extensions, in lower case, and its count
    is at least 1: no entry stands for an ignored or a failed-only
    extension. *)
Theorem X12_tally_holds_supported_extensions
    env input_dir output_dir files w r w' :
  process_directory env input_dir output_dir files w = (Ok r, w') ->
  map_Forall (fun ext count =>
                ext ∈ SUPPORTED_MEDIA_EXTENSIONS /\ lower ext = ext
                /\ 1 <= count)
    (extension_map r).
Proof.
  intros H. destruct (process_directory_inv _ _ _ _ _ _ _ H) as [w1 Hw].
  assert (Hr : map_Forall (fun ext count =>
                             ext ∈ SUPPORTED_MEDIA_EXTENSIONS /\ 1 <= count)
                 (extension_map r)).
  { apply (walk_tally _ _ _ _ _ _ _ _ (map_Forall_empty _) Hw). }
  intros ext count E. destruct (Hr _ _ E) as [Hs Hc].
  repeat split; try assumption.
  unfold SUPPORTED_MEDIA_EXTENSIONS in Hs.
  repeat (apply elem_of_union in Hs as [Hs | Hs]);
    apply elem_of_singleton in Hs; subst ext; reflexivity.
Qed.

Lemma X12_witness_photo :
  map_Forall (fun ext count =>
                ext ∈ SUPPORTED_MEDIA_EXTENSIONS /\ lower ext = ext
                /\ 1 <= count)
    (extension_map (mkReport 1 1 [] (increment ".heic" ∅))).
Proof.
  eapply (X12_tally_holds_supported_extensions Examples.photo_env
            Examples.input_dir Examples.output_dir
            [Examples.photo_heic; Examples.rel ["in"; "notes.txt"]] []).
  vm_compute. reflexivity.
Defined.

(** X13. After a walk that completes, the input and the output directory
    are resolved for the lines of the report, outside any handler: an
    exception of [resolve] (a loop of symbolic links, a working directory
    that is gone) ends [process_directory] with nothing more logged and no
    report written. Where both resolve, the report is logged and written to
    [report.txt] in the output directory, and the run returns the report of
    the walk whatever becomes of the writing: an exception of the write,
    or of resolving the path of the report for the log record, is caught
    and logged as an error. *)
Theorem X13_unwritable_report_is_logged env input_dir output_dir files w r w1 :
  walk env input_dir output_dir files empty_report w = (Ok r, w1) ->
  let report_path := joinpath output_dir (mkPath "" ["report.txt"]) in
  let w2 := w1 ++ [Log INFO "\n{report_text}" []] in
  let w3 := w2 ++ [WriteReport report_path] in
  process_directory env input_dir output_dir files w
  = match resolve env w1 input_dir, resolve env w1 output_dir with
    | Some e, _ => (Raise e, w1)
    | None, Some e => (Raise e, w1)
    | None, None =>
        (Ok r,
         w3 ++ [match write_text env w2 report_path,
                      resolve env w3 report_path with
                | None, None =>
                    Log INFO "Report written to: {report_path.resolve()}"
                      [str report_path]
                | _, _ => Log ERROR "Failed to write report: {e}" []
                end])
    end.
Proof.
  intros Hw report_path w2 w3.
  unfold process_directory. unfold bind at 1. rewrite Hw.
  unfold bind at 1. unfold resolved at 1.
  destruct (resolve env w1 input_dir); [reflexivity |].
  unfold bind at 1. unfold resolved at 1.
  destruct (resolve env w1 output_dir); [reflexivity |].
  unfold bind, log, emit, try_except_Exception, resolved, ret.
  fold report_path. fold w2.
  destruct (write_text env w2 report_path); simpl; [reflexivity |].
  fold w3. now destruct (resolve env w3 report_path).
Qed.

Lemma X13_witness_no_report :
  process_directory FailingExamples.no_report_env Examples.input_dir
    Examples.output_dir [Examples.name_jpg] []
  = (Ok (record_success Examples.name_jpg empty_report),
     [Log INFO "Processing file: {file_path}" ["in/name.jpg"];
      Mkdir (Examples.rel ["output"]);
      Copy2 Examples.name_jpg (Examples.rel ["output"; "name.jpg"]);
      Log INFO
        "No JSON sidecar found for {file_path}. Preserving original metadata."
        ["in/name.jpg"];
      Log INFO "\n{report_text}" [];
      WriteReport (Examples.rel ["output"; "report.txt"]);
      Log ERROR "Failed to write report: {e}" []]).
Proof.
  refine (X13_unwritable_report_is_logged FailingExamples.no_report_env
            Examples.input_dir Examples.output_dir [Examples.name_jpg] []
            (record_success Examples.name_jpg empty_report)
            [Log INFO "Processing file: {file_path}" ["in/name.jpg"];
             Mkdir (Examples.rel ["output"]);
             Copy2 Examples.name_jpg (Examples.rel ["output"; "name.jpg"]);
             Log INFO
               "No JSON sidecar found for {file_path}. Preserving original metadata."
               ["in/name.jpg"]] _).
  vm_compute. reflexivity.
Defined.

End ReportCounts.

(** ** Where the output goes *)

Section OutputTree.
Import PyStr Pathlib Py Run Script Traces Observations.

Lemma stem_of_name_append st ext :
  st <> EmptyString -> ext <> EmptyString -> contains "." ext = false ->
  stem_of_name (st +:+ String "." ext) = st.
Proof.
  intros Hst Hext Hc. unfold stem_of_name.
  rewrite rfind_append_last by assumption.
  rewrite length_append. simpl.
  assert (0 < String.length st)%nat by (destruct st; simpl; [easy | lia]).
  assert (0 < String.length ext)%nat by (destruct ext; simpl; [easy | lia]).
  replace ((0 <? String.length st)%nat) with true
    by (symmetry; apply Nat.ltb_lt; lia).
  replace ((String.length st
              <? String.length st + S (String.length ext) - 1)%nat)
    with true by (symmetry; apply Nat.ltb_lt; lia).
  simpl. apply take_length_append.
Qed.

Lemma relative_to_parts p other rel_path :
  relative_to p other = Ok rel_path ->
  anchor p = anchor other
  /\ anchor rel_path = EmptyString
  /\ parts p = parts other ++ parts rel_path.
Proof.
  unfold relative_to. destruct (String.eqb _ _) eqn:Ea; [| discriminate].
  destruct (strip_prefix _ _) as [rest|] eqn:E; [| discriminate].
  intros [= <-]. apply String.eqb_eq in Ea.
  repeat split; [assumption |]. now apply strip_prefix_Some.
Qed.

(** The output path of a file that [normalize] has converted or copied. *)
Lemma normalize_output env file_path input_dir output_dir w output_file conv w' :
  file_path <> input_dir ->
  normalize env file_path input_dir output_dir w
  = (Ok (Some (output_file, conv)), w') ->
  exists rest n,
    rest <> [] /\ anchor file_path = anchor input_dir
    /\ parts file_path = parts input_dir ++ rest
    /\ output_file
       = mkPath (anchor output_dir) (parts output_dir ++ removelast rest ++ [n])
    /\ (lower (suffix file_path) = ".heic" /\ conv = true
        /\ name file_path <> EmptyString /\ n = stem file_path +:+ ".jpg"
        \/ lower (suffix file_path) ∈ ({[ ".mov"; ".avi" ]} : gset string)
           /\ conv = true
           /\ name file_path <> EmptyString /\ n = stem file_path +:+ ".mp4"
        \/ lower (suffix file_path) <> ".heic"
           /\ ~ lower (suffix file_path) ∈ ({[ ".mov"; ".avi" ]} : gset string)
           /\ conv = false /\ n = name file_path).
Proof.
  intros Hne H.
  destruct (normalize_inv _ _ _ _ _ _ _ H) as (rel_path & Hrel & _ & Hb).
  cbv zeta in Hb.
  pose proof (name_joinpath_relative _ _ output_dir _ Hrel Hne) as Hname.
  destruct (relative_to_parts _ _ _ Hrel) as (Hanchor & Hanc & Hparts).
  assert (Hrest : parts rel_path <> []).
  { intros E. rewrite E, app_nil_r in Hparts. apply Hne.
    destruct file_path, input_dir; simpl in *; congruence. }
  assert (Hjoin : joinpath output_dir rel_path
                  = mkPath (anchor output_dir)
                      (parts output_dir ++ parts rel_path)).
  { unfold joinpath. now rewrite Hanc. }
  assert (Hlast : parts rel_path
                  = removelast (parts rel_path) ++ [name file_path]).
  { rewrite <- Hname, Hjoin. unfold name; simpl.
    rewrite last_app_nonempty by assumption.
    now apply app_removelast_last. }
  assert (Hsib : forall n,
             sibling (joinpath output_dir rel_path) n
             = mkPath (anchor output_dir)
                 (parts output_dir ++ removelast (parts rel_path) ++ [n])).
  { intros n. rewrite Hjoin. unfold sibling; simpl.
    rewrite removelast_app by assumption.
    now rewrite <- app_assoc. }
  assert (Hnon : forall ext p',
             with_suffix (joinpath output_dir rel_path) (String "." ext)
             = Ok p' -> name file_path <> EmptyString).
  { intros ext p' Hs E. rewrite <- Hname in E. unfold with_suffix in Hs.
    destruct (contains "/" (String "." ext)); [discriminate |].
    destruct (_ || _); [discriminate |].
    rewrite E in Hs. discriminate. }
  exists (parts rel_path).
  destruct (String.eqb (lower (suffix file_path)) ".heic") eqn:Eh.
  - destruct Hb as (jpg & Hs & _ & [= -> ->]).
    pose proof (Hnon _ _ Hs) as Hn.
    apply (suffix_with_suffix _ "jpg") in Hs as [_ ->]; auto;
      try discriminate.
    exists (stem file_path +:+ ".jpg"). rewrite Hsib.
    apply String.eqb_eq in Eh. unfold stem. rewrite Hname.
    do 4 (split; [trivial |]). left. now repeat split.
  - apply String.eqb_neq in Eh.
    destruct (bool_decide _) eqn:Ev.
    + destruct Hb as (mp4 & Hs & _ & [= -> ->]).
      pose proof (Hnon _ _ Hs) as Hn.
      apply (suffix_with_suffix _ "mp4") in Hs as [_ ->]; auto;
        try discriminate.
      exists (stem file_path +:+ ".mp4"). rewrite Hsib.
      apply bool_decide_eq_true in Ev.
      unfold stem. rewrite Hname.
      do 4 (split; [trivial |]). right; left. now repeat split.
    + destruct Hb as (_ & _ & [= -> ->]).
      apply bool_decide_eq_false in Ev.
      exists (name file_path). rewrite Hjoin.
      do 3 (split; [trivial |]).
      split; [now rewrite Hlast at 1 |]. right; right. now repeat split.
Qed.

(** X14. The output tree mirrors the input tree: a file strictly below the
    input directory is converted or copied to the output directory followed
    by the same sub-directories, under a name with the same stem; a copied
    file keeps its whole name. *)
Theorem X14_output_mirrors_input_tree
    env file_path input_dir output_dir w output_file conv w' :
  file_path <> input_dir ->
  normalize env file_path input_dir output_dir w
  = (Ok (Some (output_file, conv)), w') ->
  exists subdirs,
    parts file_path = parts input_dir ++ subdirs ++ [name file_path]
    /\ anchor output_file = anchor output_dir
    /\ parts output_file = parts output_dir ++ subdirs ++ [name output_file]
    /\ stem output_file = stem file_path
    /\ (conv = false -> name output_file = name file_path).
Proof.
  intros Hne H.
  destruct (normalize_output _ _ _ _ _ _ _ _ Hne H)
    as (rest & n & Hrest & _ & Hparts & -> & Hn).
  assert (Hname : name file_path = List.last rest EmptyString).
  { unfold name. now rewrite Hparts, last_app_nonempty. }
  assert (Hout : name (mkPath (anchor output_dir)
                         (parts output_dir ++ removelast rest ++ [n])) = n).
  { unfold name; simpl. now rewrite app_assoc, last_last. }
  exists (removelast rest). rewrite Hout. simpl.
  split.
  { rewrite Hparts, Hname. f_equal. now apply app_removelast_last. }
  do 2 (split; [reflexivity |]).
  unfold stem at 1. rewrite Hout.
  destruct Hn as [(_ & Hc & Hnon & ->) | [(_ & Hc & Hnon & ->)
                                          | (_ & _ & Hc & ->)]].
  - split; [| rewrite Hc; discriminate].
    apply stem_of_name_append; try reflexivity; try discriminate.
    now apply stem_nonempty.
  - split; [| rewrite Hc; discriminate].
    apply stem_of_name_append; try reflexivity; try discriminate.
    now apply stem_nonempty.
  - split; [reflexivity | auto].
Qed.

Lemma X14_witness_trip :
  exists subdirs,
    parts TreeExamples.trip_heic
    = parts Examples.input_dir ++ subdirs ++ [name TreeExamples.trip_heic]
    /\ anchor (Examples.rel ["output"; "2020"; "trip"; "IMG_1.jpg"])
       = anchor Examples.output_dir
    /\ parts (Examples.rel ["output"; "2020"; "trip"; "IMG_1.jpg"])
       = parts Examples.output_dir ++ subdirs
           ++ [name (Examples.rel ["output"; "2020"; "trip"; "IMG_1.jpg"])]
    /\ stem (Examples.rel ["output"; "2020"; "trip"; "IMG_1.jpg"])
       = stem TreeExamples.trip_heic
    /\ (true = false ->
        name (Examples.rel ["output"; "2020"; "trip"; "IMG_1.jpg"])
        = name TreeExamples.trip_heic).
Proof.
  refine (X14_output_mirrors_input_tree TreeExamples.tree_env
            TreeExamples.trip_heic Examples.input_dir Examples.output_dir
            [] (Examples.rel ["output"; "2020"; "trip"; "IMG_1.jpg"]) true
            _ _ _).
  - discriminate.
  - vm_compute. reflexivity.
Defined.

(** X15. Output names can collide. A file that is converted and a file of
    the same directory that already has the converted name (a HEIC image
    and the JPEG of the same stem, a MOV or AVI video and the MP4 of the
    same stem) are given one and the same output path, the first as a
    conversion and the second as a copy. *)
Theorem X15_converted_and_copied_share_output
    env file_path twin input_dir output_dir w1 out1 conv1 w1' w2 out2 conv2 w2' :
  file_path <> input_dir ->
  lower (suffix file_path) = ".heic"
  /\ twin = sibling file_path (stem file_path +:+ ".jpg")
  \/ lower (suffix file_path) ∈ ({[ ".mov"; ".avi" ]} : gset string)
     /\ twin = sibling file_path (stem file_path +:+ ".mp4") ->
  normalize env file_path input_dir output_dir w1
  = (Ok (Some (out1, conv1)), w1') ->
  normalize env twin input_dir output_dir w2
  = (Ok (Some (out2, conv2)), w2') ->
  out1 = out2 /\ conv1 = true /\ conv2 = false.
Proof.
  intros Hne Htwin H1 H2.
  destruct (normalize_output _ _ _ _ _ _ _ _ Hne H1)
    as (rest & n & Hrest & Hanc & Hparts & -> & Hn).
  assert (Hconv : exists ext,
             (ext = "jpg" \/ ext = "mp4")
             /\ twin = sibling file_path (stem file_path +:+ String "." ext)
             /\ n = stem file_path +:+ String "." ext
             /\ conv1 = true /\ name file_path <> EmptyString).
  { destruct Htwin as [[Hh ->] | [Hv ->]].
    - exists "jpg". destruct Hn as [(_ & -> & Hnon & ->)
                                   | [(Hv & _) | (Hh' & _)]].
      + now repeat split; auto.
      + rewrite Hh in Hv. exfalso. revert Hv. clear.
        intros Hv. apply elem_of_union in Hv as [Hv | Hv];
          apply elem_of_singleton in Hv; discriminate.
      + contradiction.
    - exists "mp4". destruct Hn as [(Hh & _)
                                   | [(_ & -> & Hnon & ->) | (_ & Hv' & _)]].
      + rewrite Hh in Hv. exfalso. revert Hv. clear.
        intros Hv. apply elem_of_union in Hv as [Hv | Hv];
          apply elem_of_singleton in Hv; discriminate.
      + now repeat split; auto.
      + contradiction. }
  destruct Hconv as (ext & Hext & -> & -> & -> & Hnon). clear Hn Htwin.
  set (n := stem file_path +:+ String "." ext) in *.
  assert (Hparts2 : parts (sibling file_path n)
                    = parts input_dir ++ removelast rest ++ [n]).
  { unfold sibling; simpl. rewrite Hparts, removelast_app by assumption.
    now rewrite <- app_assoc. }
  assert (Hne2 : sibling file_path n <> input_dir).
  { intros E. rewrite E in Hparts2.
    rewrite <- (app_nil_r (parts input_dir)) in Hparts2 at 1.
    apply app_inv_head in Hparts2.
    destruct (removelast rest); discriminate. }
  assert (Hsfx : suffix (sibling file_path n) = String "." ext).
  { unfold suffix. rewrite name_sibling. unfold n, stem.
    apply suffix_of_name_append.
    - now apply stem_nonempty.
    - destruct Hext as [-> | ->]; discriminate.
    - destruct Hext as [-> | ->]; reflexivity. }
  destruct (normalize_output _ _ _ _ _ _ _ _ Hne2 H2)
    as (rest2 & n2 & _ & _ & Hp2 & -> & Hn2).
  rewrite Hparts2 in Hp2. apply app_inv_head in Hp2. subst rest2.
  rewrite removelast_last. rewrite Hsfx in Hn2.
  destruct Hn2 as [(Hh & _) | [(Hv & _) | (_ & _ & -> & ->)]].
  - destruct Hext as [-> | ->]; discriminate.
  - exfalso. revert Hv. clear - Hext. intros Hv.
    destruct Hext as [-> | ->];
      apply elem_of_union in Hv as [Hv | Hv];
      apply elem_of_singleton in Hv; discriminate.
  - rewrite name_sibling. now repeat split.
Qed.

Lemma X15_witness_photo :
  Examples.rel ["output"; "photo.jpg"] = Examples.rel ["output"; "photo.jpg"]
  /\ true = true /\ false = false.
Proof.
  refine (X15_converted_and_copied_share_output TreeExamples.tree_env
            Examples.photo_heic TreeExamples.photo_jpg
            Examples.input_dir Examples.output_dir
            [] (Examples.rel ["output"; "photo.jpg"]) true _
            [] (Examples.rel ["output"; "photo.jpg"]) false _ _ _ _ _).
  - discriminate.
  - left. split; reflexivity.
  - vm_compute. reflexivity.
  - vm_compute. reflexivity.
Defined.

End OutputTree.

(** ** Fields of the wrong type *)

Section MalformedFields.
Import PyStr Pathlib Py Datetime Run Script Words Traces Observations.

(** X16. Coordinates that are not numbers are fatal. Where the coordinate
    bag has a latitude and a longitude, neither of them [None], and one of
    them is not a number (a string such as ["48.85"], a list, an object),
    building the GPS arguments raises [TypeError]; the exception leaves
    [update_metadata_with_exiftool] before exiftool is started, and nothing
    is logged for it. *)
Theorem X16_non_numeric_coordinate_raises
    env target_file d c latitude longitude w dates w1 :
  coordinate_bag d = VDict c ->
  lookup "latitude" c = Some latitude ->
  lookup "longitude" c = Some longitude ->
  latitude <> VNone -> longitude <> VNone ->
  ~ (is_number latitude /\ is_number longitude) ->
  timestamp_args target_file (VDict d) w = (Ok dates, w1) ->
  gps_args (VDict d) w1 = (Raise TypeError, w1)
  /\ update_metadata_with_exiftool env target_file (VDict d) w
     = (Raise TypeError, w1).
Proof.
  intros Hc Hlat Hlon Hn1 Hn2 Hnum Ht.
  assert (Hg : gps_args (VDict d) w1 = (Raise TypeError, w1)).
  { unfold gps_args. unfold bind at 1. rewrite geo_data_chosen, Hc.
    unfold bind, lift, ret. rewrite !get_dict, Hlat, Hlon. simpl default.
    destruct latitude as [| | | [| |] | | |];
      destruct longitude as [| | | [| |] | | |];
      try contradiction; try reflexivity;
      try (exfalso; apply Hnum; split; exact I);
      simpl; repeat match goal with
                    | |- context [if ?b then _ else _] => destruct b
                    end; reflexivity. }
  split; [exact Hg |].
  unfold update_metadata_with_exiftool, bind. now rewrite Ht, Hg.
Qed.

Lemma X16_witness_string_coordinates :
  gps_args
    (VDict [("geoData", VDict [("latitude", VStr "48.85");
                               ("longitude", VStr "2.35")])]) []
  = (Raise TypeError, [])
  /\ update_metadata_with_exiftool Examples.photo_env
       (Examples.rel ["output"; "photo.jpg"])
       (VDict [("geoData", VDict [("latitude", VStr "48.85");
                                  ("longitude", VStr "2.35")])]) []
     = (Raise TypeError, []).
Proof.
  refine (X16_non_numeric_coordinate_raises Examples.photo_env
            (Examples.rel ["output"; "photo.jpg"])
            [("geoData", VDict [("latitude", VStr "48.85");
                                ("longitude", VStr "2.35")])]
            [("latitude", VStr "48.85"); ("longitude", VStr "2.35")]
            (VStr "48.85") (VStr "2.35") [] [] [] _ _ _ _ _ _ _);
    try reflexivity; try discriminate.
  simpl. intros [[] _].
Defined.

(** X17. A time entry that is not an object is fatal. Where
    [photoTakenTime] is present and not an object (null, a number, a
    string), or where it gives no timestamp and [creationTime] is present
    and not an object, reading the timestamp raises [AttributeError]; the
    exception leaves [update_metadata_with_exiftool] before anything is
    logged or started. *)
Theorem X17_non_object_time_entry_raises env target_file d w :
  ~ is_object_or_absent (lookup "photoTakenTime" d)
  \/ truthy (timestamp_field d "photoTakenTime") = false
     /\ ~ is_object_or_absent (lookup "creationTime" d) ->
  timestamp_args target_file (VDict d) w = (Raise AttributeError, w)
  /\ update_metadata_with_exiftool env target_file (VDict d) w
     = (Raise AttributeError, w).
Proof.
  intros H.
  assert (Ht : timestamp_args target_file (VDict d) w
               = (Raise AttributeError, w)).
  { unfold timestamp_args, photo_timestamp, bind, lift, ret.
    rewrite get_dict.
    destruct H as [H | [Hf H]].
    - destruct (lookup "photoTakenTime" d) as [[]|]; simpl in *;
        try reflexivity; exfalso; apply H; exact I.
    - unfold timestamp_field in Hf.
      destruct (lookup "photoTakenTime" d) as [v|]; simpl.
      + destruct v as [| | | | | |t]; try reflexivity.
        simpl. destruct (lookup "timestamp" t); simpl in Hf |- *; try rewrite Hf;
          destruct (lookup "creationTime" d) as [[]|]; simpl in *;
          try reflexivity; exfalso; apply H; exact I.
      + destruct (lookup "creationTime" d) as [[]|]; simpl in *;
          try reflexivity; exfalso; apply H; exact I. }
  split; [exact Ht |].
  unfold update_metadata_with_exiftool, bind. now rewrite Ht.
Qed.

Lemma X17_witness_null_time :
  timestamp_args (Examples.rel ["output"; "photo.jpg"])
    (VDict [("photoTakenTime", VNone)]) []
  = (Raise AttributeError, [])
  /\ update_metadata_with_exiftool Examples.photo_env
       (Examples.rel ["output"; "photo.jpg"])
       (VDict [("photoTakenTime", VNone)]) []
     = (Raise AttributeError, []).
Proof.
  refine (X17_non_object_time_entry_raises Examples.photo_env
            (Examples.rel ["output"; "photo.jpg"])
            [("photoTakenTime", VNone)] [] _).
  left. simpl. intros H. exact H.
Defined.

End MalformedFields.
